(** * flyteadmin: the serve entrypoint, the execution endpoints of the admin
    service and the resource-attribute manager

    A shallow embedding of

    - the [entrypoints] package's serve command (gRPC server construction,
      the HTTP mux, the insecure and the secure gateway),
    - [pkg/rpc/adminservice/execution.go] (the seven execution endpoints),
    - the resource manager exercised by
      [pkg/manager/impl/resources/resource_manager_test.go], with the
      serializer of its payloads,

    followed by the properties proved about them.  Go values are modelled
    as the code has them: nil-able pointers as [option], [(value, error)]
    results as pairs, panics and [os.Exit] as outcomes of a call. *)

From Stdlib Require Import ZArith Ascii String List Lia.
From stdpp Require Import base tactics option list strings gmap functions.

Set Warnings "-register-all".

Local Open Scope Z_scope.
Local Open Scope string_scope.

(* ===================================================================== *)
(** * The Go side: errors, status codes, outcomes of a call              *)
(* ===================================================================== *)

Module Go.

(** [google.golang.org/grpc/codes]. *)
Inductive Code : Type :=
| OK | Canceled | Unknown | InvalidArgument | DeadlineExceeded | NotFound
| AlreadyExists | PermissionDenied | ResourceExhausted | FailedPrecondition
| Aborted | OutOfRange | Unimplemented | Internal | Unavailable | DataLoss
| Unauthenticated.

#[global] Instance Code_eq_dec : EqDecision Code.
Proof. solve_decision. Defined.

(** Non-nil values of Go's [error] interface, as this program builds them:
    - [errorString]: an error of a collaborator (the network, the OS, the
      business layer), known by its text only;
    - [withMessage]: [github.com/pkg/errors]' [Wrap]/[Wrapf];
    - [statusError]: [google.golang.org/grpc/status.Errorf]. *)
Inductive error : Type :=
| errorString (s : string)
| withMessage (cause : error) (msg : string)
| statusError (c : Code) (msg : string).

#[global] Instance error_eq_dec : EqDecision error.
Proof. solve_decision. Defined.

(** The method [Error()]: pkg/errors prints a wrapped error as
    [msg + ": " + cause.Error()]; a status error as
    [rpc error: code = ... desc = ...], of which only the description is kept
    here. *)
Fixpoint Error (e : error) : string :=
  match e with
  | errorString s => s
  | withMessage cause msg => msg ++ ": " ++ Error cause
  | statusError _ msg => msg
  end.

(** [errors.Wrap(err, message)] for a non-nil [err] ([Wrap] of nil is nil;
    every call site of this program is guarded by [err != nil]). *)
Definition Wrap (err : error) (message : string) : error :=
  withMessage err message.

(** [errors.Cause]: the innermost error of a chain of wraps. *)
Fixpoint Cause (e : error) : error :=
  match e with
  | withMessage cause _ => Cause cause
  | _ => e
  end.

(** [status.Errorf(c, msg)] and [status.Code(err)] ([Unknown] for an error
    that is no status error). *)
Definition status_Errorf (c : Code) (msg : string) : error := statusError c msg.

Definition status_Code (e : error) : Code :=
  match e with
  | statusError c _ => c
  | _ => Unknown
  end.

(** How a call ends: it returns, it panics with a value, or the process
    exits ([os.Exit], reached through [logger.Fatalf]). *)
Inductive Outcome (A : Type) : Type :=
| Returned (a : A)
| Panicked (v : error)
| Exited (status : Z).
Arguments Returned {A} a.
Arguments Panicked {A} v.
Arguments Exited {A} status.

(** A Go function with effects on a state [S]. *)
Definition M (S A : Type) : Type := S -> Outcome A * S.

Definition ret {S A} (a : A) : M S A := fun s => (Returned a, s).

Definition bind {S A B} (c : M S A) (k : A -> M S B) : M S B :=
  fun s =>
    match c s with
    | (Returned a, s') => k a s'
    | (Panicked v, s') => (Panicked v, s')
    | (Exited n, s') => (Exited n, s')
    end.

Definition panic {S A} (v : error) : M S A := fun s => (Panicked v, s).

Definition modify {S} (f : S -> S) : M S unit := fun s => (Returned tt, f s).

Definition gets {S A} (f : S -> A) : M S A := fun s => (Returned (f s), s).

(** Whether a deferred call stopped the panic it found ([recover()] was
    called while panicking) or left it alone. *)
Inductive Recovery : Type := Recovered | NotRecovered.

(** A deferred call: it is told the panic in flight ([None] when the
    function is returning normally, so that [recover()] yields nil). *)
Definition Deferred (S : Type) : Type := option error -> M S Recovery.

(** [defer d; body] in a function whose results are unnamed, as every
    function of this program that defers: the deferred call runs when the
    body returns or panics.  After a normal return the results are the ones
    the body returned.  After a panic that the deferred call recovers, the
    function returns the zero values of its result types, because a
    deferred call can reach named results only.  A panic it leaves alone
    goes on to the caller; a panic of its own replaces the first one;
    [os.Exit] runs no deferred call. *)
Definition defer {S A} (d : Deferred S) (zero : A) (body : M S A) : M S A :=
  fun s =>
    match body s with
    | (Returned a, s1) =>
        match d None s1 with
        | (Returned _, s2) => (Returned a, s2)
        | (Panicked v, s2) => (Panicked v, s2)
        | (Exited n, s2) => (Exited n, s2)
        end
    | (Panicked v, s1) =>
        match d (Some v) s1 with
        | (Returned Recovered, s2) => (Returned zero, s2)
        | (Returned NotRecovered, s2) => (Panicked v, s2)
        | (Panicked v', s2) => (Panicked v', s2)
        | (Exited n, s2) => (Exited n, s2)
        end
    | (Exited n, s1) => (Exited n, s1)
    end.

(** [strings.HasPrefix(s, prefix)]. *)
Fixpoint HasPrefix (s prefix : string) : bool :=
  match prefix, s with
  | EmptyString, _ => true
  | String _ _, EmptyString => false
  | String c p, String d t => if Ascii.eqb c d then HasPrefix t p else false
  end.

(** [strings.Contains(s, substr)]: [substr] occurs in [s] at some byte
    offset. *)
Fixpoint Contains (s substr : string) : bool :=
  if HasPrefix s substr then true
  else match s with
       | EmptyString => false
       | String _ t => Contains t substr
       end.

End Go.

Notation "x <- c ;; k" := (Go.bind c (fun x => k))
  (at level 100, c at next level, right associativity).
Notation "c ;; k" := (Go.bind c (fun _ => k))
  (at level 100, right associativity).

(* ===================================================================== *)
(** * Package entrypoints: the serve command                             *)
(* ===================================================================== *)

Module Entrypoints.
Import Go.

(** ** Configuration ([pkg/config], read through its accessors) *)

Record SslOptions : Type := {
  CertificateFile : string;
  KeyFile : string
}.

(** [auth.OAuthOptions]: handed to [auth.NewAuthenticationContext] as it
    is, never inspected by this package. *)
Definition OAuthOptions : Type := string.

Record ServerSecurityOptions : Type := {
  Secure : bool;
  Ssl : SslOptions;
  UseAuth : bool;
  Oauth : OAuthOptions;
  AllowCors : bool;
  AllowedOrigins : list string;
  AllowedHeaders : list string
}.

(** [GetHostAddress] and [GetGrpcHostAddress] are methods of the
    configuration; the strings they return are kept as fields. *)
Record ServerConfig : Type := {
  Security : ServerSecurityOptions;
  GrpcServerReflection : bool;
  KubeConfig : string;
  Master : string;
  GetHostAddress : string;
  GetGrpcHostAddress : string
}.

(** ** Values of the libraries, as far as this package builds them *)

(** [interfaces.AuthenticationContext]; the one method this package calls
    on it is [GetUserInfoURL] (nil, or a URL with its [String()]). *)
Record AuthenticationContext : Type := {
  GetUserInfoURL : option string
}.

(** [auth.GetAuthenticationInterceptor(authContext)], the function handed
    to [grpcauth.UnaryServerInterceptor]. *)
Inductive AuthFunc : Type :=
| GetAuthenticationInterceptor (authContext : option AuthenticationContext).

(** Unary server interceptors, by the expressions that build them. *)
Inductive UnaryServerInterceptor : Type :=
| grpc_prometheus_UnaryServerInterceptor
| GetAuthenticationCustomMetadataInterceptor
    (authContext : option AuthenticationContext)
| grpcauth_UnaryServerInterceptor (authFunc : AuthFunc)
| AuthenticationLoggingInterceptor
| ChainUnaryServer (interceptors : list UnaryServerInterceptor).

Inductive StreamServerInterceptor : Type :=
| grpc_prometheus_StreamServerInterceptor.

Definition CertPool : Type := string.
Definition Certificate : Type := string.

Inductive ServerOption : Type :=
| StreamInterceptor (i : StreamServerInterceptor)
| UnaryInterceptor (i : UnaryServerInterceptor)
| Creds (serverTLSFromCert : Certificate).

(** What is registered on a gRPC server. *)
Inductive Registration : Type :=
| grpc_prometheus_Register
| RegisterAdminServiceServer (kubeConfig master : string)
| reflection_Register.

Record GrpcServer : Type := {
  serverOpts : list ServerOption;
  registered : list Registration
}.

(** [tls.Config], with the fields this package sets. *)
Record TLSConfig : Type := {
  ServerName : string;
  RootCAs : option CertPool;
  Certificates : list Certificate;
  NextProtos : list string
}.

Inductive DialOption : Type :=
| WithInsecure
| WithTransportCredentials (newTLS : TLSConfig).

(** Options of the grpc-gateway mux. *)
Inductive ServeMuxOption : Type :=
| WithMarshalerOption (mime : string) (protoMarshaller : unit)
| WithMetadata_CookieToMetadata (authContext : option AuthenticationContext)
| WithMetadata_MetadataTagging (authContext : option AuthenticationContext).

(** What is registered on the HTTP mux. *)
Inductive MuxHandler : Type :=
| healthCheck
| HandleOpenapiSpec
| RefreshTokensIfExists (authContext : AuthenticationContext) (h : MuxHandler)
| GetLoginHandler (authContext : AuthenticationContext)
| GetCallbackHandler (authContext : AuthenticationContext)
| GetMeEndpointHandler (authContext : AuthenticationContext)
| GetMetadataEndpointRedirectHandler (authContext : AuthenticationContext)
| gwmux (options : list ServeMuxOption) (endpoint : string)
        (dialOpts : list DialOption).

(** [*http.ServeMux]: the patterns in the order they were registered. *)
Definition ServeMux : Type := list (string * MuxHandler).

(** [http.Header] and the part of [*http.Request] that is read here. *)
Definition Header : Type := gmap string (list string).

Record Request : Type := {
  Method : string;
  Path : string;
  ProtoMajor : Z;
  Hdr : Header
}.

(** [Header.Get(key)]: the first value stored under the canonical form of
    [key], or the empty string.  The only key this package asks for,
    [Content-Type], is in canonical form as written. *)
Definition Header_Get (h : Header) (key : string) : string :=
  match h !! key with
  | Some (v :: _) => v
  | _ => ""
  end.

(** Options of [github.com/gorilla/handlers]' CORS middleware. *)
Inductive CORSOption : Type :=
| AllowCredentials
| AllowedOriginsOpt (origins : list string)
| AllowedHeadersOpt (headers : list string)
| AllowedMethods (methods : list string).

(** [http.Handler] values.  [HandlerFunc f] is a handler that, for a
    request [r], hands the request to the handler [f r]. *)
Inductive Handler : Type :=
| MuxServeHTTP (mux : ServeMux)
| GrpcServeHTTP (grpcServer : GrpcServer)
| CORS (options : list CORSOption) (h : Handler)
| HandlerFunc (f : Request -> Handler).

(** The handler a request is handed to by [h.ServeHTTP(w, r)], one step
    down. *)
Definition delegate (h : Handler) (r : Request) : Handler :=
  match h with
  | HandlerFunc f => f r
  | _ => h
  end.

Record HttpServer : Type := {
  Addr : string;
  Handler_ : Handler;
  TLSConfig_ : TLSConfig
}.

Definition Listener : Type := string.

(** ** The world outside: what the calls into the OS, the network and the
    generated packages answer *)

Record Platform : Type := {
  (** [auth.NewAuthenticationContext(ctx, options)] *)
  NewAuthenticationContext : OAuthOptions -> AuthenticationContext + error;
  (** [server.GetSslCredentials(ctx, certFile, keyFile)] *)
  GetSslCredentials : string -> string -> (CertPool * Certificate) + error;
  (** [net.Listen(network, address)] *)
  net_Listen : string -> string -> Listener + error;
  (** [flyteService.RegisterAdminServiceHandlerFromEndpoint] *)
  RegisterAdminServiceHandlerFromEndpoint :
    string -> list DialOption -> option error;
  (** what [http.ListenAndServe(addr, _)] returns when it stops *)
  http_ListenAndServe : string -> option error;
  (** what [srv.Serve(listener)] returns when it stops *)
  Server_Serve : Listener -> option error;
  (** [flyteService.Asset(name)], the bundled files *)
  Asset : string -> list Byte.byte + error;
  (** the constant [auth.MetadataEndpoint] *)
  MetadataEndpoint : string
}.

(** What a run of the serve command does, in order. *)
Inductive Level : Type := InfoLevel | WarningLevel | ErrorLevel | FatalLevel.

Inductive Event : Type :=
| Logged (level : Level) (msg : string)
| Listened (network address : string)
| GoServe (grpcServer : GrpcServer) (lis : Listener)
| ListenAndServe (addr : string) (h : Handler)
| Serve (tlsListener : Listener) (srv : HttpServer).

Definition Trace : Type := list Event.

Definition emit (e : Event) : M Trace unit := modify (fun t => (t ++ [e])%list).
Definition Infof (msg : string) : M Trace unit := emit (Logged InfoLevel msg).
Definition Errorf (msg : string) : M Trace unit := emit (Logged ErrorLevel msg).

Definition Warningf (msg : string) : M Trace unit :=
  emit (Logged WarningLevel msg).

(** A call that logs nothing and starts nothing, made during a run. *)
Definition quiet {A} (c : M unit A) : M Trace A :=
  fun t => (fst (c tt), t).

Definition defaultCorsHeaders : list string := ["Content-Type"].

(** ** newGRPCServer *)

(** The value of the variable [chainedUnaryInterceptors] after the
    [if cfg.Security.UseAuth] of [newGRPCServer]. *)
Definition chainedUnaryInterceptors (cfg : ServerConfig)
    (authContext : option AuthenticationContext) : UnaryServerInterceptor :=
  if UseAuth (Security cfg) then
    ChainUnaryServer
      [ grpc_prometheus_UnaryServerInterceptor;
        GetAuthenticationCustomMetadataInterceptor authContext;
        grpcauth_UnaryServerInterceptor (GetAuthenticationInterceptor authContext);
        AuthenticationLoggingInterceptor ]
  else
    ChainUnaryServer [ grpc_prometheus_UnaryServerInterceptor ].

(** [newGRPCServer] never returns an error: its result is the server. *)
Definition newGRPCServer (cfg : ServerConfig)
    (authContext : option AuthenticationContext) (opts : list ServerOption)
    : M Trace (GrpcServer + error) :=
  (if UseAuth (Security cfg)
   then Infof "Creating gRPC server with authentication"
   else Infof "Creating gRPC server without authentication") ;;
  let serverOpts :=
    [ StreamInterceptor grpc_prometheus_StreamServerInterceptor;
      UnaryInterceptor (chainedUnaryInterceptors cfg authContext) ] in
  let serverOpts := (serverOpts ++ opts)%list in
  let grpcServer :=
    {| serverOpts := serverOpts;
       registered :=
         ([ grpc_prometheus_Register;
            RegisterAdminServiceServer (KubeConfig cfg) (Master cfg) ]
          ++ (if GrpcServerReflection cfg then [reflection_Register] else []))%list
    |} in
  ret (inl grpcServer).

(** ** The running interceptors

    What the interceptors do when a call comes in, over a world [W] of
    effects.  The interceptors of [grpc_prometheus] and of [pkg/auth] are
    collaborators ([Middleware]); [grpc_middleware.ChainUnaryServer] and
    [grpcauth.UnaryServerInterceptor] are written out. *)

Section Interceptors.
Context {W Ctx Req Resp : Type}.

Definition UnaryHandler : Type :=
  Ctx -> Req -> M W (option Resp * option error).

(** [grpc.UnaryServerInfo]: the method called, and whether the service
    implements [grpcauth.ServiceAuthFuncOverride]. *)
Record UnaryServerInfo : Type := {
  AuthFuncOverride : option (Ctx -> string -> M W (Ctx * option error));
  FullMethod : string
}.

Definition Interceptor : Type :=
  Ctx -> Req -> UnaryServerInfo -> UnaryHandler ->
  M W (option Resp * option error).

Record Middleware : Type := {
  prometheusInterceptor : Interceptor;
  customMetadataInterceptor : option AuthenticationContext -> Interceptor;
  authenticationInterceptor :
    option AuthenticationContext -> Ctx -> M W (Ctx * option error);
  loggingInterceptor : Interceptor
}.

(** [grpcauth.UnaryServerInterceptor(authFunc)]: the per-service override
    when the service has one, [authFunc] otherwise, yields a new context or
    an error ([verify]); on an error the call ends there with [(nil, err)],
    otherwise the handler goes on with the new context. *)
Definition verify (authFunc : Ctx -> M W (Ctx * option error))
    (info : UnaryServerInfo) (ctx : Ctx) : M W (Ctx * option error) :=
  match AuthFuncOverride info with
  | Some overrideSrv => overrideSrv ctx (FullMethod info)
  | None => authFunc ctx
  end.

Definition grpcauth_interceptor
    (authFunc : Ctx -> M W (Ctx * option error)) : Interceptor :=
  fun ctx req info handler =>
    r <- verify authFunc info ctx ;;
    match snd r with
    | Some err => ret (None, Some err)
    | None => handler (fst r) req
    end.

(** [run mw i]: the interceptor [i] at work.  [ChainUnaryServer] makes the
    first interceptor the outermost one: each is called with a handler that
    runs the rest of the chain, and the last with the handler of the
    call. *)
Fixpoint run (mw : Middleware) (i : UnaryServerInterceptor) : Interceptor :=
  match i with
  | grpc_prometheus_UnaryServerInterceptor => prometheusInterceptor mw
  | GetAuthenticationCustomMetadataInterceptor a => customMetadataInterceptor mw a
  | grpcauth_UnaryServerInterceptor (GetAuthenticationInterceptor a) =>
      grpcauth_interceptor (authenticationInterceptor mw a)
  | AuthenticationLoggingInterceptor => loggingInterceptor mw
  | ChainUnaryServer interceptors =>
      fun ctx req info handler =>
        (fix chain (l : list UnaryServerInterceptor) : UnaryHandler :=
           match l with
           | [] => handler
           | i :: rest => fun ctx req => run mw i ctx req info (chain rest)
           end) interceptors ctx req
  end.

End Interceptors.
Arguments UnaryHandler : clear implicits.
Arguments UnaryServerInfo : clear implicits.
Arguments Interceptor : clear implicits.
Arguments Middleware : clear implicits.

(** ** The handlers of the HTTP mux *)

Definition StatusOK : Z := 200.
Definition StatusFailedDependency : Z := 424.

(** [http.ResponseWriter], over the state [RW] of an implementation. *)
Class ResponseWriter (RW : Type) : Type := {
  WriteHeader : Z -> RW -> RW;
  Write : list Byte.byte -> RW -> (Z * option error) * RW
}.

(** [httptest.ResponseRecorder]: the status code of the first
    [WriteHeader] (200 before any), and the bytes written; its [Write]
    writes the header first when none was written and never fails. *)
Record ResponseRecorder : Type := {
  Code_ : Z;
  wroteHeader : bool;
  Body : list Byte.byte
}.

Definition NewRecorder : ResponseRecorder :=
  {| Code_ := 200; wroteHeader := false; Body := [] |}.

Definition recorderWriteHeader (code : Z) (rw : ResponseRecorder)
    : ResponseRecorder :=
  if wroteHeader rw then rw
  else {| Code_ := code; wroteHeader := true; Body := Body rw |}.

Definition recorderWrite (buf : list Byte.byte) (rw : ResponseRecorder)
    : (Z * option error) * ResponseRecorder :=
  let rw := recorderWriteHeader 200 rw in
  ((Z.of_nat (length buf), None),
   {| Code_ := Code_ rw; wroteHeader := true; Body := (Body rw ++ buf)%list |}).

#[global] Instance ResponseRecorder_writer : ResponseWriter ResponseRecorder :=
  {| WriteHeader := recorderWriteHeader; Write := recorderWrite |}.

(** A handler works on the response writer and on the log. *)
Definition onWriter {RW A} (f : RW -> A * RW) : M (RW * Trace) A :=
  fun s => let '(a, w) := f (fst s) in (Returned a, (w, snd s)).

Definition logged {RW} (level : Level) (msg : string) : M (RW * Trace) unit :=
  modify (fun s => (fst s, (snd s ++ [Logged level msg])%list)).

Definition GetHandleOpenapiSpec {RW} `{ResponseWriter RW} (P : Platform)
    (r : Request) : M (RW * Trace) unit :=
  match Asset P "admin.swagger.json" with
  | inr err =>
      logged WarningLevel ("Err " ++ Error err) ;;
      onWriter (fun w => (tt, WriteHeader StatusFailedDependency w))
  | inl swaggerBytes =>
      onWriter (fun w => (tt, WriteHeader StatusOK w)) ;;
      res <- onWriter (fun w => Write swaggerBytes w) ;;
      match snd res with
      | Some err =>
          logged ErrorLevel
            ("failed to write openAPI information, error: " ++ Error err)
      | None => ret tt
      end
  end.

Definition healthCheckFunc {RW} `{ResponseWriter RW} (r : Request)
    : M (RW * Trace) unit :=
  onWriter (fun w => (tt, WriteHeader StatusOK w)).

(** ** newHTTPServer *)

(** [mux.HandleFunc(pattern, h)] and [mux.Handle]: an empty pattern and a
    pattern registered before panic.  Building the mux logs nothing and
    starts nothing: its only effect is a possible panic. *)
Definition HandleFunc (pattern : string) (h : MuxHandler) (mux : ServeMux)
    : M unit ServeMux :=
  if String.eqb pattern "" then panic (errorString "http: invalid pattern")
  else if existsb (fun e => String.eqb (fst e) pattern) mux
       then panic (errorString ("http: multiple registrations for " ++ pattern))
       else ret (mux ++ [(pattern, h)])%list.

(** [ServeMux.match], on the path it is handed: the handler registered for
    exactly this path, or else the one with the longest pattern ending in a
    slash that is a prefix of the path.  What [ServeMux.Handler] does to the
    path of a request before it calls [match] (it cleans the path, and
    answers a path that it had to clean with a redirect) is not part of
    it. *)
Definition endsInSlash (pattern : string) : bool :=
  match String.length pattern with
  | O => false
  | S n => match String.get n pattern with
           | Some c => Ascii.eqb c "/"
           | None => false
           end
  end.

Definition longer (best : option (string * MuxHandler))
    (e : string * MuxHandler) : option (string * MuxHandler) :=
  match best with
  | Some b => if Nat.ltb (String.length (fst b)) (String.length (fst e))
              then Some e else best
  | None => Some e
  end.

Definition ServeMux_match (mux : ServeMux) (path : string)
    : option (string * MuxHandler) :=
  match List.find (fun e => String.eqb (fst e) path) mux with
  | Some e => Some e
  | None =>
      fold_left longer
        (List.filter (fun e => endsInSlash (fst e) && HasPrefix path (fst e)) mux)
        None
  end.

Definition newHTTPServer (P : Platform) (cfg : ServerConfig)
    (authContext : option AuthenticationContext) (grpcAddress : string)
    (grpcConnectionOpts : list DialOption) : M unit (ServeMux + error) :=
  let mux : ServeMux := [] in
  mux <- HandleFunc "/healthcheck" healthCheck mux ;;
  mux <- HandleFunc "/api/v1/openapi" HandleOpenapiSpec mux ;;
  let gwmuxOptions := [WithMarshalerOption "application/octet-stream" tt] in
  r <- (if UseAuth (Security cfg) then
          match authContext with
          | None =>
              (* a method call on a nil interface value *)
              panic (errorString "invalid memory address or nil pointer dereference")
          | Some ac =>
              mux <- HandleFunc "/login"
                       (RefreshTokensIfExists ac (GetLoginHandler ac)) mux ;;
              mux <- HandleFunc "/callback" (GetCallbackHandler ac) mux ;;
              mux <- (match GetUserInfoURL ac with
                      | Some url =>
                          if negb (String.eqb url "")
                          then HandleFunc "/me" (GetMeEndpointHandler ac) mux
                          else ret mux
                      | None => ret mux
                      end) ;;
              mux <- HandleFunc ("/" ++ MetadataEndpoint P)
                       (GetMetadataEndpointRedirectHandler ac) mux ;;
              ret (mux,
                   (gwmuxOptions
                    ++ [WithMetadata_CookieToMetadata authContext]
                    ++ [WithMetadata_MetadataTagging authContext])%list)
          end
        else ret (mux, gwmuxOptions)) ;;
  let mux := fst r in
  let gwmuxOptions := snd r in
  match RegisterAdminServiceHandlerFromEndpoint P grpcAddress grpcConnectionOpts with
  | Some err => ret (inr (Wrap err "error registering admin service"))
  | None =>
      mux <- HandleFunc "/" (gwmux gwmuxOptions grpcAddress grpcConnectionOpts) mux ;;
      ret (inl mux)
  end.

(** ** serveGatewayInsecure *)

(** The two branches that create the authentication context, shared by
    both gateways: [Some] context when [UseAuth] is set, the nil interface
    otherwise; a failure is logged and is the error of the gateway. *)
Definition authContextOf (P : Platform) (cfg : ServerConfig)
    : M Trace (option AuthenticationContext + error) :=
  if UseAuth (Security cfg) then
    match NewAuthenticationContext P (Oauth (Security cfg)) with
    | inr err =>
        Errorf ("Error creating auth context " ++ Error err) ;;
        ret (inr err)
    | inl authContext => ret (inl (Some authContext))
    end
  else ret (inl None).

(** [serveGatewayInsecure], as the goroutine that calls it runs it.
    [GoServe] is the [go] statement: the start of a second goroutine, which
    calls [grpcServer.Serve(lis)] and, should that return, ends the process
    through [logger.Fatalf].  That goroutine runs beside this one and is not
    followed here: what is defined is what this function does, up to and
    with its return, in a process that lives that long. *)
Definition serveGatewayInsecure (P : Platform) (cfg : ServerConfig)
    : M Trace (option error) :=
  Infof "Serving Flyte Admin Insecure" ;;
  a <- authContextOf P cfg ;;
  match a with
  | inr err => ret (Some err)
  | inl authContext =>
  g <- newGRPCServer cfg authContext [] ;;
  match g with
  | inr err => ret (Some (Wrap err "failed to create GRPC server"))
  | inl grpcServer =>
  Infof ("Serving GRPC Traffic on: " ++ GetGrpcHostAddress cfg) ;;
  match net_Listen P "tcp" (GetGrpcHostAddress cfg) with
  | inr err =>
      ret (Some (Wrap err ("failed to listen on GRPC port: "
                           ++ GetGrpcHostAddress cfg)))
  | inl lis =>
  emit (GoServe grpcServer lis) ;;
  Infof ("Starting HTTP/1 Gateway server on " ++ GetHostAddress cfg) ;;
  h <- quiet (newHTTPServer P cfg authContext (GetGrpcHostAddress cfg)
                [WithInsecure]) ;;
  match h with
  | inr err => ret (Some err)
  | inl httpServer =>
  let handler :=
    if AllowCors (Security cfg) then
      CORS [ AllowCredentials;
             AllowedOriginsOpt (AllowedOrigins (Security cfg));
             AllowedHeadersOpt
               (defaultCorsHeaders ++ AllowedHeaders (Security cfg))%list;
             AllowedMethods ["GET"; "POST"; "DELETE"; "HEAD"; "PUT"; "PATCH"] ]
           (MuxServeHTTP httpServer)
    else MuxServeHTTP httpServer in
  emit (ListenAndServe (GetHostAddress cfg) handler) ;;
  match http_ListenAndServe P (GetHostAddress cfg) with
  | Some err => ret (Some (Wrap err "failed to Start HTTP Server"))
  | None => ret None
  end end end end end.

(** ** grpcHandlerFunc *)

Definition grpcHandlerFunc (grpcServer : GrpcServer) (otherHandler : Handler)
    : Handler :=
  HandlerFunc (fun r =>
    if (ProtoMajor r =? 2)%Z
       && Contains (Header_Get (Hdr r) "Content-Type") "application/grpc"
    then GrpcServeHTTP grpcServer
    else otherHandler).

(** ** serveGatewaySecure *)

Definition serveGatewaySecure (P : Platform) (cfg : ServerConfig)
    : M Trace (option error) :=
  match GetSslCredentials P (CertificateFile (Ssl (Security cfg)))
                            (KeyFile (Ssl (Security cfg))) with
  | inr err => ret (Some err)
  | inl (certPool, cert) =>
  a <- authContextOf P cfg ;;
  match a with
  | inr err => ret (Some err)
  | inl authContext =>
  g <- newGRPCServer cfg authContext [Creds cert] ;;
  match g with
  | inr err => ret (Some (Wrap err "failed to create GRPC server"))
  | inl grpcServer =>
  let dialCreds :=
    {| ServerName := GetHostAddress cfg; RootCAs := Some certPool;
       Certificates := []; NextProtos := [] |} in
  h <- quiet (newHTTPServer P cfg authContext (GetHostAddress cfg)
                [WithTransportCredentials dialCreds]) ;;
  match h with
  | inr err => ret (Some err)
  | inl httpServer =>
  match net_Listen P "tcp" (GetHostAddress cfg) with
  | inr err => panic err
  | inl conn =>
  let srv :=
    {| Addr := GetHostAddress cfg;
       Handler_ := grpcHandlerFunc grpcServer (MuxServeHTTP httpServer);
       TLSConfig_ :=
         {| ServerName := ""; RootCAs := None;
            Certificates := [cert]; NextProtos := ["h2"] |} |} in
  emit (Serve conn srv) ;;
  match Server_Serve P conn with
  | Some err => ret (Some (Wrap err "failed to Start HTTP/2 Server"))
  | None => ret None
  end end end end end end.

(** The [RunE] of [serveCmd]. *)
Definition serveCmd_RunE (P : Platform) (serverConfig : ServerConfig)
    : M Trace (option error) :=
  if Secure (Security serverConfig)
  then serveGatewaySecure P serverConfig
  else serveGatewayInsecure P serverConfig.

End Entrypoints.

(* ===================================================================== *)
(** * Package adminservice: the execution endpoints (execution.go)       *)
(* ===================================================================== *)

Module AdminService.
Import Go.

(** [context.Context] and the messages of flyteidl's [admin] package: the
    endpoints pass them on and never look inside. *)
Definition Context : Type := string.
Definition Message : Type := string.
Definition Time : Type := Z.

(** The fields of [m.Metrics.executionEndpointMetrics]. *)
Module executionEndpointMetrics.
Inductive field : Type :=
| create | relaunch | createEvent | get | getData | list | terminate.
End executionEndpointMetrics.
Abbreviation field := executionEndpointMetrics.field.

#[global] Instance field_eq_dec : EqDecision field.
Proof. solve_decision. Defined.

(** [util.RequestMetrics], by what its three uses here leave behind: the
    durations observed by [Time], the successes counted by [Success], the
    status codes recorded through [TransformAndRecordError]. *)
Record RequestMetrics : Type := {
  requestDuration : nat;
  successCount : nat;
  errCodes : Datatypes.list Code
}.

Definition newRequestMetrics : RequestMetrics :=
  {| requestDuration := 0; successCount := 0; errCodes := [] |}.

(** The state an endpoint works on: the metrics of the service, its log,
    the clock, and the state [MS] of the business layer behind
    [m.ExecutionManager]. *)
Record ServiceState (MS : Type) : Type := {
  Metrics : field -> RequestMetrics;
  logs : Datatypes.list string;
  now : Time;
  manager : MS
}.
Arguments Metrics {MS} s.
Arguments logs {MS} s.
Arguments now {MS} s.
Arguments manager {MS} s.

Definition updMetrics {MS} (f : field) (g : RequestMetrics -> RequestMetrics)
    (s : ServiceState MS) : ServiceState MS :=
  {| Metrics := <[ f := g (Metrics s f) ]> (Metrics s);
     logs := logs s; now := now s; manager := manager s |}.

Definition observed (r : RequestMetrics) : RequestMetrics :=
  {| requestDuration := S (requestDuration r);
     successCount := successCount r; errCodes := errCodes r |}.

Definition succeeded (r : RequestMetrics) : RequestMetrics :=
  {| requestDuration := requestDuration r;
     successCount := S (successCount r); errCodes := errCodes r |}.

Definition recorded (c : Code) (r : RequestMetrics) : RequestMetrics :=
  {| requestDuration := requestDuration r;
     successCount := successCount r; errCodes := (errCodes r ++ [c])%list |}.

(** [interfaces.ExecutionInterface], the business layer. *)
Record ExecutionInterface (MS : Type) : Type := {
  mgr_CreateExecution :
    Context -> Message -> Time -> M MS (option Message * option error);
  mgr_RelaunchExecution :
    Context -> Message -> Time -> M MS (option Message * option error);
  mgr_CreateWorkflowEvent :
    Context -> Message -> M MS (option Message * option error);
  mgr_GetExecution :
    Context -> Message -> M MS (option Message * option error);
  mgr_GetExecutionData :
    Context -> Message -> M MS (option Message * option error);
  mgr_ListExecutions :
    Context -> Message -> M MS (option Message * option error);
  mgr_TerminateExecution :
    Context -> Message -> M MS (option Message * option error)
}.
Arguments mgr_CreateExecution {MS} e.
Arguments mgr_RelaunchExecution {MS} e.
Arguments mgr_CreateWorkflowEvent {MS} e.
Arguments mgr_GetExecution {MS} e.
Arguments mgr_GetExecutionData {MS} e.
Arguments mgr_ListExecutions {MS} e.
Arguments mgr_TerminateExecution {MS} e.

(** [*AdminService].  Two of its collaborators are declared in files that
    are not part of the inspected sources and are kept as fields:
    - [transformError]: the error that [util.TransformAndRecordError]
      returns for an error of the manager;
    - [onPanic]: what [interceptPanic] (base.go) does once [recover()] has
      handed it a panic: it may log and count and return ([Recovered]),
      panic again, or end the process. *)
Record AdminService (MS : Type) : Type := {
  ExecutionManager : ExecutionInterface MS;
  transformError : error -> error;
  onPanic : Context -> option Message -> error -> M (ServiceState MS) Recovery
}.
Arguments ExecutionManager {MS} a.
Arguments transformError {MS} a.
Arguments onPanic {MS} a.

Section Endpoints.
Context {MS : Type}.
Abbreviation St := (ServiceState MS).
Abbreviation Result := (option Message * option error)%type.

(** A call into the business layer works on the [manager] part of the
    state. *)
Definition callManager {A} (c : M MS A) : M St A :=
  fun s =>
    let '(o, ms) := c (manager s) in
    (o, {| Metrics := Metrics s; logs := logs s; now := now s; manager := ms |}).

Definition time_Now : M St Time := gets now.

(** [metrics.Time(fn)] of [util.RequestMetrics], a package that is not
    part of the inspected sources: it runs [fn] and, once [fn] has
    returned, observes its duration.  Whether a duration is observed when
    [fn] panics cannot be read off the endpoints; here none is, and the
    properties of the endpoints either concern calls that the business layer
    answers or leave the metrics after a panic open. *)
Definition RequestMetrics_Time {A} (f : field) (fn : M St A) : M St A :=
  a <- fn ;;
  modify (updMetrics f observed) ;;
  ret a.

Definition RequestMetrics_Success (f : field) : M St unit :=
  modify (updMetrics f succeeded).

(** [util.TransformAndRecordError(err, &metrics)]: the transformed error,
    its status code recorded on the metrics object handed over. *)
Definition TransformAndRecordError (m : AdminService MS) (err : error)
    (f : field) : M St error :=
  let e := transformError m err in
  modify (updMetrics f (recorded (status_Code e))) ;;
  ret e.

(** Modelled from the spec: [interceptPanic] is declared in base.go, which
    is not part of the inspected sources.  The spec calls it the per-call
    panic recovery of an operation: it calls [recover()]; when no panic is
    in flight there is nothing for it to do; a panic in flight is handed,
    with the context and the request, to [onPanic]. *)
Definition interceptPanic (m : AdminService MS) (ctx : Context)
    (request : option Message) : Deferred St :=
  fun p =>
    match p with
    | None => ret NotRecovered
    | Some v => onPanic m ctx request v
    end.

Definition nilRequest : error :=
  status_Errorf InvalidArgument "Incorrect request, nil requests not allowed".

Definition CreateExecution (m : AdminService MS) (ctx : Context)
    (request : option Message) : M St Result :=
  defer (interceptPanic m ctx request) (None, None) (
    requestedAt <- time_Now ;;
    match request with
    | None => ret (None, Some nilRequest)
    | Some request =>
        r <- RequestMetrics_Time executionEndpointMetrics.create
               (callManager
                  (mgr_CreateExecution (ExecutionManager m) ctx request requestedAt)) ;;
        match snd r with
        | Some err =>
            e <- TransformAndRecordError m err executionEndpointMetrics.create ;;
            ret (None, Some e)
        | None =>
            RequestMetrics_Success executionEndpointMetrics.create ;;
            ret (fst r, None)
        end
    end).

Definition RelaunchExecution (m : AdminService MS) (ctx : Context)
    (request : option Message) : M St Result :=
  defer (interceptPanic m ctx request) (None, None) (
    requestedAt <- time_Now ;;
    match request with
    | None => ret (None, Some nilRequest)
    | Some request =>
        r <- RequestMetrics_Time executionEndpointMetrics.relaunch
               (callManager
                  (mgr_RelaunchExecution (ExecutionManager m) ctx request requestedAt)) ;;
        match snd r with
        | Some err =>
            e <- TransformAndRecordError m err executionEndpointMetrics.relaunch ;;
            ret (None, Some e)
        | None =>
            RequestMetrics_Success executionEndpointMetrics.relaunch ;;
            ret (fst r, None)
        end
    end).

Definition CreateWorkflowEvent (m : AdminService MS) (ctx : Context)
    (request : option Message) : M St Result :=
  defer (interceptPanic m ctx request) (None, None) (
    match request with
    | None => ret (None, Some nilRequest)
    | Some request =>
        r <- RequestMetrics_Time executionEndpointMetrics.createEvent
               (callManager
                  (mgr_CreateWorkflowEvent (ExecutionManager m) ctx request)) ;;
        match snd r with
        | Some err =>
            e <- TransformAndRecordError m err executionEndpointMetrics.createEvent ;;
            ret (None, Some e)
        | None =>
            RequestMetrics_Success executionEndpointMetrics.createEvent ;;
            ret (fst r, None)
        end
    end).

Definition GetExecution (m : AdminService MS) (ctx : Context)
    (request : option Message) : M St Result :=
  defer (interceptPanic m ctx request) (None, None) (
    match request with
    | None => ret (None, Some nilRequest)
    | Some request =>
        r <- RequestMetrics_Time executionEndpointMetrics.get
               (callManager
                  (mgr_GetExecution (ExecutionManager m) ctx request)) ;;
        match snd r with
        | Some err =>
            e <- TransformAndRecordError m err executionEndpointMetrics.get ;;
            ret (None, Some e)
        | None =>
            RequestMetrics_Success executionEndpointMetrics.get ;;
            ret (fst r, None)
        end
    end).

Definition GetExecutionData (m : AdminService MS) (ctx : Context)
    (request : option Message) : M St Result :=
  defer (interceptPanic m ctx request) (None, None) (
    match request with
    | None => ret (None, Some nilRequest)
    | Some request =>
        r <- RequestMetrics_Time executionEndpointMetrics.get
               (callManager
                  (mgr_GetExecutionData (ExecutionManager m) ctx request)) ;;
        match snd r with
        | Some err =>
            e <- TransformAndRecordError m err executionEndpointMetrics.getData ;;
            ret (None, Some e)
        | None =>
            RequestMetrics_Success executionEndpointMetrics.getData ;;
            ret (fst r, None)
        end
    end).

Definition ListExecutions (m : AdminService MS) (ctx : Context)
    (request : option Message) : M St Result :=
  defer (interceptPanic m ctx request) (None, None) (
    match request with
    | None => ret (None, Some nilRequest)
    | Some request =>
        r <- RequestMetrics_Time executionEndpointMetrics.list
               (callManager
                  (mgr_ListExecutions (ExecutionManager m) ctx request)) ;;
        match snd r with
        | Some err =>
            e <- TransformAndRecordError m err executionEndpointMetrics.list ;;
            ret (None, Some e)
        | None =>
            RequestMetrics_Success executionEndpointMetrics.list ;;
            ret (fst r, None)
        end
    end).

Definition TerminateExecution (m : AdminService MS) (ctx : Context)
    (request : option Message) : M St Result :=
  defer (interceptPanic m ctx request) (None, None) (
    match request with
    | None => ret (None, Some nilRequest)
    | Some request =>
        r <- RequestMetrics_Time executionEndpointMetrics.terminate
               (callManager
                  (mgr_TerminateExecution (ExecutionManager m) ctx request)) ;;
        match snd r with
        | Some err =>
            e <- TransformAndRecordError m err executionEndpointMetrics.terminate ;;
            ret (None, Some e)
        | None =>
            RequestMetrics_Success executionEndpointMetrics.terminate ;;
            ret (fst r, None)
        end
    end).

(** The seven operations of the execution service, to state a property of
    all of them at once: [endpoint op] is the endpoint of [op], and
    [business op] the method of the manager that the endpoint calls (with
    the clock read at the call for the two that are handed the time). *)
Inductive Operation : Type :=
| OpCreateExecution | OpRelaunchExecution | OpCreateWorkflowEvent
| OpGetExecution | OpGetExecutionData | OpListExecutions
| OpTerminateExecution.

Definition endpoint (op : Operation)
    : AdminService MS -> Context -> option Message -> M St Result :=
  match op with
  | OpCreateExecution => CreateExecution
  | OpRelaunchExecution => RelaunchExecution
  | OpCreateWorkflowEvent => CreateWorkflowEvent
  | OpGetExecution => GetExecution
  | OpGetExecutionData => GetExecutionData
  | OpListExecutions => ListExecutions
  | OpTerminateExecution => TerminateExecution
  end.

Definition business (op : Operation) (m : AdminService MS) (ctx : Context)
    (request : Message) : M St Result :=
  match op with
  | OpCreateExecution =>
      fun s => callManager
                 (mgr_CreateExecution (ExecutionManager m) ctx request (now s)) s
  | OpRelaunchExecution =>
      fun s => callManager
                 (mgr_RelaunchExecution (ExecutionManager m) ctx request (now s)) s
  | OpCreateWorkflowEvent =>
      callManager (mgr_CreateWorkflowEvent (ExecutionManager m) ctx request)
  | OpGetExecution =>
      callManager (mgr_GetExecution (ExecutionManager m) ctx request)
  | OpGetExecutionData =>
      callManager (mgr_GetExecutionData (ExecutionManager m) ctx request)
  | OpListExecutions =>
      callManager (mgr_ListExecutions (ExecutionManager m) ctx request)
  | OpTerminateExecution =>
      callManager (mgr_TerminateExecution (ExecutionManager m) ctx request)
  end.

(** The metrics object an operation is timed under and the one its
    outcome is recorded under, as the claim about [GetExecutionData] words
    them: the two are the operation's own object, except that
    [GetExecutionData] is timed under [get] and recorded under
    [getData]. *)
Definition timingMetric (op : Operation) : field :=
  match op with
  | OpCreateExecution => executionEndpointMetrics.create
  | OpRelaunchExecution => executionEndpointMetrics.relaunch
  | OpCreateWorkflowEvent => executionEndpointMetrics.createEvent
  | OpGetExecution => executionEndpointMetrics.get
  | OpGetExecutionData => executionEndpointMetrics.get
  | OpListExecutions => executionEndpointMetrics.list
  | OpTerminateExecution => executionEndpointMetrics.terminate
  end.

Definition outcomeMetric (op : Operation) : field :=
  match op with
  | OpCreateExecution => executionEndpointMetrics.create
  | OpRelaunchExecution => executionEndpointMetrics.relaunch
  | OpCreateWorkflowEvent => executionEndpointMetrics.createEvent
  | OpGetExecution => executionEndpointMetrics.get
  | OpGetExecutionData => executionEndpointMetrics.getData
  | OpListExecutions => executionEndpointMetrics.list
  | OpTerminateExecution => executionEndpointMetrics.terminate
  end.

End Endpoints.

(** A manager that keeps, before the state of the manager it stands for,
    the list of the calls made to it, as a mock does. *)
Definition spied {MS A} (op : Operation) (c : M MS A)
    : M (Datatypes.list Operation * MS) A :=
  fun s => let '(o, ms) := c (snd s) in (o, ((fst s ++ [op])%list, ms)).

Definition spy {MS} (e : ExecutionInterface MS)
    : ExecutionInterface (Datatypes.list Operation * MS) :=
  {| mgr_CreateExecution := fun ctx req at_ =>
       spied OpCreateExecution (mgr_CreateExecution e ctx req at_);
     mgr_RelaunchExecution := fun ctx req at_ =>
       spied OpRelaunchExecution (mgr_RelaunchExecution e ctx req at_);
     mgr_CreateWorkflowEvent := fun ctx req =>
       spied OpCreateWorkflowEvent (mgr_CreateWorkflowEvent e ctx req);
     mgr_GetExecution := fun ctx req =>
       spied OpGetExecution (mgr_GetExecution e ctx req);
     mgr_GetExecutionData := fun ctx req =>
       spied OpGetExecutionData (mgr_GetExecutionData e ctx req);
     mgr_ListExecutions := fun ctx req =>
       spied OpListExecutions (mgr_ListExecutions e ctx req);
     mgr_TerminateExecution := fun ctx req =>
       spied OpTerminateExecution (mgr_TerminateExecution e ctx req) |}.

End AdminService.

(* ===================================================================== *)
(** * Package resources: the resource manager                            *)
(* ===================================================================== *)

(** Of this package the sources hold the tests only
    (resource_manager_test.go).  The types below are the ones the tests
    build and inspect; the manager itself is modelled from the spec
    (section 4.4), over a store that is the spec's attribute store
    interface. *)

Module Resources.
Import Go.

Definition bytes : Type := list Byte.byte.

(** [admin.MatchableResource] and its [String()]. *)
Inductive MatchableResource : Type :=
| TASK_RESOURCE | CLUSTER_RESOURCE | EXECUTION_QUEUE.

#[global] Instance MatchableResource_eq_dec : EqDecision MatchableResource.
Proof. solve_decision. Defined.

Definition MatchableResource_String (r : MatchableResource) : string :=
  match r with
  | TASK_RESOURCE => "TASK_RESOURCE"
  | CLUSTER_RESOURCE => "CLUSTER_RESOURCE"
  | EXECUTION_QUEUE => "EXECUTION_QUEUE"
  end.

(** [admin.MatchingAttributes], the typed override: one of the
    resource-type-specific structures. *)
Record TaskResourceSpec : Type := {
  cpu : string; gpu : string; memory : string; storage : string
}.

Inductive MatchingAttributes : Type :=
| TaskResourceAttributes (defaults limits : TaskResourceSpec)
| ClusterResourceAttributes (attributes : list (string * string))
| ExecutionQueueAttributes (tags : list string).

(** The resource type a typed override belongs to. *)
Definition resourceOf (a : MatchingAttributes) : MatchableResource :=
  match a with
  | TaskResourceAttributes _ _ => TASK_RESOURCE
  | ClusterResourceAttributes _ => CLUSTER_RESOURCE
  | ExecutionQueueAttributes _ => EXECUTION_QUEUE
  end.

(** [models.Resource] and [interfaces.ResourceID], with the fields the
    tests set and check. *)
Record Resource : Type := {
  Project : string;
  Domain : string;
  Workflow : string;
  LaunchPlan : string;
  ResourceType : string;
  Attributes : bytes
}.

Record ResourceID : Type := {
  ID_Project : string;
  ID_Domain : string;
  ID_Workflow : string;
  ID_LaunchPlan : string;
  ID_ResourceType : string
}.

(** Modelled from the spec: the attribute store interface, [get(key) ->
    bytes | NotFound], [put(key, bytes) -> ()], [delete(key) -> () |
    NotFound], keyed by the five-field composite identity; two identities
    are the same key iff all five fields match. *)
Definition Key : Type := (string * string * string * string * string)%type.

Definition keyOf (ID : ResourceID) : Key :=
  (ID_Project ID, ID_Domain ID, ID_Workflow ID, ID_LaunchPlan ID,
   ID_ResourceType ID).

Definition idOf (r : Resource) : ResourceID :=
  {| ID_Project := Project r; ID_Domain := Domain r; ID_Workflow := Workflow r;
     ID_LaunchPlan := LaunchPlan r; ID_ResourceType := ResourceType r |}.

Definition notFound : error := statusError NotFound "resource not found".

(** Modelled from the spec: the repository behind
    [db.ResourceRepo()], whose three methods the tests replace by mocks
    ([CreateOrUpdateFunction], [GetFunction], [DeleteFunction]). *)
Definition CreateOrUpdate (input : Resource) (db : gmap Key bytes)
    : gmap Key bytes * option error :=
  (<[ keyOf (idOf input) := Attributes input ]> db, None).

Definition RepoGet (ID : ResourceID) (db : gmap Key bytes) : Resource + error :=
  match db !! keyOf ID with
  | Some payload =>
      inl {| Project := ID_Project ID; Domain := ID_Domain ID;
             Workflow := ID_Workflow ID; LaunchPlan := ID_LaunchPlan ID;
             ResourceType := ID_ResourceType ID; Attributes := payload |}
  | None => inr notFound
  end.

Definition RepoDelete (ID : ResourceID) (db : gmap Key bytes)
    : gmap Key bytes * option error :=
  match db !! keyOf ID with
  | Some _ => (delete (keyOf ID) db, None)
  | None => (db, Some notFound)
  end.

(** The serializer of typed overrides ([proto.Marshal] and
    [proto.Unmarshal] in the tests) is a collaborator: [Unmarshal] reads a
    payload by the schema of a resource type. *)
Record Codec : Type := {
  Marshal : MatchingAttributes -> bytes + error;
  Unmarshal : MatchableResource -> bytes -> MatchingAttributes + error
}.

(** Modelled from the spec: the identity [{project, domain, workflow?,
    launchPlan?, resourceType}]; [project] and [domain] are required and
    non-empty. *)
Record ResourceIdentity : Type := {
  project : string;
  domain : string;
  workflow : string;
  launchPlan : string;
  resourceType : MatchableResource
}.

Definition resourceID (identity : ResourceIdentity) : ResourceID :=
  {| ID_Project := project identity; ID_Domain := domain identity;
     ID_Workflow := workflow identity; ID_LaunchPlan := launchPlan identity;
     ID_ResourceType := MatchableResource_String (resourceType identity) |}.

Definition validateIdentity (identity : ResourceIdentity) : option error :=
  if String.eqb (project identity) "" then
    Some (statusError InvalidArgument "missing project")
  else if String.eqb (domain identity) "" then
    Some (statusError InvalidArgument "missing domain")
  else None.

(** Modelled from the spec: [Upsert(identity, typedOverride)] "serializes
    typedOverride into bytes, writes a ResourceRecord{identity, payload} to
    the store". *)
Definition Upsert (codec : Codec) (identity : ResourceIdentity)
    (typedOverride : MatchingAttributes) (db : gmap Key bytes)
    : gmap Key bytes * option error :=
  match validateIdentity identity with
  | Some err => (db, Some err)
  | None =>
      match Marshal codec typedOverride with
      | inr err => (db, Some err)
      | inl payload =>
          let ID := resourceID identity in
          CreateOrUpdate
            {| Project := ID_Project ID; Domain := ID_Domain ID;
               Workflow := ID_Workflow ID; LaunchPlan := ID_LaunchPlan ID;
               ResourceType := ID_ResourceType ID; Attributes := payload |}
            db
      end
  end.

(** Modelled from the spec: [Get(identity)] "fetches the record by exact
    identity match, deserializes payload using the schema implied by
    identity.resourceType, and returns the typed value", not-found when no
    record matches exactly. *)
Definition Get (codec : Codec) (identity : ResourceIdentity)
    (db : gmap Key bytes) : MatchingAttributes + error :=
  match validateIdentity identity with
  | Some err => inr err
  | None =>
      match RepoGet (resourceID identity) db with
      | inr err => inr err
      | inl model => Unmarshal codec (resourceType identity) (Attributes model)
      end
  end.

(** Modelled from the spec: [Delete(identity)] "removes the record;
    deleting a non-existent identity is reported as a not-found error". *)
Definition Delete (identity : ResourceIdentity) (db : gmap Key bytes)
    : gmap Key bytes * option error :=
  match validateIdentity identity with
  | Some err => (db, Some err)
  | None => RepoDelete (resourceID identity) db
  end.

(** Modelled from the spec: the call shapes, "project-domain-level
    (identity with workflow/launchPlan empty) and workflow-level (identity
    with workflow populated, launchPlan empty) and launch-plan-level (all
    populated)". *)
Definition projectDomainIdentity (p d : string) (rt : MatchableResource)
    : ResourceIdentity :=
  {| project := p; domain := d; workflow := ""; launchPlan := "";
     resourceType := rt |}.

Definition workflowIdentity (p d w : string) (rt : MatchableResource)
    : ResourceIdentity :=
  {| project := p; domain := d; workflow := w; launchPlan := "";
     resourceType := rt |}.

Definition launchPlanIdentity (p d w lp : string) (rt : MatchableResource)
    : ResourceIdentity :=
  {| project := p; domain := d; workflow := w; launchPlan := lp;
     resourceType := rt |}.

(** The requests of the tests.  An update request carries no resource
    type: the record is stored under the type of the override it carries
    (TestUpdateWorkflowAttributes expects [EXECUTION_QUEUE] for execution
    queue attributes). *)
Record WorkflowAttributes : Type := {
  WA_Project : string;
  WA_Domain : string;
  WA_Workflow : string;
  WA_MatchingAttributes : MatchingAttributes
}.

Record ProjectDomainAttributes : Type := {
  PDA_Project : string;
  PDA_Domain : string;
  PDA_MatchingAttributes : MatchingAttributes
}.

Definition UpdateWorkflowAttributes (codec : Codec) (a : WorkflowAttributes)
    (db : gmap Key bytes) : gmap Key bytes * option error :=
  Upsert codec
    (workflowIdentity (WA_Project a) (WA_Domain a) (WA_Workflow a)
       (resourceOf (WA_MatchingAttributes a)))
    (WA_MatchingAttributes a) db.

Definition GetWorkflowAttributes (codec : Codec) (p d w : string)
    (rt : MatchableResource) (db : gmap Key bytes) : WorkflowAttributes + error :=
  match Get codec (workflowIdentity p d w rt) db with
  | inl a => inl {| WA_Project := p; WA_Domain := d; WA_Workflow := w;
                    WA_MatchingAttributes := a |}
  | inr err => inr err
  end.

Definition UpdateProjectDomainAttributes (codec : Codec)
    (a : ProjectDomainAttributes) (db : gmap Key bytes)
    : gmap Key bytes * option error :=
  Upsert codec
    (projectDomainIdentity (PDA_Project a) (PDA_Domain a)
       (resourceOf (PDA_MatchingAttributes a)))
    (PDA_MatchingAttributes a) db.

Definition GetProjectDomainAttributes (codec : Codec) (p d : string)
    (rt : MatchableResource) (db : gmap Key bytes)
    : ProjectDomainAttributes + error :=
  match Get codec (projectDomainIdentity p d rt) db with
  | inl a => inl {| PDA_Project := p; PDA_Domain := d;
                    PDA_MatchingAttributes := a |}
  | inr err => inr err
  end.

End Resources.

(* ===================================================================== *)
(** * The serializer of typed overrides                                  *)
(* ===================================================================== *)

(** The tests take the payload of a record to be [proto.Marshal] of the
    override ([expectedSerializedAttrs]).  Neither the protobuf library nor
    the generated messages of flyteidl are part of the inspected sources;
    what follows writes and reads the three override messages in the
    protobuf wire format:

    - [MatchingAttributes]: a oneof of [task_resource_attributes = 1],
      [cluster_resource_attributes = 2], [execution_queue_attributes = 3];
    - [TaskResourceAttributes]: [defaults = 1], [limits = 2], each a
      [TaskResourceSpec] with the strings [cpu = 1], [gpu = 2],
      [memory = 3], [storage = 4];
    - [ClusterResourceAttributes]: [map<string, string> attributes = 1];
    - [ExecutionQueueAttributes]: [repeated string tags = 1]. *)

Module Protobuf.
Import Go Resources.

Definition byteOf (n : nat) : Byte.byte := default Byte.x00 (Byte.of_nat n).

(** Modelled from the spec: the numbers of the wire format of "the
    serialized form" of an override, base-128 varints: seven bits to a
    byte, the low group first, the high bit set on every byte but the
    last. *)
Fixpoint putUvarint (fuel n : nat) : bytes :=
  match fuel with
  | O => [byteOf n]
  | S fuel =>
      if Nat.ltb n 128 then [byteOf n]
      else byteOf (128 + n mod 128) :: putUvarint fuel (n / 128)
  end.

Definition EncodeVarint (n : nat) : bytes := putUvarint n n.

Fixpoint DecodeVarint (b : bytes) : option (nat * bytes) :=
  match b with
  | [] => None
  | x :: rest =>
      let v := Byte.to_nat x in
      if Nat.ltb v 128 then Some (v, rest)
      else match DecodeVarint rest with
           | Some (m, rest') => Some (v - 128 + 128 * m, rest')%nat
           | None => None
           end
  end.

(** Modelled from the spec: a message of the serialized form, a sequence
    of fields; every field of the override messages is length-delimited
    (wire type 2: strings and embedded messages), written as the key
    [number * 8 + 2], the length of the payload and the payload.  A field of
    another wire type is refused. *)
Definition Field : Type := (nat * bytes)%type.

Definition WireBytes : nat := 2.

Definition putField (f : Field) : bytes :=
  (EncodeVarint (fst f * 8 + WireBytes)
   ++ EncodeVarint (length (snd f)) ++ snd f)%list.

Definition putFields (fs : list Field) : bytes := flat_map putField fs.

Fixpoint getFields (fuel : nat) (b : bytes) : option (list Field) :=
  match b with
  | [] => Some []
  | _ :: _ =>
      match fuel with
      | O => None
      | S fuel =>
          match DecodeVarint b with
          | Some (key, rest) =>
              if Nat.eqb (key mod 8) WireBytes then
                match DecodeVarint rest with
                | Some (len, rest') =>
                    if Nat.leb len (length rest') then
                      match getFields fuel (drop len rest') with
                      | Some fs => Some ((key / 8, take len rest')%nat :: fs)
                      | None => None
                      end
                    else None
                | None => None
                end
              else None
          | None => None
          end
      end
  end.

Definition parse (b : bytes) : option (list Field) := getFields (length b) b.

(** Modelled from the spec: the strings of an override.  A string field
    holds UTF-8: [utf8.ValidString], written out over the bytes of the
    string. *)
Definition inRange (lo hi x : nat) : bool := Nat.leb lo x && Nat.leb x hi.

Fixpoint validBytes (b : list nat) : bool :=
  match b with
  | [] => true
  | x :: rest =>
      if Nat.ltb x 128 then validBytes rest
      else if inRange 194 223 x then
        match rest with
        | y :: rest => inRange 128 191 y && validBytes rest
        | _ => false
        end
      else if inRange 224 239 x then
        match rest with
        | y :: z :: rest =>
            inRange (if Nat.eqb x 224 then 160 else 128)
                    (if Nat.eqb x 237 then 159 else 191) y
            && inRange 128 191 z && validBytes rest
        | _ => false
        end
      else if inRange 240 244 x then
        match rest with
        | y :: z :: w :: rest =>
            inRange (if Nat.eqb x 240 then 144 else 128)
                    (if Nat.eqb x 244 then 143 else 191) y
            && inRange 128 191 z && inRange 128 191 w && validBytes rest
        | _ => false
        end
      else false
  end.

Definition utf8_ValidString (s : string) : bool :=
  validBytes (map Byte.to_nat (String.list_byte_of_string s)).

Definition encodeString (s : string) : bytes := String.list_byte_of_string s.
Definition decodeString (b : bytes) : string := String.string_of_list_byte b.

(** Modelled from the spec: the serialized form of each
    resource-type-specific override structure.  A singular string that is
    empty is not written (proto3); the entries of a map and the elements of
    a repeated field are written one field each, in their order; an
    embedded message is written even when it is empty. *)
Definition stringField (n : nat) (s : string) : list Field :=
  if String.eqb s "" then [] else [(n, encodeString s)].

Definition TaskResourceSpec_fields (s : TaskResourceSpec) : list Field :=
  (stringField 1 (cpu s) ++ stringField 2 (gpu s)
   ++ stringField 3 (memory s) ++ stringField 4 (storage s))%list.

Definition entryFields (kv : string * string) : list Field :=
  [(1%nat, encodeString (fst kv)); (2%nat, encodeString (snd kv))].

Definition targetFields (a : MatchingAttributes) : list Field :=
  match a with
  | TaskResourceAttributes d l =>
      [(1%nat, putFields (TaskResourceSpec_fields d));
       (2%nat, putFields (TaskResourceSpec_fields l))]
  | ClusterResourceAttributes kvs =>
      map (fun kv => (1%nat, putFields (entryFields kv))) kvs
  | ExecutionQueueAttributes tags =>
      map (fun t => (1%nat, encodeString t)) tags
  end.

(** The field of the oneof that holds the overrides of a resource type. *)
Definition fieldNumber (rt : MatchableResource) : nat :=
  match rt with
  | TASK_RESOURCE => 1
  | CLUSTER_RESOURCE => 2
  | EXECUTION_QUEUE => 3
  end.

Definition encodeMessage (a : MatchingAttributes) : bytes :=
  putFields [(fieldNumber (resourceOf a), putFields (targetFields a))].

(** Modelled from the spec: reading "using the schema implied by
    identity.resourceType".  The fields of a message are read in the order
    they come: a singular field read again replaces what was read before,
    an embedded message read again is read onto what was read before, a
    field number that the message does not have is skipped, and a field of
    a message that is missing is left empty. *)
Definition noSpec : TaskResourceSpec :=
  {| cpu := ""; gpu := ""; memory := ""; storage := "" |}.

Definition readSpecField (s : TaskResourceSpec) (f : Field) : TaskResourceSpec :=
  match fst f with
  | 1 => {| cpu := decodeString (snd f); gpu := gpu s; memory := memory s;
            storage := storage s |}
  | 2 => {| cpu := cpu s; gpu := decodeString (snd f); memory := memory s;
            storage := storage s |}
  | 3 => {| cpu := cpu s; gpu := gpu s; memory := decodeString (snd f);
            storage := storage s |}
  | 4 => {| cpu := cpu s; gpu := gpu s; memory := memory s;
            storage := decodeString (snd f) |}
  | _ => s
  end%nat.

Definition readSpec (s : TaskResourceSpec) (b : bytes) : option TaskResourceSpec :=
  match parse b with
  | Some fs => Some (fold_left readSpecField fs s)
  | None => None
  end.

Definition readTaskField (a : option (TaskResourceSpec * TaskResourceSpec))
    (f : Field) : option (TaskResourceSpec * TaskResourceSpec) :=
  match a with
  | Some (d, l) =>
      match fst f with
      | 1 => match readSpec d (snd f) with
             | Some d => Some (d, l)
             | None => None
             end
      | 2 => match readSpec l (snd f) with
             | Some l => Some (d, l)
             | None => None
             end
      | _ => Some (d, l)
      end%nat
  | None => None
  end.

Definition readEntryField (kv : string * string) (f : Field) : string * string :=
  match fst f with
  | 1 => (decodeString (snd f), snd kv)
  | 2 => (fst kv, decodeString (snd f))
  | _ => kv
  end%nat.

Definition readEntry (b : bytes) : option (string * string) :=
  match parse b with
  | Some fs => Some (fold_left readEntryField fs ("", ""))
  | None => None
  end.

Fixpoint readCluster (fs : list Field) : option (list (string * string)) :=
  match fs with
  | [] => Some []
  | f :: rest =>
      match fst f with
      | 1%nat =>
          match readEntry (snd f), readCluster rest with
          | Some kv, Some kvs => Some (kv :: kvs)
          | _, _ => None
          end
      | _ => readCluster rest
      end
  end.

Fixpoint readQueue (fs : list Field) : list string :=
  match fs with
  | [] => []
  | f :: rest =>
      match fst f with
      | 1%nat => decodeString (snd f) :: readQueue rest
      | _ => readQueue rest
      end
  end.

Definition readTarget (rt : MatchableResource) (fs : list Field)
    : option MatchingAttributes :=
  match rt with
  | TASK_RESOURCE =>
      match fold_left readTaskField fs (Some (noSpec, noSpec)) with
      | Some (d, l) => Some (TaskResourceAttributes d l)
      | None => None
      end
  | CLUSTER_RESOURCE =>
      match readCluster fs with
      | Some kvs => Some (ClusterResourceAttributes kvs)
      | None => None
      end
  | EXECUTION_QUEUE => Some (ExecutionQueueAttributes (readQueue fs))
  end.

(** The payload is read as the member of the oneof that it holds last, and
    that member has to be the one of the resource type asked for. *)
Definition decodeMessage (rt : MatchableResource) (b : bytes) : option MatchingAttributes :=
  match parse b with
  | Some fs =>
      match list.last fs with
      | Some f =>
          if Nat.eqb (fst f) (fieldNumber rt) then
            match parse (snd f) with
            | Some fs => readTarget rt fs
            | None => None
            end
          else None
      | None => None
      end
  | None => None
  end.

(** The strings of an override, all of which have to be UTF-8. *)
Definition stringsOf (a : MatchingAttributes) : list string :=
  match a with
  | TaskResourceAttributes d l =>
      [cpu d; gpu d; memory d; storage d; cpu l; gpu l; memory l; storage l]
  | ClusterResourceAttributes kvs => flat_map (fun kv => [fst kv; snd kv]) kvs
  | ExecutionQueueAttributes tags => tags
  end.

Definition validOverride (a : MatchingAttributes) : bool :=
  forallb utf8_ValidString (stringsOf a).

Definition errInvalidUTF8 : error := errorString "proto: invalid UTF-8 string".

Definition errMalformed : error :=
  errorString "proto: cannot parse invalid wire-format data".

(** Modelled from the spec: the serializer, "serializes typedOverride into
    bytes" and "deserializes payload using the schema implied by
    identity.resourceType". *)
Definition protobuf : Codec :=
  {| Marshal := fun a =>
       if validOverride a then inl (encodeMessage a) else inr errInvalidUTF8;
     Unmarshal := fun rt b =>
       match decodeMessage rt b with
       | Some a => if validOverride a then inl a else inr errInvalidUTF8
       | None => inr errMalformed
       end |}.

End Protobuf.

(* ===================================================================== *)
(** * Concrete configurations and collaborators                          *)
(* ===================================================================== *)

(** Inputs on which the properties below are exercised. *)

Module Examples.
Import Go Entrypoints.

Definition swagger : list Byte.byte :=
  String.list_byte_of_string "{}".

Definition bindError (addr : string) : error :=
  errorString ("listen tcp " ++ addr ++ ": bind: address already in use").

(** A machine on which everything succeeds until the servers stop. *)
Definition platform : Platform :=
  {| NewAuthenticationContext := fun _ =>
       inl {| GetUserInfoURL := Some "https://idp.example.com/userinfo" |};
     GetSslCredentials := fun _ _ => inl ("pool", "cert");
     net_Listen := fun _ addr => inl addr;
     RegisterAdminServiceHandlerFromEndpoint := fun _ _ => None;
     http_ListenAndServe := fun _ => Some (errorString "http: Server closed");
     Server_Serve := fun _ => Some (errorString "http: Server closed");
     Asset := fun name =>
       if String.eqb name "admin.swagger.json" then inl swagger
       else inr (errorString ("Asset " ++ name ++ " not found"));
     MetadataEndpoint := ".well-known/oauth-authorization-server" |}.

(** The same machine with every port taken. *)
Definition portsTaken : Platform :=
  {| NewAuthenticationContext := NewAuthenticationContext platform;
     GetSslCredentials := GetSslCredentials platform;
     net_Listen := fun _ addr => inr (bindError addr);
     RegisterAdminServiceHandlerFromEndpoint :=
       RegisterAdminServiceHandlerFromEndpoint platform;
     http_ListenAndServe := fun addr => Some (bindError addr);
     Server_Serve := Server_Serve platform;
     Asset := Asset platform;
     MetadataEndpoint := MetadataEndpoint platform |}.

(** The same machine without the bundled document. *)
Definition noAssets : Platform :=
  {| NewAuthenticationContext := NewAuthenticationContext platform;
     GetSslCredentials := GetSslCredentials platform;
     net_Listen := net_Listen platform;
     RegisterAdminServiceHandlerFromEndpoint :=
       RegisterAdminServiceHandlerFromEndpoint platform;
     http_ListenAndServe := http_ListenAndServe platform;
     Server_Serve := Server_Serve platform;
     Asset := fun name => inr (errorString ("Asset " ++ name ++ " not found"));
     MetadataEndpoint := MetadataEndpoint platform |}.

Definition config (secure useAuth allowCors : bool) : ServerConfig :=
  {| Security :=
       {| Secure := secure;
          Ssl := {| CertificateFile := "/etc/ssl/server.pem";
                    KeyFile := "/etc/ssl/server.key" |};
          UseAuth := useAuth;
          Oauth := "oauth";
          AllowCors := allowCors;
          AllowedOrigins := ["https://console.example.com"];
          AllowedHeaders := ["Authorization"] |};
     GrpcServerReflection := true;
     KubeConfig := "";
     Master := "";
     GetHostAddress := ":8088";
     GetGrpcHostAddress := ":8089" |}.

Definition getOpenapi : Request :=
  {| Method := "GET"; Path := "/api/v1/openapi"; ProtoMajor := 1; Hdr := ∅ |}.

Definition grpcCall : Request :=
  {| Method := "POST"; Path := "/flyteidl.service.AdminService/GetExecution";
     ProtoMajor := 2;
     Hdr := {[ "Content-Type" := ["application/grpc+proto"] ]} |}.

(** Interceptors that leave a line in a log: the metrics interceptor
    around the call, the audit interceptor before it; a call is verified
    when its context carries a token. *)
Definition note (line : string) : M (list string) unit :=
  modify (fun w => (w ++ [line])%list).

Definition middleware : Middleware (list string) (option string) string string :=
  {| prometheusInterceptor := fun ctx req info handler =>
       note "metrics: started" ;;
       r <- handler ctx req ;;
       note "metrics: handled" ;;
       ret r;
     customMetadataInterceptor := fun _ ctx req info handler => handler ctx req;
     authenticationInterceptor := fun _ ctx =>
       match ctx with
       | Some _ => ret (ctx, None)
       | None => ret (ctx, Some (statusError Unauthenticated "no token"))
       end;
     loggingInterceptor := fun ctx req info handler =>
       note "audit" ;;
       handler ctx req |}.

Definition businessLayer : UnaryHandler (list string) (option string) string string :=
  fun ctx req => note "business layer" ;; ret (Some "response", None).

Definition getExecutionInfo : UnaryServerInfo (list string) (option string) :=
  {| AuthFuncOverride := None;
     FullMethod := "/flyteidl.service.AdminService/GetExecution" |}.

(** ** A service *)

Import AdminService.

(** A business layer that answers every call, one that fails every call
    with an error, and one in which every call panics. *)
Definition answer : M unit (option Message * option error) :=
  ret (Some "response", None).

Definition fail_ : M unit (option Message * option error) :=
  ret (None, Some (statusError NotFound "missing entity")).

Definition crash : M unit (option Message * option error) :=
  panic (errorString "runtime error: invalid memory address or nil pointer dereference").

Definition managerOf (c : M unit (option Message * option error))
    : ExecutionInterface unit :=
  {| mgr_CreateExecution := fun _ _ _ => c;
     mgr_RelaunchExecution := fun _ _ _ => c;
     mgr_CreateWorkflowEvent := fun _ _ => c;
     mgr_GetExecution := fun _ _ => c;
     mgr_GetExecutionData := fun _ _ => c;
     mgr_ListExecutions := fun _ _ => c;
     mgr_TerminateExecution := fun _ _ => c |}.

(** Modelled from the spec: a recovery as section 4.2 words it, "an
    internal panic during handling is caught, logged with enough context to
    identify the offending request": the panic is recovered and a line with
    the request and the panic value is logged. *)
Definition recoverAndLog {MS} (ctx : Context) (request : option Message)
    (v : error) : M (ServiceState MS) Recovery :=
  modify (fun s =>
    {| Metrics := Metrics s;
       logs := (logs s ++ [("panic-ed for request: [" ++ default "" request
                            ++ "] with err: " ++ Error v)%string])%list;
       now := now s; manager := manager s |}) ;;
  ret Recovered.

Definition serviceOf {MS} (e : ExecutionInterface MS)
    (boundary : Context -> option Message -> error -> M (ServiceState MS) Recovery)
    : AdminService MS :=
  {| ExecutionManager := e;
     transformError := fun err => err;
     onPanic := boundary |}.

(** Modelled from the spec: a service behind that recovery, whatever its
    business layer and its transformation of errors are. *)
Definition recovering {MS} (e : ExecutionInterface MS)
    (transform : error -> error) : AdminService MS :=
  {| ExecutionManager := e;
     transformError := transform;
     onPanic := recoverAndLog |}.

Definition fresh {MS} (ms : MS) : ServiceState MS :=
  {| Metrics := fun _ => newRequestMetrics; logs := []; now := 0; manager := ms |}.

(** ** Another serializer

    A second wire format for typed overrides, one that can fail to write:
    one byte for the kind of override, then each string as its length in
    one byte followed by its bytes.  It refuses strings of 256 bytes and
    more, and reads a payload by the schema of the resource type asked
    for. *)

Import Resources.

Definition putString (s : string) : option bytes :=
  match Byte.of_nat (String.length s) with
  | Some n => Some (n :: String.list_byte_of_string s)
  | None => None
  end.

Fixpoint putStrings (l : list string) : option bytes :=
  match l with
  | [] => Some []
  | s :: rest =>
      match putString s, putStrings rest with
      | Some b, Some bs => Some (b ++ bs)%list
      | _, _ => None
      end
  end.

Fixpoint getStrings (fuel : nat) (b : bytes) : option (list string) :=
  match fuel, b with
  | _, [] => Some []
  | O, _ :: _ => None
  | S fuel, n :: rest =>
      let len := Byte.to_nat n in
      if Nat.leb len (length rest) then
        match getStrings fuel (drop len rest) with
        | Some l => Some (String.string_of_list_byte (take len rest) :: l)
        | None => None
        end
      else None
  end.

Definition tagOf (rt : MatchableResource) : Byte.byte :=
  match rt with
  | TASK_RESOURCE => Byte.x0a
  | CLUSTER_RESOURCE => Byte.x12
  | EXECUTION_QUEUE => Byte.x1a
  end.

Definition fieldsOf (a : MatchingAttributes) : list string :=
  match a with
  | TaskResourceAttributes d l =>
      [cpu d; gpu d; memory d; storage d; cpu l; gpu l; memory l; storage l]
  | ClusterResourceAttributes kvs =>
      flat_map (fun kv => [fst kv; snd kv]) kvs
  | ExecutionQueueAttributes tags => tags
  end.

Fixpoint pairsOf (l : list string) : option (list (string * string)) :=
  match l with
  | [] => Some []
  | k :: v :: rest =>
      match pairsOf rest with
      | Some kvs => Some ((k, v) :: kvs)
      | None => None
      end
  | _ => None
  end.

Definition malformed : error := errorString "proto: cannot parse invalid wire-format data".

Definition wire : Codec :=
  {| Marshal := fun a =>
       match putStrings (fieldsOf a) with
       | Some b => inl (tagOf (resourceOf a) :: b)
       | None => inr (errorString "proto: field too long")
       end;
     Unmarshal := fun rt b =>
       match b with
       | t :: rest =>
           if Byte.eqb t (tagOf rt) then
             match getStrings (length rest) rest, rt with
             | Some [c1; g1; m1; s1; c2; g2; m2; s2], TASK_RESOURCE =>
                 inl (TaskResourceAttributes
                        {| cpu := c1; gpu := g1; memory := m1; storage := s1 |}
                        {| cpu := c2; gpu := g2; memory := m2; storage := s2 |})
             | Some l, CLUSTER_RESOURCE =>
                 match pairsOf l with
                 | Some kvs => inl (ClusterResourceAttributes kvs)
                 | None => inr malformed
                 end
             | Some l, EXECUTION_QUEUE => inl (ExecutionQueueAttributes l)
             | _, _ => inr malformed
             end
           else inr malformed
       | [] => inr malformed
       end |}.

(** [testutils.ExecutionQueueAttributes], a value with two tags. *)
Definition ExecutionQueueAttributes_ : MatchingAttributes :=
  ExecutionQueueAttributes ["foo"; "bar"].

End Examples.

(* ===================================================================== *)
(** * The vocabulary of the properties                                   *)
(* ===================================================================== *)

Module Vocabulary.
Import Go Entrypoints.

(** What the spec calls an RPC request: HTTP/2, and a content type that
    names the binary-RPC media type. *)
Definition isRPC (r : Request) : Prop :=
  ProtoMajor r = 2 /\
  exists a b, Header_Get (Hdr r) "Content-Type" = a ++ "application/grpc" ++ b.

(** The authentication context a gateway works with: none when
    authentication is off, the one the platform creates when it is on. *)
Definition authContextFor (P : Platform) (cfg : ServerConfig)
    (a : option AuthenticationContext) : Prop :=
  if UseAuth (Security cfg)
  then exists ac, NewAuthenticationContext P (Oauth (Security cfg)) = inl ac
                  /\ a = Some ac
  else a = None.

(** The server that [newGRPCServer] returns, and the line it logs. *)
Definition grpcServerOf (cfg : ServerConfig)
    (a : option AuthenticationContext) (opts : list ServerOption) : GrpcServer :=
  {| serverOpts :=
       StreamInterceptor grpc_prometheus_StreamServerInterceptor
       :: UnaryInterceptor (chainedUnaryInterceptors cfg a) :: opts;
     registered :=
       grpc_prometheus_Register
       :: RegisterAdminServiceServer (KubeConfig cfg) (Master cfg)
       :: (if GrpcServerReflection cfg then [reflection_Register] else []) |}.

Definition creating (cfg : ServerConfig) : Event :=
  Logged InfoLevel
    (if UseAuth (Security cfg) then "Creating gRPC server with authentication"
     else "Creating gRPC server without authentication").

(** The CORS wrapper as the spec words it: credentials allowed, the
    configured origins, [Content-Type] and the configured headers, the six
    methods. *)
Definition corsHandler (cfg : ServerConfig) (httpServer : ServeMux) : Handler :=
  CORS [ AllowCredentials;
         AllowedOriginsOpt (AllowedOrigins (Security cfg));
         AllowedHeadersOpt ("Content-Type" :: AllowedHeaders (Security cfg));
         AllowedMethods ["GET"; "POST"; "DELETE"; "HEAD"; "PUT"; "PATCH"] ]
       (MuxServeHTTP httpServer).

(** The [http.Server] of the secure gateway. *)
Definition secureServer (cfg : ServerConfig) (cert : Certificate)
    (grpcServer : GrpcServer) (httpServer : ServeMux) : HttpServer :=
  {| Addr := GetHostAddress cfg;
     Handler_ := grpcHandlerFunc grpcServer (MuxServeHTTP httpServer);
     TLSConfig_ := {| ServerName := ""; RootCAs := None;
                      Certificates := [cert]; NextProtos := ["h2"] |} |}.

Definition dialTLS (cfg : ServerConfig) (certPool : CertPool) : DialOption :=
  WithTransportCredentials
    {| ServerName := GetHostAddress cfg; RootCAs := Some certPool;
       Certificates := []; NextProtos := [] |}.

End Vocabulary.

(* ===================================================================== *)
(** * Package mocks: the storage client of the tests                     *)
(* ===================================================================== *)

(** The second half of the file that holds execution.go: [TestDataStore],
    a [storage.ComposedProtobufStore] and [storage.ReferenceConstructor]
    whose protobuf methods are callbacks. *)

Module Mocks.
Import Go.

Definition Context : Type := string.
Definition DataReference : Type := string.
Definition Metadata : Type := string.
Definition Message : Type := string.

(** [strings.Join(elems, sep)]. *)
Fixpoint Join (elems : list string) (sep : string) : string :=
  match elems with
  | [] => ""
  | [a] => a
  | a :: rest => a ++ sep ++ Join rest sep
  end.

(** [NopCloser]: an embedded [io.Reader], nil or a reader over some bytes. *)
Record NopCloser : Type := {
  Reader : option (list Byte.byte)
}.

Definition NopCloser_Close (c : NopCloser) : option error := None.

(** The [Read] promoted from the embedded reader, all bytes at once; on a
    nil reader the call is a nil dereference. *)
Definition NopCloser_Read {S} (c : NopCloser) : M S (list Byte.byte) :=
  match Reader c with
  | Some data => ret data
  | None => panic (errorString "invalid memory address or nil pointer dereference")
  end.

(** [TestDataStore]: three function fields, nil until a test sets them.
    A callback works on the state [S] of the test that set it;
    [ReadProtobufCb] fills the message it is handed, so it yields the
    message with the error. *)
Record TestDataStore (S : Type) : Type := {
  HeadCb : option (Context -> DataReference -> M S (Metadata * option error));
  ReadProtobufCb :
    option (Context -> DataReference -> Message -> M S (Message * option error));
  WriteProtobufCb :
    option (Context -> DataReference -> Message -> M S (option error))
}.
Arguments HeadCb {S} t.
Arguments ReadProtobufCb {S} t.
Arguments WriteProtobufCb {S} t.

Definition nilCall {S A} : M S A :=
  panic (errorString "invalid memory address or nil pointer dereference").

Definition Head {S} (t : TestDataStore S) (ctx : Context)
    (reference : DataReference) : M S (Metadata * option error) :=
  match HeadCb t with
  | Some cb => cb ctx reference
  | None => nilCall
  end.

Definition ReadProtobuf {S} (t : TestDataStore S) (ctx : Context)
    (reference : DataReference) (msg : Message) : M S (Message * option error) :=
  match ReadProtobufCb t with
  | Some cb => cb ctx reference msg
  | None => nilCall
  end.

Definition WriteProtobuf {S} (t : TestDataStore S) (ctx : Context)
    (reference : DataReference) (msg : Message) : M S (option error) :=
  match WriteProtobufCb t with
  | Some cb => cb ctx reference msg
  | None => nilCall
  end.

Definition GetBaseContainerFQN {S} (t : TestDataStore S) (ctx : Context)
    : DataReference := "s3://bucket".

Definition ReadRaw {S} (t : TestDataStore S) (ctx : Context)
    (reference : DataReference) : M S (NopCloser * option error) :=
  ret ({| Reader := None |}, None).

Definition WriteRaw {S} (t : TestDataStore S) (ctx : Context)
    (reference : DataReference) (size : Z) (raw : list Byte.byte)
    : M S (option error) :=
  ret None.

Definition CopyRaw {S} (t : TestDataStore S) (ctx : Context)
    (source destination : DataReference) : M S (option error) :=
  ret None.

(** [fmt.Sprintf("%s/%v", "s3://bucket", nestedPath)]. *)
Definition ConstructReference {S} (t : TestDataStore S) (ctx : Context)
    (reference : DataReference) (nestedKeys : list string)
    : DataReference * option error :=
  let nestedPath := Join nestedKeys "/" in
  ("s3://bucket" ++ "/" ++ nestedPath, None).

(** [GetMockStorageClient]: one [TestDataStore{}] behind both interfaces of
    the [storage.DataStore]. *)
Record DataStore (S : Type) : Type := {
  ComposedProtobufStore : TestDataStore S;
  ReferenceConstructor : TestDataStore S
}.
Arguments ComposedProtobufStore {S} d.
Arguments ReferenceConstructor {S} d.

Definition GetMockStorageClient {S} : DataStore S :=
  let mockStorageClient :=
    {| HeadCb := None; ReadProtobufCb := None; WriteProtobufCb := None |} in
  {| ComposedProtobufStore := mockStorageClient;
     ReferenceConstructor := mockStorageClient |}.

End Mocks.

(* ===================================================================== *)
(** * Observations on runs, muxes, writers and metrics                   *)
(* ===================================================================== *)

Module Observations.
Import Go Entrypoints.

(** The events of a run that start a server. *)
Definition starts (e : Event) : bool :=
  match e with
  | GoServe _ _ | ListenAndServe _ _ | Serve _ _ => true
  | _ => false
  end.

(** The mux of a server without authentication, and the one of a server
    with authentication whose context is [ac]. *)
Definition plainMux (grpcAddress : string) (opts : list DialOption) : ServeMux :=
  [ ("/healthcheck", healthCheck);
    ("/api/v1/openapi", HandleOpenapiSpec);
    ("/", gwmux [WithMarshalerOption "application/octet-stream" tt]
            grpcAddress opts) ].

Definition hasUserInfo (ac : AuthenticationContext) : bool :=
  match GetUserInfoURL ac with
  | Some url => negb (String.eqb url "")
  | None => false
  end.

Definition authMux (P : Platform) (ac : AuthenticationContext)
    (grpcAddress : string) (opts : list DialOption) : ServeMux :=
  ([ ("/healthcheck", healthCheck);
     ("/api/v1/openapi", HandleOpenapiSpec);
     ("/login", RefreshTokensIfExists ac (GetLoginHandler ac));
     ("/callback", GetCallbackHandler ac) ]
   ++ (if hasUserInfo ac then [("/me", GetMeEndpointHandler ac)] else [])
   ++ [ (("/" ++ MetadataEndpoint P)%string,
         GetMetadataEndpointRedirectHandler ac);
        ("/", gwmux [ WithMarshalerOption "application/octet-stream" tt;
                      WithMetadata_CookieToMetadata (Some ac);
                      WithMetadata_MetadataTagging (Some ac) ]
                grpcAddress opts) ])%list.

(** The patterns registered on a mux. *)
Definition patterns (mux : ServeMux) : list string := map fst mux.

(** A response writer that lists the calls made on it, and whose [Write]
    fails with [writeError] when there is one. *)
Inductive WriterCall : Type :=
| CalledWriteHeader (status : Z)
| CalledWrite (body : list Byte.byte).

Record CallRecorder : Type := {
  calls : list WriterCall;
  writeError : option error
}.

#[global] Instance CallRecorder_writer : ResponseWriter CallRecorder :=
  {| WriteHeader := fun status w =>
       {| calls := (calls w ++ [CalledWriteHeader status])%list;
          writeError := writeError w |};
     Write := fun body w =>
       ((match writeError w with
         | Some _ => 0
         | None => Z.of_nat (length body)
         end, writeError w),
        {| calls := (calls w ++ [CalledWrite body])%list;
           writeError := writeError w |}) |}.

(** A metrics object on which every observed duration has its outcome. *)
Definition balanced (r : AdminService.RequestMetrics) : Prop :=
  AdminService.requestDuration r
  = (AdminService.successCount r + length (AdminService.errCodes r))%nat.

End Observations.

(* ===================================================================== *)
(** * More machines                                                      *)
(* ===================================================================== *)

Module Scenarios.
Import Go Entrypoints Examples.

(** The machine of [Examples.platform] with one collaborator failing. *)
Definition withoutIdentityProvider : Platform :=
  {| NewAuthenticationContext := fun _ =>
       inr (errorString "oidc: identity provider unreachable");
     GetSslCredentials := GetSslCredentials platform;
     net_Listen := net_Listen platform;
     RegisterAdminServiceHandlerFromEndpoint :=
       RegisterAdminServiceHandlerFromEndpoint platform;
     http_ListenAndServe := http_ListenAndServe platform;
     Server_Serve := Server_Serve platform;
     Asset := Asset platform;
     MetadataEndpoint := MetadataEndpoint platform |}.

Definition withoutCertificate : Platform :=
  {| NewAuthenticationContext := NewAuthenticationContext withoutIdentityProvider;
     GetSslCredentials := fun _ _ =>
       inr (errorString "open /etc/ssl/server.pem: no such file or directory");
     net_Listen := net_Listen platform;
     RegisterAdminServiceHandlerFromEndpoint :=
       RegisterAdminServiceHandlerFromEndpoint platform;
     http_ListenAndServe := http_ListenAndServe platform;
     Server_Serve := Server_Serve platform;
     Asset := Asset platform;
     MetadataEndpoint := MetadataEndpoint platform |}.

Definition withoutGateway : Platform :=
  {| NewAuthenticationContext := NewAuthenticationContext platform;
     GetSslCredentials := GetSslCredentials platform;
     net_Listen := net_Listen platform;
     RegisterAdminServiceHandlerFromEndpoint := fun _ _ =>
       Some (errorString "context deadline exceeded");
     http_ListenAndServe := http_ListenAndServe platform;
     Server_Serve := Server_Serve platform;
     Asset := Asset platform;
     MetadataEndpoint := MetadataEndpoint platform |}.

End Scenarios.

(* ===================================================================== *)
(** * Properties                                                          *)
(* ===================================================================== *)

(** ** Strings *)

Section StringFacts.
Import Go.

Lemma append_String (c : ascii) (p u : string) :
  String c p ++ u = String c (p ++ u).
Proof. reflexivity. Qed.

Lemma append_Empty (u : string) : "" ++ u = u.
Proof. reflexivity. Qed.

Lemma append_assoc (a b c : string) : (a ++ b) ++ c = a ++ (b ++ c).
Proof.
  induction a as [|x a IH]; [reflexivity |].
  rewrite !append_String, IH. reflexivity.
Qed.

Lemma HasPrefix_iff (s p : string) :
  HasPrefix s p = true <-> exists t, s = p ++ t.
Proof.
  revert s; induction p as [|c p IH]; intros s; simpl.
  - split; [intros _; exists s; reflexivity | intros _; destruct s; reflexivity].
  - destruct s as [|d t]; simpl.
    + split; [discriminate | intros [u Hu]; discriminate].
    + destruct (Ascii.eqb_spec c d) as [->|Hne].
      * rewrite IH.
        split; intros [u Hu]; exists u; rewrite append_String in *; congruence.
      * split; [discriminate |].
        intros [u Hu]; rewrite append_String in Hu; congruence.
Qed.

Lemma Contains_unfold (s sub : string) :
  Contains s sub =
  if HasPrefix s sub then true
  else match s with EmptyString => false | String _ t => Contains t sub end.
Proof. destruct s; reflexivity. Qed.

Lemma Contains_iff (s sub : string) :
  Contains s sub = true <-> exists a b, s = a ++ sub ++ b.
Proof.
  induction s as [|c s IH]; rewrite Contains_unfold.
  - destruct (HasPrefix "" sub) eqn:Hp.
    + apply HasPrefix_iff in Hp as [t Ht].
      split; [intros _; exists "", t; exact Ht | reflexivity].
    + split; [discriminate |].
      intros (a & b & Hab). destruct a.
      * rewrite append_Empty in Hab.
        assert (HasPrefix "" sub = true) by (apply HasPrefix_iff; eauto).
        congruence.
      * rewrite append_String in Hab. discriminate.
  - destruct (HasPrefix (String c s) sub) eqn:Hp.
    + apply HasPrefix_iff in Hp as [t Ht].
      split; [intros _; exists "", t; exact Ht | reflexivity].
    + rewrite IH. split.
      * intros (a & b & ->). exists (String c a), b. reflexivity.
      * intros (a & b & Hab). destruct a as [|c' a].
        -- rewrite append_Empty in Hab.
           assert (HasPrefix (String c s) sub = true)
             by (apply HasPrefix_iff; eauto).
           congruence.
        -- rewrite append_String in Hab. injection Hab as _ ->. eauto.
Qed.

End StringFacts.

(** ** Starting the gateways *)

Section Startup.
Import Go Entrypoints Vocabulary.

Lemma bind_run {S A B} (c : M S A) (k : A -> M S B) (s : S) :
  bind c k s =
  match c s with
  | (Returned a, s') => k a s'
  | (Panicked v, s') => (Panicked v, s')
  | (Exited n, s') => (Exited n, s')
  end.
Proof. reflexivity. Qed.

Lemma authContextOf_run P cfg a t :
  authContextFor P cfg a -> authContextOf P cfg t = (Returned (inl a), t).
Proof.
  unfold authContextFor, authContextOf.
  destruct (UseAuth (Security cfg)).
  - intros (ac & -> & ->). reflexivity.
  - intros ->. reflexivity.
Qed.

Lemma newGRPCServer_run cfg a opts t :
  newGRPCServer cfg a opts t
  = (Returned (inl (grpcServerOf cfg a opts)), (t ++ [creating cfg])%list).
Proof.
  unfold newGRPCServer, grpcServerOf, creating, Infof, emit.
  destruct (UseAuth (Security cfg)); reflexivity.
Qed.

Lemma quiet_run {A} (c : M unit A) (o : Outcome A) (t : Trace) :
  c tt = (o, tt) -> quiet c t = (o, t).
Proof. unfold quiet. intros ->. reflexivity. Qed.

Lemma serveGatewayInsecure_serving P cfg a lis httpServer t :
  authContextFor P cfg a ->
  net_Listen P "tcp" (GetGrpcHostAddress cfg) = inl lis ->
  newHTTPServer P cfg a (GetGrpcHostAddress cfg) [WithInsecure] tt
    = (Returned (inl httpServer), tt) ->
  serveGatewayInsecure P cfg t
  = (Returned (option_map (fun err => Wrap err "failed to Start HTTP Server")
                 (http_ListenAndServe P (GetHostAddress cfg))),
     (t ++ [ Logged InfoLevel "Serving Flyte Admin Insecure";
             creating cfg;
             Logged InfoLevel ("Serving GRPC Traffic on: " ++ GetGrpcHostAddress cfg);
             GoServe (grpcServerOf cfg a []) lis;
             Logged InfoLevel
               ("Starting HTTP/1 Gateway server on " ++ GetHostAddress cfg);
             ListenAndServe (GetHostAddress cfg)
               (if AllowCors (Security cfg) then corsHandler cfg httpServer
                else MuxServeHTTP httpServer) ])%list).
Proof.
  intros Ha Hl Hh. unfold serveGatewayInsecure.
  rewrite bind_run. unfold Infof at 1, emit at 1, modify at 1.
  rewrite bind_run, (authContextOf_run _ _ _ _ Ha).
  rewrite bind_run, newGRPCServer_run.
  rewrite bind_run. unfold Infof at 1, emit at 1, modify at 1.
  rewrite Hl.
  rewrite bind_run. unfold emit at 1, modify at 1.
  rewrite bind_run. unfold Infof at 1, emit at 1, modify at 1.
  rewrite bind_run, (quiet_run _ _ _ Hh).
  rewrite bind_run. unfold emit at 1, modify at 1.
  rewrite <- !app_assoc. simpl.
  unfold corsHandler, defaultCorsHeaders.
  destruct (http_ListenAndServe P (GetHostAddress cfg)); reflexivity.
Qed.

Lemma serveGatewayInsecure_bind_failure P cfg a err t :
  authContextFor P cfg a ->
  net_Listen P "tcp" (GetGrpcHostAddress cfg) = inr err ->
  serveGatewayInsecure P cfg t
  = (Returned (Some (Wrap err ("failed to listen on GRPC port: "
                               ++ GetGrpcHostAddress cfg))),
     (t ++ [ Logged InfoLevel "Serving Flyte Admin Insecure";
             creating cfg;
             Logged InfoLevel ("Serving GRPC Traffic on: " ++ GetGrpcHostAddress cfg)
           ])%list).
Proof.
  intros Ha Hl. unfold serveGatewayInsecure.
  rewrite bind_run. unfold Infof at 1, emit at 1, modify at 1.
  rewrite bind_run, (authContextOf_run _ _ _ _ Ha).
  rewrite bind_run, newGRPCServer_run.
  rewrite bind_run. unfold Infof at 1, emit at 1, modify at 1.
  rewrite Hl. rewrite <- !app_assoc. reflexivity.
Qed.

Lemma serveGatewaySecure_serving P cfg a certPool cert conn httpServer t :
  GetSslCredentials P (CertificateFile (Ssl (Security cfg)))
                      (KeyFile (Ssl (Security cfg))) = inl (certPool, cert) ->
  authContextFor P cfg a ->
  newHTTPServer P cfg a (GetHostAddress cfg) [dialTLS cfg certPool] tt
    = (Returned (inl httpServer), tt) ->
  net_Listen P "tcp" (GetHostAddress cfg) = inl conn ->
  serveGatewaySecure P cfg t
  = (Returned (option_map (fun err => Wrap err "failed to Start HTTP/2 Server")
                 (Server_Serve P conn)),
     (t ++ [ creating cfg;
             Serve conn (secureServer cfg cert
                           (grpcServerOf cfg a [Creds cert]) httpServer) ])%list).
Proof.
  intros Hs Ha Hh Hl. unfold serveGatewaySecure. rewrite Hs.
  rewrite bind_run, (authContextOf_run _ _ _ _ Ha).
  rewrite bind_run, newGRPCServer_run.
  unfold dialTLS in Hh.
  rewrite bind_run, (quiet_run _ _ _ Hh).
  rewrite Hl.
  rewrite bind_run. unfold emit at 1, modify at 1.
  rewrite <- !app_assoc. simpl. unfold secureServer.
  destruct (Server_Serve P conn); reflexivity.
Qed.

Lemma serveGatewaySecure_bind_failure P cfg a certPool cert httpServer err t :
  GetSslCredentials P (CertificateFile (Ssl (Security cfg)))
                      (KeyFile (Ssl (Security cfg))) = inl (certPool, cert) ->
  authContextFor P cfg a ->
  newHTTPServer P cfg a (GetHostAddress cfg) [dialTLS cfg certPool] tt
    = (Returned (inl httpServer), tt) ->
  net_Listen P "tcp" (GetHostAddress cfg) = inr err ->
  serveGatewaySecure P cfg t = (Panicked err, (t ++ [creating cfg])%list).
Proof.
  intros Hs Ha Hh Hl. unfold serveGatewaySecure. rewrite Hs.
  rewrite bind_run, (authContextOf_run _ _ _ _ Ha).
  rewrite bind_run, newGRPCServer_run.
  unfold dialTLS in Hh.
  rewrite bind_run, (quiet_run _ _ _ Hh).
  rewrite Hl. reflexivity.
Qed.

End Startup.

(** ** The secure gateway's demultiplexer *)

Section Demux.
Import Go Entrypoints Vocabulary.

Lemma grpcHandlerFunc_test (r : Request) :
  (ProtoMajor r =? 2)%Z
  && Contains (Header_Get (Hdr r) "Content-Type") "application/grpc" = true
  <-> isRPC r.
Proof.
  unfold isRPC. rewrite andb_true_iff, Z.eqb_eq, Contains_iff. reflexivity.
Qed.

(** C2.  Demux correctness.  The handler that [grpcHandlerFunc] builds hands
    a request to the gRPC server when the request is HTTP/2 with a
    [Content-Type] containing [application/grpc], and to the other handler
    in every other case.  On the server that the secure gateway starts
    ([secureServer], see [serveGatewaySecure_serving]) a request goes to the
    gRPC server if and only if it is such a request, and to the HTTP mux if
    and only if it is not. *)
Theorem C2_grpcHandlerFunc_demux
    (cfg : ServerConfig) (cert : Certificate)
    (grpcServer : GrpcServer) (httpServer : ServeMux) (r : Request) :
  (delegate (Handler_ (secureServer cfg cert grpcServer httpServer)) r
     = GrpcServeHTTP grpcServer <-> isRPC r)
  /\ (delegate (Handler_ (secureServer cfg cert grpcServer httpServer)) r
        = MuxServeHTTP httpServer <-> ~ isRPC r)
  /\ (forall otherHandler : Handler,
        (isRPC r ->
         delegate (grpcHandlerFunc grpcServer otherHandler) r
         = GrpcServeHTTP grpcServer)
        /\ (~ isRPC r ->
            delegate (grpcHandlerFunc grpcServer otherHandler) r = otherHandler)).
Proof.
  pose proof (grpcHandlerFunc_test r) as Ht.
  unfold grpcHandlerFunc; simpl.
  destruct ((ProtoMajor r =? 2)%Z
            && Contains (Header_Get (Hdr r) "Content-Type") "application/grpc")
    eqn:Hc.
  - assert (Hr : isRPC r) by (apply Ht; reflexivity).
    split; [tauto |]. split.
    + split; [discriminate | contradiction].
    + intros o. split; [reflexivity | contradiction].
  - assert (Hr : ~ isRPC r) by (intros H; apply Ht in H; discriminate).
    split; [split; [discriminate | contradiction] |]. split.
    + tauto.
    + intros o. split; [contradiction | reflexivity].
Qed.

End Demux.

(** ** Bind failures and the CORS wrapper *)

Section Gateways.
Import Go Entrypoints Vocabulary Examples.

(** C6.  A bind failure in the two gateways.  Once the certificate, the
    authentication context and the HTTP mux are there, a failure of
    [net.Listen] in the secure gateway ends the run in a panic whose value
    is the bind error as it came, with no message and no address added, and
    the gateway returns no error; the same failure in the insecure gateway
    is returned, wrapped with a message that names the gRPC address. *)
Theorem C6_bind_failure
    (P : Platform) (cfg : ServerConfig) (a : option AuthenticationContext)
    (certPool : CertPool) (cert : Certificate) (httpServer : ServeMux)
    (errSecure errInsecure : error) (t : Trace) :
  GetSslCredentials P (CertificateFile (Ssl (Security cfg)))
                      (KeyFile (Ssl (Security cfg))) = inl (certPool, cert) ->
  authContextFor P cfg a ->
  newHTTPServer P cfg a (GetHostAddress cfg) [dialTLS cfg certPool] tt
    = (Returned (inl httpServer), tt) ->
  net_Listen P "tcp" (GetHostAddress cfg) = inr errSecure ->
  net_Listen P "tcp" (GetGrpcHostAddress cfg) = inr errInsecure ->
  fst (serveGatewaySecure P cfg t) = Panicked errSecure
  /\ (forall e : option error, fst (serveGatewaySecure P cfg t) <> Returned e)
  /\ (exists e : error,
        fst (serveGatewayInsecure P cfg t) = Returned (Some e)
        /\ Cause e = Cause errInsecure
        /\ Error e = "failed to listen on GRPC port: " ++ GetGrpcHostAddress cfg
                     ++ ": " ++ Error errInsecure).
Proof.
  intros Hs Ha Hh Hl1 Hl2.
  rewrite (serveGatewaySecure_bind_failure P cfg a certPool cert httpServer
             errSecure t Hs Ha Hh Hl1).
  rewrite (serveGatewayInsecure_bind_failure P cfg a errInsecure t Ha Hl2).
  simpl. split; [reflexivity |]. split; [discriminate |].
  eexists; split; [reflexivity |]. split; [reflexivity |].
  unfold Wrap. simpl. rewrite append_assoc. reflexivity.
Qed.

Lemma C6_bind_failure_witness :
  fst (serveGatewaySecure portsTaken (config true false false) [])
    = Panicked (bindError ":8088")
  /\ fst (serveGatewayInsecure portsTaken (config true false false) [])
     = Returned (Some (withMessage (bindError ":8089")
                         "failed to listen on GRPC port: :8089")).
Proof.
  destruct (C6_bind_failure portsTaken (config true false false) None
              "pool" "cert"
              [ ("/healthcheck", healthCheck);
                ("/api/v1/openapi", HandleOpenapiSpec);
                ("/", gwmux [WithMarshalerOption "application/octet-stream" tt]
                        ":8088"
                        [dialTLS (config true false false) "pool"]) ]
              (bindError ":8088") (bindError ":8089") [])
    as (H1 & _ & _); try reflexivity.
  split; [exact H1 | reflexivity].
Defined.

(** C7, as the code has it.  In the insecure gateway, once the gRPC
    listener and the HTTP mux are there, the handler served on the HTTP
    address is, when [AllowCors] is set, the mux wrapped by CORS with
    credentials allowed, the configured origins, the headers [Content-Type]
    followed by the configured ones and the methods GET, POST, DELETE, HEAD,
    PUT, PATCH, and, when it is not set, the mux itself.  In the secure
    gateway the server started has the demultiplexer over the bare mux as
    its handler, whatever [AllowCors] says. *)
Theorem C7_cors_wrapper
    (P : Platform) (cfg : ServerConfig) (a : option AuthenticationContext)
    (t : Trace) :
  authContextFor P cfg a ->
  (forall lis httpServer,
     net_Listen P "tcp" (GetGrpcHostAddress cfg) = inl lis ->
     newHTTPServer P cfg a (GetGrpcHostAddress cfg) [WithInsecure] tt
       = (Returned (inl httpServer), tt) ->
     exists o before,
       serveGatewayInsecure P cfg t
       = (o, (before ++ [ListenAndServe (GetHostAddress cfg)
                            (if AllowCors (Security cfg)
                             then corsHandler cfg httpServer
                             else MuxServeHTTP httpServer)])%list)
       /\ forall addr h, ListenAndServe addr h ∈ before ->
                         ListenAndServe addr h ∈ t)
  /\ (forall certPool cert conn httpServer,
        GetSslCredentials P (CertificateFile (Ssl (Security cfg)))
                            (KeyFile (Ssl (Security cfg))) = inl (certPool, cert) ->
        newHTTPServer P cfg a (GetHostAddress cfg) [dialTLS cfg certPool] tt
          = (Returned (inl httpServer), tt) ->
        net_Listen P "tcp" (GetHostAddress cfg) = inl conn ->
        exists o before srv,
          serveGatewaySecure P cfg t = (o, (before ++ [Serve conn srv])%list)
          /\ Handler_ srv
             = grpcHandlerFunc (grpcServerOf cfg a [Creds cert])
                 (MuxServeHTTP httpServer)
          /\ forall e, e ∈ before -> e ∈ t \/ e = creating cfg).
Proof.
  intros Ha. split.
  - intros lis httpServer Hl Hh.
    rewrite (serveGatewayInsecure_serving P cfg a lis httpServer t Ha Hl Hh).
    eexists _, (t ++ [_; _; _; _; _])%list.
    split; [rewrite <- app_assoc; reflexivity |].
    intros addr h Hin. apply elem_of_app in Hin as [Hin | Hin]; [exact Hin |].
    unfold creating in Hin.
    repeat (apply elem_of_cons in Hin as [Hin | Hin]; [discriminate |]).
    apply elem_of_nil in Hin. contradiction.
  - intros certPool cert conn httpServer Hs Hh Hl.
    rewrite (serveGatewaySecure_serving P cfg a certPool cert conn httpServer t
               Hs Ha Hh Hl).
    eexists _, (t ++ [_])%list, _.
    split; [rewrite <- app_assoc; reflexivity |].
    split; [reflexivity |].
    intros e Hin. apply elem_of_app in Hin as [Hin | Hin]; [left; exact Hin |].
    apply list_elem_of_singleton in Hin. right; exact Hin.
Qed.

Lemma C7_cors_wrapper_witness :
  exists o before,
    serveGatewayInsecure platform (config false false true) []
    = (o, (before ++ [ListenAndServe ":8088"
                         (corsHandler (config false false true)
                            [ ("/healthcheck", healthCheck);
                              ("/api/v1/openapi", HandleOpenapiSpec);
                              ("/", gwmux [WithMarshalerOption
                                             "application/octet-stream" tt]
                                      ":8089" [WithInsecure]) ])])%list)
    /\ forall addr h, ListenAndServe addr h ∈ before -> ListenAndServe addr h ∈ [].
Proof.
  apply (proj1 (C7_cors_wrapper platform (config false false true) None []
                  eq_refl) ":8089"
           [ ("/healthcheck", healthCheck);
             ("/api/v1/openapi", HandleOpenapiSpec);
             ("/", gwmux [WithMarshalerOption "application/octet-stream" tt]
                     ":8089" [WithInsecure]) ]);
    reflexivity.
Defined.

(** C7 as the claim words it fails in secure mode: with [AllowCors] set
    the secure gateway serves a handler that is no CORS wrapper, and hands
    a plain HTTP request to the bare mux. *)
Lemma C7_secure_gateway_serves_without_cors :
  AllowCors (Security (config true false true)) = true
  /\ exists o before conn srv,
       serveCmd_RunE platform (config true false true) []
       = (o, (before ++ [Serve conn srv])%list)
       /\ (forall options h, Handler_ srv <> CORS options h)
       /\ (forall options h, delegate (Handler_ srv) getOpenapi <> CORS options h)
       /\ forall addr h, ListenAndServe addr h ∉ before.
Proof.
  split; [reflexivity |].
  exists (Returned (Some (withMessage (errorString "http: Server closed")
                            "failed to Start HTTP/2 Server"))),
         [creating (config true false true)], ":8088",
         (secureServer (config true false true) "cert"
            (grpcServerOf (config true false true) None [Creds "cert"])
            [ ("/healthcheck", healthCheck);
              ("/api/v1/openapi", HandleOpenapiSpec);
              ("/", gwmux [WithMarshalerOption "application/octet-stream" tt]
                      ":8088" [dialTLS (config true false true) "pool"]) ]).
  split; [reflexivity |].
  split; [intros options h; discriminate |].
  split; [intros options h; discriminate |].
  intros addr h Hin. apply list_elem_of_singleton in Hin. discriminate.
Qed.

End Gateways.

(** ** The interceptor chain *)

Section InterceptorChain.
Import Go Entrypoints Examples.
Context {W Ctx Req Resp : Type}.

Lemma grpcauth_rejects (mw : Middleware W Ctx Req Resp) a info ctx req
    (next : UnaryHandler W Ctx Req Resp) w ctx' err w' :
  verify (authenticationInterceptor mw a) info ctx w = (Returned (ctx', Some err), w') ->
  grpcauth_interceptor (authenticationInterceptor mw a) ctx req info next w
  = (Returned (None, Some err), w').
Proof.
  unfold grpcauth_interceptor. intros Hv.
  rewrite bind_run, Hv. reflexivity.
Qed.

(** C3.  The unary interceptor chain of the server that [newGRPCServer]
    builds.  [newGRPCServer] returns a server, whose options are the stream
    interceptor, one unary interceptor and the options of the caller.
    Without authentication that unary interceptor is the chain of the
    metrics interceptor alone.  With authentication it is the chain of the
    metrics interceptor, the custom-metadata interceptor, the verification
    of [grpcauth] and the logging interceptor, each running the next as its
    handler in this order; and when the verification of a call fails, the
    call ends there with the verification's error: the result and the world
    are the ones the verification left, whatever the logging interceptor and
    the handler of the call are, so neither has run. *)
Theorem C3_interceptor_chain
    (cfg : ServerConfig) (a : option AuthenticationContext)
    (opts : list ServerOption) (t : Trace)
    (mw : Middleware W Ctx Req Resp) (info : UnaryServerInfo W Ctx)
    (handler : UnaryHandler W Ctx Req Resp) :
  exists (grpcServer : GrpcServer) (t' : Trace) (chain : UnaryServerInterceptor),
    newGRPCServer cfg a opts t = (Returned (inl grpcServer), t')
    /\ serverOpts grpcServer
       = StreamInterceptor grpc_prometheus_StreamServerInterceptor
         :: UnaryInterceptor chain :: opts
    /\ (UseAuth (Security cfg) = false ->
          chain = ChainUnaryServer [grpc_prometheus_UnaryServerInterceptor]
          /\ run mw chain
             = fun ctx req info handler =>
                 prometheusInterceptor mw ctx req info handler)
    /\ (UseAuth (Security cfg) = true ->
          chain
          = ChainUnaryServer
              [ grpc_prometheus_UnaryServerInterceptor;
                GetAuthenticationCustomMetadataInterceptor a;
                grpcauth_UnaryServerInterceptor (GetAuthenticationInterceptor a);
                AuthenticationLoggingInterceptor ]
          /\ run mw chain
             = (fun ctx req info handler =>
                  prometheusInterceptor mw ctx req info (fun ctx req =>
                    customMetadataInterceptor mw a ctx req info (fun ctx req =>
                      grpcauth_interceptor (authenticationInterceptor mw a)
                        ctx req info (fun ctx req =>
                          loggingInterceptor mw ctx req info handler)))))
    /\ (forall (logging : Interceptor W Ctx Req Resp) ctx req w ctx' err w',
          verify (authenticationInterceptor mw a) info ctx w
            = (Returned (ctx', Some err), w') ->
          grpcauth_interceptor (authenticationInterceptor mw a) ctx req info
            (fun ctx req => logging ctx req info handler) w
          = (Returned (None, Some err), w')).
Proof.
  unfold newGRPCServer, chainedUnaryInterceptors, Infof, emit.
  destruct (UseAuth (Security cfg)); eexists _, _, _;
    (split; [reflexivity |]); (split; [reflexivity |]);
    (split; [intros E; first [discriminate E | split; reflexivity] |]);
    (split; [intros E; first [discriminate E | split; reflexivity] |]);
    intros logging ctx req w ctx' err w' Hv;
    exact (grpcauth_rejects mw a info ctx req _ w ctx' err w' Hv).
Qed.

End InterceptorChain.

(** A call without a token to the server that [newGRPCServer] builds with
    authentication, through the unary interceptor among the options of that
    server: the metrics interceptor has run around it, the audit line and
    the business layer are missing from the log. *)
Lemma C3_interceptor_chain_witness :
  match fst (Entrypoints.newGRPCServer (Examples.config true true false) None
               [] []) with
  | Go.Returned (inl grpcServer) =>
      match Entrypoints.serverOpts grpcServer with
      | [_; Entrypoints.UnaryInterceptor chain] =>
          Entrypoints.run Examples.middleware chain
            None "request" Examples.getExecutionInfo Examples.businessLayer []
          = (Go.Returned (None, Some (Go.statusError Go.Unauthenticated "no token")),
             ["metrics: started"; "metrics: handled"])
      | _ => False
      end
  | _ => False
  end.
Proof.
  destruct (C3_interceptor_chain (Examples.config true true false) None [] []
              Examples.middleware Examples.getExecutionInfo
              Examples.businessLayer)
    as (grpcServer & t' & chain & Hn & Ho & _ & Hauth & _).
  rewrite Hn. cbn [fst]. rewrite Ho.
  destruct (Hauth eq_refl) as [_ Hrun].
  rewrite Hrun. reflexivity.
Defined.

(** ** The execution endpoints *)

Section ExecutionEndpoints.
Import Go AdminService Examples.

Lemma updMetrics_manager {MS} f g (s : ServiceState MS) :
  manager (updMetrics f g s) = manager s.
Proof. reflexivity. Qed.

(** An endpoint handed a request: what it does once the business layer
    has returned. *)
Lemma endpoint_returned {MS} (m : AdminService MS) (op : Operation)
    (ctx : Context) (request : Message) (s s1 : ServiceState MS)
    (response : option Message) (err : option error) :
  business op m ctx request s = (Returned (response, err), s1) ->
  endpoint op m ctx (Some request) s
  = match err with
    | None =>
        (Returned (response, None),
         updMetrics (outcomeMetric op) succeeded
           (updMetrics (timingMetric op) observed s1))
    | Some e =>
        (Returned (None, Some (transformError m e)),
         updMetrics (outcomeMetric op)
           (recorded (status_Code (transformError m e)))
           (updMetrics (timingMetric op) observed s1))
    end.
Proof.
  intros Hb.
  destruct op; simpl in Hb |- *;
    unfold CreateExecution, RelaunchExecution, CreateWorkflowEvent,
      GetExecution, GetExecutionData, ListExecutions, TerminateExecution,
      defer, RequestMetrics_Time, RequestMetrics_Success,
      TransformAndRecordError, time_Now, gets, bind, modify, ret,
      interceptPanic;
    rewrite Hb; simpl; destruct err; reflexivity.
Qed.

(** An endpoint handed a request in whose handling the business layer
    panics. *)
Lemma endpoint_panicked {MS} (m : AdminService MS) (op : Operation)
    (ctx : Context) (request : Message) (s s1 : ServiceState MS) (v : error) :
  business op m ctx request s = (Panicked v, s1) ->
  endpoint op m ctx (Some request) s
  = match onPanic m ctx (Some request) v s1 with
    | (Returned Recovered, s2) => (Returned (None, None), s2)
    | (Returned NotRecovered, s2) => (Panicked v, s2)
    | (Panicked v', s2) => (Panicked v', s2)
    | (Exited n, s2) => (Exited n, s2)
    end.
Proof.
  intros Hb.
  destruct op; simpl in Hb |- *;
    unfold CreateExecution, RelaunchExecution, CreateWorkflowEvent,
      GetExecution, GetExecutionData, ListExecutions, TerminateExecution,
      defer, RequestMetrics_Time, RequestMetrics_Success,
      TransformAndRecordError, time_Now, gets, bind, modify, ret,
      interceptPanic;
    rewrite Hb; reflexivity.
Qed.

(** C4.  A nil request.  Each of the seven endpoints answers a nil request
    with the error [InvalidArgument], "Incorrect request, nil requests not
    allowed", and a nil response, and leaves the whole state as it was: the
    metrics, the log, and the state of the business layer, whatever the
    business layer is.  Behind a manager that lists the calls it receives,
    the list has not grown. *)
Theorem C4_nil_request_rejected {MS} (m : AdminService MS)
    (m' : AdminService (Datatypes.list Operation * MS))
    (op : Operation) (ctx : Context)
    (s : ServiceState MS) (s' : ServiceState (Datatypes.list Operation * MS)) :
  endpoint op m ctx None s
  = (Returned (None, Some (statusError InvalidArgument
                             "Incorrect request, nil requests not allowed")), s)
  /\ fst (manager (snd (endpoint op
                          {| ExecutionManager := spy (ExecutionManager m);
                             transformError := transformError m';
                             onPanic := onPanic m' |} ctx None s')))
     = fst (manager s').
Proof.
  split; destruct op; reflexivity.
Qed.

(** C5, as the code has it.  Behind the recovery boundary that the spec
    describes (the panic is caught and logged with the request), a panic of
    the business layer during the handling of a request is caught by the
    deferred [interceptPanic] of the endpoint: the endpoint returns, so no
    panic goes on to the caller and the process is not ended; the line that
    names the request and the panic value is the one line added to the log
    the panic left; and what the endpoint returns is a nil response and a
    nil error, not an error of the [Internal] class or of any other. *)
Theorem C5_panic_in_handler {MS} (e : ExecutionInterface MS)
    (transform : error -> error) (op : Operation)
    (ctx : Context) (request : Message) (s s1 : ServiceState MS) (v : error) :
  business op (recovering e transform) ctx request s = (Panicked v, s1) ->
  fst (endpoint op (recovering e transform) ctx (Some request) s)
  = Returned (None, None)
  /\ logs (snd (endpoint op (recovering e transform) ctx (Some request) s))
     = (logs s1 ++ [("panic-ed for request: [" ++ request ++ "] with err: "
                     ++ Error v)%string])%list
  /\ (forall v',
        fst (endpoint op (recovering e transform) ctx (Some request) s)
        <> Panicked v')
  /\ (forall n,
        fst (endpoint op (recovering e transform) ctx (Some request) s)
        <> Exited n)
  /\ (forall response err,
        fst (endpoint op (recovering e transform) ctx (Some request) s)
        <> Returned (response, Some err)).
Proof.
  intros Hb.
  rewrite (endpoint_panicked (recovering e transform) op ctx request s s1 v Hb).
  cbn [onPanic recovering]. unfold recoverAndLog.
  rewrite bind_run. unfold modify, ret. cbn [fst snd logs default].
  repeat split; intros; discriminate.
Qed.

Lemma C5_panic_in_handler_witness :
  fst (endpoint OpTerminateExecution
         (recovering (managerOf crash) (fun err => err))
         "ctx" (Some "request") (fresh tt))
  = Returned (None, None)
  /\ logs (snd (endpoint OpTerminateExecution
                  (recovering (managerOf crash) (fun err => err))
                  "ctx" (Some "request") (fresh tt)))
     = ["panic-ed for request: [request] with err: runtime error: invalid memory address or nil pointer dereference"].
Proof.
  destruct (C5_panic_in_handler (managerOf crash) (fun err => err)
              OpTerminateExecution "ctx" "request" (fresh tt) (fresh tt)
              _ eq_refl) as (H1 & H2 & _).
  split; [exact H1 | exact H2].
Defined.

(** C5 as the claim words it fails.  The business layer panics in the
    handling of a request to [CreateExecution]: behind a recovery that
    catches and logs the panic, the endpoint returns a nil response and no
    error; and whatever the recovery does, the endpoint does not return an
    error of the [Internal] class. *)
Lemma C5_no_internal_error_response :
  fst (business OpCreateExecution (serviceOf (managerOf crash) recoverAndLog)
         "ctx" "request" (fresh tt))
  = Panicked (errorString "runtime error: invalid memory address or nil pointer dereference")
  /\ fst (endpoint OpCreateExecution (serviceOf (managerOf crash) recoverAndLog)
            "ctx" (Some "request") (fresh tt))
     = Returned (None, None)
  /\ ~ exists boundary response msg,
         fst (endpoint OpCreateExecution (serviceOf (managerOf crash) boundary)
                "ctx" (Some "request") (fresh tt))
         = Returned (response, Some (statusError Internal msg)).
Proof.
  split; [reflexivity |]. split; [reflexivity |].
  intros (boundary & response & msg & H).
  pose proof (endpoint_panicked (serviceOf (managerOf crash) boundary)
             OpCreateExecution "ctx" "request" (fresh tt) (fresh tt) _ eq_refl)
    as He.
  unfold Message in He. rewrite He in H. simpl in H.
  destruct (boundary "ctx" (Some "request") _ _) as [[[]|v'|n] s2];
    simpl in H; discriminate.
Qed.

(** C10.  The metrics of [GetExecutionData].  Once the business layer has
    returned, the duration of the call is observed on the metrics object
    [get], and the outcome is recorded on the metrics object [getData]: a
    success counted there, or the status code of the transformed error
    recorded there.  Every other execution endpoint observes the duration
    and records the outcome on one and the same object. *)
Theorem C10_get_execution_data_metrics {MS} (m : AdminService MS)
    (ctx : Context) (request : Message) (s s1 : ServiceState MS)
    (response : option Message) (err : option error) :
  callManager (mgr_GetExecutionData (ExecutionManager m) ctx request) s
    = (Returned (response, err), s1) ->
  GetExecutionData m ctx (Some request) s
  = match err with
    | None =>
        (Returned (response, None),
         updMetrics executionEndpointMetrics.getData succeeded
           (updMetrics executionEndpointMetrics.get observed s1))
    | Some e =>
        (Returned (None, Some (transformError m e)),
         updMetrics executionEndpointMetrics.getData
           (recorded (status_Code (transformError m e)))
           (updMetrics executionEndpointMetrics.get observed s1))
    end
  /\ executionEndpointMetrics.get <> executionEndpointMetrics.getData
  /\ forall op, op <> OpGetExecutionData ->
       exists f, forall s' s1' response' err',
         business op m ctx request s' = (Returned (response', err'), s1') ->
         endpoint op m ctx (Some request) s'
         = match err' with
           | None =>
               (Returned (response', None),
                updMetrics f succeeded (updMetrics f observed s1'))
           | Some e =>
               (Returned (None, Some (transformError m e)),
                updMetrics f (recorded (status_Code (transformError m e)))
                  (updMetrics f observed s1'))
           end.
Proof.
  intros Hb. split.
  - exact (endpoint_returned m OpGetExecutionData ctx request s s1 response err Hb).
  - split; [discriminate |].
    intros op Hop. exists (timingMetric op).
    intros s' s1' response' err' Hb'.
    rewrite (endpoint_returned m op ctx request s' s1' response' err' Hb').
    destruct op; try reflexivity. contradiction.
Qed.

(** A successful [GetExecutionData] on fresh metrics: one duration under
    [get], one success under [getData], and nothing else. *)
Lemma C10_get_execution_data_metrics_witness :
  let s := snd (GetExecutionData (serviceOf (managerOf answer) recoverAndLog)
                  "ctx" (Some "request") (fresh tt)) in
  requestDuration (Metrics s executionEndpointMetrics.get) = 1%nat
  /\ successCount (Metrics s executionEndpointMetrics.get) = 0%nat
  /\ requestDuration (Metrics s executionEndpointMetrics.getData) = 0%nat
  /\ successCount (Metrics s executionEndpointMetrics.getData) = 1%nat.
Proof.
  pose proof (proj1 (C10_get_execution_data_metrics
                       (serviceOf (managerOf answer) recoverAndLog)
                       "ctx" "request" (fresh tt) (fresh tt) (Some "response")
                       None eq_refl)) as H.
  unfold Message in H. cbv zeta. rewrite H.
  vm_compute. repeat split.
Defined.

End ExecutionEndpoints.

(** ** The specification-document endpoint *)

Section Openapi.
Import Go Entrypoints Vocabulary Examples.

Ltac run_bind :=
  match goal with
  | |- context [@bind ?S ?A ?B ?c ?k ?s] => rewrite (@bind_run S A B c k s)
  end.

Lemma HandleFunc_inv pattern h mux mux' u :
  HandleFunc pattern h mux tt = (Returned mux', u) ->
  mux' = (mux ++ [(pattern, h)])%list.
Proof.
  unfold HandleFunc.
  destruct (String.eqb pattern ""); [discriminate |].
  destruct (existsb _ mux); [discriminate |].
  intros [= <- _]. reflexivity.
Qed.

(** A mux that [newHTTPServer] returns starts with the health check and
    the specification document, in both authentication modes. *)
Lemma newHTTPServer_fixed_routes P cfg a grpcAddress opts mux u :
  newHTTPServer P cfg a grpcAddress opts tt = (Returned (inl mux), u) ->
  exists rest,
    mux = (("/healthcheck", healthCheck)
           :: ("/api/v1/openapi", HandleOpenapiSpec) :: rest)%list.
Proof.
  unfold newHTTPServer. cbv zeta.
  run_bind.
  change (HandleFunc "/healthcheck" healthCheck [] tt)
    with (Returned [("/healthcheck", healthCheck)], tt).
  cbv beta iota. run_bind.
  change (HandleFunc "/api/v1/openapi" HandleOpenapiSpec
            [("/healthcheck", healthCheck)] tt)
    with (Returned [("/healthcheck", healthCheck);
                    ("/api/v1/openapi", HandleOpenapiSpec)], tt).
  cbv beta iota. run_bind.
  set (m2 := [("/healthcheck", healthCheck);
              ("/api/v1/openapi", HandleOpenapiSpec)]).
  assert (Hstep : forall (r : ServeMux * list ServeMuxOption) u',
            (exists rest, fst r = (m2 ++ rest)%list) ->
            match RegisterAdminServiceHandlerFromEndpoint P grpcAddress opts with
            | Some err => ret (inr (Wrap err "error registering admin service"))
            | None =>
                mux0 <- HandleFunc "/" (gwmux (snd r) grpcAddress opts) (fst r) ;;
                ret (inl mux0)
            end u' = (Returned (inl mux), u) ->
            exists rest, mux = (m2 ++ rest)%list).
  { intros r u' [rest Hr].
    destruct (RegisterAdminServiceHandlerFromEndpoint P grpcAddress opts);
      [discriminate |].
    run_bind. destruct u'.
    destruct (HandleFunc "/" _ (fst r) tt) as [[mux0|v|n] u0] eqn:Hf;
      try discriminate.
    intros [= <- _]. apply HandleFunc_inv in Hf. rewrite Hf, Hr.
    rewrite <- app_assoc. eauto. }
  destruct (UseAuth (Security cfg)).
  - destruct a as [ac|]; [| discriminate].
    run_bind.
    destruct (HandleFunc "/login" _ m2 tt) as [[m3|v|n] []] eqn:H3;
      try discriminate.
    apply HandleFunc_inv in H3.
    run_bind.
    destruct (HandleFunc "/callback" _ m3 tt) as [[m4|v|n] []] eqn:H4;
      try discriminate.
    apply HandleFunc_inv in H4.
    run_bind.
    match goal with
    | |- context [match ?c tt with _ => _ end] =>
        destruct (c tt) as [[m5|v|n] []] eqn:H5; try discriminate
    end.
    assert (H5' : exists rest, m5 = (m4 ++ rest)%list).
    { destruct (GetUserInfoURL ac) as [url|].
      - destruct (negb (String.eqb url "")).
        + apply HandleFunc_inv in H5. eauto.
        + injection H5 as <-. exists []. rewrite app_nil_r. reflexivity.
      - injection H5 as <-. exists []. rewrite app_nil_r. reflexivity. }
    destruct H5' as [r5 ->].
    run_bind.
    destruct (HandleFunc ("/" ++ MetadataEndpoint P) _ _ tt)
      as [[m6|v|n] []] eqn:H6; try discriminate.
    apply HandleFunc_inv in H6.
    unfold ret at 1. intros H. eapply Hstep; [| exact H].
    simpl. subst m6 m4 m3. rewrite <- !app_assoc. eauto.
  - unfold ret at 1. intros H. eapply Hstep; [| exact H].
    exists []. simpl. rewrite ?app_nil_r. reflexivity.
Qed.

(** The handler on any response writer. *)
Lemma GetHandleOpenapiSpec_run {RW} `{ResponseWriter RW} (P : Platform)
    (r : Request) (w : RW) (log : Trace) :
  GetHandleOpenapiSpec P r (w, log)
  = match Asset P "admin.swagger.json" with
    | inl doc =>
        let res := Write doc (WriteHeader 200 w) in
        (Returned tt,
         (snd res,
          match snd (fst res) with
          | Some err =>
              (log ++ [Logged ErrorLevel
                         ("failed to write openAPI information, error: "
                          ++ Error err)])%list
          | None => log
          end))
    | inr err =>
        (Returned tt,
         (WriteHeader 424 w, (log ++ [Logged WarningLevel ("Err " ++ Error err)])%list))
    end.
Proof.
  unfold GetHandleOpenapiSpec.
  destruct (Asset P "admin.swagger.json") as [doc|err].
  - unfold bind, onWriter, logged, modify, ret, StatusOK. simpl.
    destruct (Write doc (WriteHeader 200 w)) as [[n [e|]] w']; reflexivity.
  - reflexivity.
Qed.

(** C8.  The specification-document endpoint.  The handler answers a
    request, on a fresh response recorder, with status 200 and the bundled
    document as the body when the asset loads, and with status 424 and no
    body when it does not; on every response writer it sets these statuses
    and returns without a panic; and every mux that [newHTTPServer] returns
    routes the path [/api/v1/openapi] to this handler. *)
Theorem C8_openapi_spec_endpoint (P : Platform) (r : Request) :
  match Asset P "admin.swagger.json" with
  | inl doc =>
      GetHandleOpenapiSpec P r (NewRecorder, [])
      = (Returned tt, ({| Code_ := 200; wroteHeader := true; Body := doc |}, []))
      /\ forall RW (rw : ResponseWriter RW) (w : RW) (log : Trace),
           fst (GetHandleOpenapiSpec P r (w, log)) = Returned tt
           /\ fst (snd (GetHandleOpenapiSpec P r (w, log)))
              = snd (Write doc (WriteHeader 200 w))
  | inr err =>
      GetHandleOpenapiSpec P r (NewRecorder, [])
      = (Returned tt, ({| Code_ := 424; wroteHeader := true; Body := [] |},
                       [Logged WarningLevel ("Err " ++ Error err)]))
      /\ forall RW (rw : ResponseWriter RW) (w : RW) (log : Trace),
           fst (GetHandleOpenapiSpec P r (w, log)) = Returned tt
           /\ fst (snd (GetHandleOpenapiSpec P r (w, log))) = WriteHeader 424 w
  end
  /\ forall cfg a grpcAddress opts mux,
       newHTTPServer P cfg a grpcAddress opts tt = (Returned (inl mux), tt) ->
       ServeMux_match mux "/api/v1/openapi"
       = Some ("/api/v1/openapi", HandleOpenapiSpec).
Proof.
  split.
  - pose proof (fun RW rw w log =>
                  @GetHandleOpenapiSpec_run RW rw P r w log) as Hrun.
    destruct (Asset P "admin.swagger.json") as [doc|err] eqn:Ha.
    + split.
      * rewrite Hrun. reflexivity.
      * intros RW rw w log. rewrite Hrun. split; reflexivity.
    + split.
      * rewrite Hrun. reflexivity.
      * intros RW rw w log. rewrite Hrun. split; reflexivity.
  - intros cfg a grpcAddress opts mux Hn.
    apply newHTTPServer_fixed_routes in Hn as [rest ->]. reflexivity.
Qed.

Lemma C8_openapi_spec_endpoint_witness :
  GetHandleOpenapiSpec platform getOpenapi (NewRecorder, [])
  = (Returned tt, ({| Code_ := 200; wroteHeader := true; Body := swagger |}, []))
  /\ fst (GetHandleOpenapiSpec noAssets getOpenapi (NewRecorder, []))
     = Returned tt
  /\ Code_ (fst (snd (GetHandleOpenapiSpec noAssets getOpenapi (NewRecorder, []))))
     = 424.
Proof.
  split.
  - exact (proj1 (proj1 (C8_openapi_spec_endpoint platform getOpenapi))).
  - rewrite (proj1 (proj1 (C8_openapi_spec_endpoint noAssets getOpenapi))).
    split; reflexivity.
Defined.

End Openapi.

(** ** The serializer *)

Section Serializer.
Import Go Resources Protobuf.

Lemma to_nat_byteOf (n : nat) : (n < 256)%nat -> Byte.to_nat (byteOf n) = n.
Proof.
  intros Hn. unfold byteOf.
  destruct (Byte.of_nat n) as [b|] eqn:E.
  - simpl. now apply Byte.to_of_nat.
  - apply Byte.of_nat_None_iff in E. lia.
Qed.

(** A varint is read back as the number written, and what follows it is
    left. *)
Lemma DecodeVarint_putUvarint (fuel n : nat) (rest : bytes) :
  (n <= fuel)%nat ->
  DecodeVarint (putUvarint fuel n ++ rest)%list = Some (n, rest).
Proof.
  revert n. induction fuel as [|fuel IH]; intros n Hn.
  - assert (n = 0%nat) by lia. subst. reflexivity.
  - cbn [putUvarint]. destruct (Nat.ltb_spec n 128) as [Hlt|Hge].
    + cbn [app DecodeVarint]. rewrite to_nat_byteOf by lia.
      destruct (Nat.ltb_spec n 128); [reflexivity | lia].
    + cbn [app DecodeVarint].
      assert (Hm : (n mod 128 < 128)%nat) by (apply Nat.mod_upper_bound; lia).
      rewrite to_nat_byteOf by lia.
      destruct (Nat.ltb_spec (128 + n mod 128) 128); [lia |].
      rewrite IH.
      * f_equal. f_equal.
        pose proof (Nat.div_mod_eq n 128). lia.
      * assert ((n / 128 < n)%nat) by (apply Nat.div_lt; lia). lia.
Qed.

Lemma DecodeVarint_EncodeVarint (n : nat) (rest : bytes) :
  DecodeVarint (EncodeVarint n ++ rest)%list = Some (n, rest).
Proof. apply DecodeVarint_putUvarint. lia. Qed.

Lemma putUvarint_nonempty (fuel n : nat) : putUvarint fuel n <> [].
Proof.
  destruct fuel; cbn [putUvarint]; [congruence |].
  destruct (Nat.ltb n 128); congruence.
Qed.

(** The fields of a message are read back as they were written. *)
Lemma getFields_putFields (fs : list Field) (fuel : nat) :
  (length (putFields fs) <= fuel)%nat ->
  getFields fuel (putFields fs) = Some fs.
Proof.
  revert fuel. induction fs as [|[n p] fs IH]; intros fuel Hf.
  - destruct fuel; reflexivity.
  - cbn [putFields flat_map] in *. fold (putFields fs) in *.
    unfold putField in *. cbn [fst snd] in *.
    rewrite <- !app_assoc in *.
    destruct (EncodeVarint (n * 8 + WireBytes)) as [|k ks] eqn:Ek.
    { exfalso. exact (putUvarint_nonempty _ _ Ek). }
    destruct fuel as [|fuel].
    { simpl in Hf. lia. }
    cbn [getFields app]. change (k :: (ks ++ ?r))%list with ((k :: ks) ++ r)%list.
    rewrite <- Ek. rewrite DecodeVarint_EncodeVarint.
    replace ((n * 8 + WireBytes) mod 8)%nat with WireBytes
      by (unfold WireBytes; rewrite Nat.add_comm, Nat.Div0.mod_add; reflexivity).
    rewrite Nat.eqb_refl.
    rewrite DecodeVarint_EncodeVarint.
    rewrite length_app.
    destruct (Nat.leb_spec (length p) (length p + length (putFields fs))); [| lia].
    rewrite drop_app_length, take_app_length.
    rewrite IH.
    + f_equal. f_equal. f_equal. unfold WireBytes.
      rewrite Nat.add_comm, Nat.div_add by lia. reflexivity.
    + simpl in Hf. rewrite !length_app in Hf. lia.
Qed.

Lemma parse_putFields (fs : list Field) : parse (putFields fs) = Some fs.
Proof. apply getFields_putFields. lia. Qed.

Lemma decodeString_encodeString (s : string) : decodeString (encodeString s) = s.
Proof. apply String.string_of_list_byte_of_string. Qed.

Lemma readSpec_fields (s : TaskResourceSpec) :
  fold_left readSpecField (TaskResourceSpec_fields s) noSpec = s.
Proof.
  destruct s as [c g m st]. unfold TaskResourceSpec_fields, stringField.
  cbn [cpu gpu memory storage].
  destruct (String.eqb_spec c ""), (String.eqb_spec g ""),
    (String.eqb_spec m ""), (String.eqb_spec st ""); subst;
    cbn [app fold_left]; unfold readSpecField, noSpec;
    cbn [fst snd cpu gpu memory storage];
    rewrite ?decodeString_encodeString; reflexivity.
Qed.

Lemma readEntry_fields (kv : string * string) :
  readEntry (putFields (entryFields kv)) = Some kv.
Proof.
  unfold readEntry. rewrite parse_putFields. destruct kv as [k v].
  unfold entryFields. cbn [fold_left]. unfold readEntryField.
  cbn [fst snd]. rewrite !decodeString_encodeString. reflexivity.
Qed.

Lemma readTarget_targetFields (a : MatchingAttributes) :
  readTarget (resourceOf a) (targetFields a) = Some a.
Proof.
  destruct a as [d l | kvs | tags]; cbn [resourceOf targetFields readTarget].
  - cbn [fold_left]. unfold readTaskField at 2. cbn [fst snd].
    unfold readSpec at 1. rewrite parse_putFields, readSpec_fields.
    unfold readTaskField. cbn [fst snd]. unfold readSpec.
    rewrite parse_putFields, readSpec_fields. reflexivity.
  - replace (readCluster _) with (Some kvs); [reflexivity |].
    induction kvs as [|kv kvs IH]; [reflexivity |].
    cbn [map readCluster fst snd]. rewrite readEntry_fields, <- IH. reflexivity.
  - f_equal. f_equal.
    induction tags as [|t tags IH]; [reflexivity |].
    cbn [map readQueue fst snd]. rewrite decodeString_encodeString, IH.
    reflexivity.
Qed.

(** The bytes of an override are read back, by the schema of its resource
    type, as the override. *)
Lemma decodeMessage_encodeMessage (a : MatchingAttributes) :
  decodeMessage (resourceOf a) (encodeMessage a) = Some a.
Proof.
  unfold decodeMessage, encodeMessage. rewrite parse_putFields.
  cbn [list.last fst snd]. rewrite Nat.eqb_refl, parse_putFields.
  apply readTarget_targetFields.
Qed.

(** By another schema they are not read. *)
Lemma decodeMessage_other_schema (a : MatchingAttributes) (rt : MatchableResource) :
  rt <> resourceOf a -> decodeMessage rt (encodeMessage a) = None.
Proof.
  intros Hrt. unfold decodeMessage, encodeMessage. rewrite parse_putFields.
  cbn [list.last fst snd].
  destruct (Nat.eqb_spec (fieldNumber (resourceOf a)) (fieldNumber rt)) as [E|];
    [| reflexivity].
  exfalso. apply Hrt. destruct rt, (resourceOf a); simpl in E; congruence.
Qed.

(** The serializer round trip: an override whose strings are UTF-8 is
    written, and the payload is read back as the override. *)
Lemma protobuf_round_trip (v : MatchingAttributes) :
  validOverride v = true ->
  Marshal protobuf v = inl (encodeMessage v)
  /\ Unmarshal protobuf (resourceOf v) (encodeMessage v) = inl v.
Proof.
  intros Hv. unfold protobuf; cbn [Marshal Unmarshal].
  rewrite decodeMessage_encodeMessage, Hv. split; reflexivity.
Qed.

End Serializer.

(** ** The resource manager *)

Section ResourceManager.
Import Go Resources Protobuf Examples.

Lemma validateIdentity_ok (identity : ResourceIdentity) :
  project identity <> "" -> domain identity <> "" ->
  validateIdentity identity = None.
Proof.
  intros Hp Hd. unfold validateIdentity.
  apply String.eqb_neq in Hp, Hd. rewrite Hp, Hd. reflexivity.
Qed.

(** What a successful upsert does to the store: one record written under
    the key of the identity. *)
Lemma Upsert_run (codec : Codec) (identity : ResourceIdentity)
    (v : MatchingAttributes) (payload : bytes) (db : gmap Key bytes) :
  project identity <> "" -> domain identity <> "" ->
  Marshal codec v = inl payload ->
  Upsert codec identity v db
  = (<[ keyOf (resourceID identity) := payload ]> db, None).
Proof.
  intros Hp Hd Hm. unfold Upsert.
  rewrite (validateIdentity_ok identity Hp Hd), Hm. reflexivity.
Qed.

(** What a get finds under a key just written. *)
Lemma Get_written (codec : Codec) (identity : ResourceIdentity)
    (payload : bytes) (db : gmap Key bytes) :
  project identity <> "" -> domain identity <> "" ->
  Get codec identity (<[ keyOf (resourceID identity) := payload ]> db)
  = Unmarshal codec (resourceType identity) payload.
Proof.
  intros Hp Hd. unfold Get, RepoGet.
  rewrite (validateIdentity_ok identity Hp Hd), lookup_insert_eq.
  reflexivity.
Qed.

Lemma resourceID_key_inj (i j : ResourceIdentity) :
  keyOf (resourceID i) = keyOf (resourceID j) -> i = j.
Proof.
  destruct i as [p d w l rt], j as [p' d' w' l' rt'].
  unfold keyOf, resourceID; simpl. intros [= -> -> -> -> Hrt].
  f_equal. destruct rt, rt'; simpl in Hrt; congruence.
Qed.

(** C1.  Round trip.  For an identity whose project and domain are not
    empty, whatever its workflow and launch plan are (so at the
    project-domain, the workflow and the launch-plan level), and a typed
    override of the identity's resource type whose strings are UTF-8:
    [Upsert] succeeds, and [Get] with the same identity on the store it
    leaves returns the override.  The payload goes through the serializer
    both ways: it is written by [Marshal] and read back by [Unmarshal]. *)
Theorem C1_upsert_get_round_trip (identity : ResourceIdentity)
    (v : MatchingAttributes) (db : gmap Key bytes) :
  project identity <> "" -> domain identity <> "" ->
  resourceType identity = resourceOf v ->
  validOverride v = true ->
  exists db',
    Upsert protobuf identity v db = (db', None)
    /\ Get protobuf identity db' = inl v.
Proof.
  intros Hp Hd Hrt Hv.
  destruct (protobuf_round_trip v Hv) as [Hm Hu].
  exists (<[ keyOf (resourceID identity) := encodeMessage v ]> db).
  split; [exact (Upsert_run protobuf identity v _ db Hp Hd Hm) |].
  rewrite (Get_written protobuf identity _ db Hp Hd), Hrt. exact Hu.
Qed.

Lemma C1_upsert_get_round_trip_witness :
  (exists db',
     Upsert protobuf (projectDomainIdentity "project" "domain" EXECUTION_QUEUE)
       ExecutionQueueAttributes_ ∅ = (db', None)
     /\ Get protobuf (projectDomainIdentity "project" "domain" EXECUTION_QUEUE) db'
        = inl ExecutionQueueAttributes_)
  /\ (exists db',
        Upsert protobuf
          (workflowIdentity "project" "domain" "workflow" TASK_RESOURCE)
          (TaskResourceAttributes
             {| cpu := "1"; gpu := ""; memory := "2Gi"; storage := "" |}
             {| cpu := "2"; gpu := "1"; memory := "4Gi"; storage := "" |}) ∅
        = (db', None)
        /\ Get protobuf
             (workflowIdentity "project" "domain" "workflow" TASK_RESOURCE) db'
           = inl (TaskResourceAttributes
                    {| cpu := "1"; gpu := ""; memory := "2Gi"; storage := "" |}
                    {| cpu := "2"; gpu := "1"; memory := "4Gi"; storage := "" |}))
  /\ (exists db',
        Upsert protobuf
          (launchPlanIdentity "project" "domain" "workflow" "launch_plan"
             CLUSTER_RESOURCE)
          (ClusterResourceAttributes [("namespace", "flyte"); ("quota", "10")]) ∅
        = (db', None)
        /\ Get protobuf
             (launchPlanIdentity "project" "domain" "workflow" "launch_plan"
                CLUSTER_RESOURCE) db'
           = inl (ClusterResourceAttributes
                    [("namespace", "flyte"); ("quota", "10")])).
Proof.
  split; [| split].
  - apply (C1_upsert_get_round_trip
             (projectDomainIdentity "project" "domain" EXECUTION_QUEUE)
             ExecutionQueueAttributes_);
      [discriminate | discriminate | reflexivity | reflexivity].
  - apply (C1_upsert_get_round_trip
             (workflowIdentity "project" "domain" "workflow" TASK_RESOURCE));
      [discriminate | discriminate | reflexivity | reflexivity].
  - apply (C1_upsert_get_round_trip
             (launchPlanIdentity "project" "domain" "workflow" "launch_plan"
                CLUSTER_RESOURCE));
      [discriminate | discriminate | reflexivity | reflexivity].
Defined.

(** The round trip through the two pairs of entry points of the tests,
    which store an override under its own resource type. *)
Lemma workflow_attributes_round_trip (a : WorkflowAttributes)
    (db : gmap Key bytes) :
  WA_Project a <> "" -> WA_Domain a <> "" ->
  validOverride (WA_MatchingAttributes a) = true ->
  exists db',
    UpdateWorkflowAttributes protobuf a db = (db', None)
    /\ GetWorkflowAttributes protobuf (WA_Project a) (WA_Domain a) (WA_Workflow a)
         (resourceOf (WA_MatchingAttributes a)) db' = inl a.
Proof.
  intros Hp Hd Hv.
  destruct (protobuf_round_trip _ Hv) as [Hm Hu].
  set (identity := workflowIdentity (WA_Project a) (WA_Domain a) (WA_Workflow a)
                     (resourceOf (WA_MatchingAttributes a))).
  exists (<[ keyOf (resourceID identity)
             := encodeMessage (WA_MatchingAttributes a) ]> db). split.
  - exact (Upsert_run protobuf identity _ _ db Hp Hd Hm).
  - unfold GetWorkflowAttributes. fold identity.
    rewrite (Get_written protobuf identity _ db Hp Hd).
    cbn [resourceType identity workflowIdentity]. rewrite Hu.
    destruct a; reflexivity.
Qed.

Lemma project_domain_attributes_round_trip (a : ProjectDomainAttributes)
    (db : gmap Key bytes) :
  PDA_Project a <> "" -> PDA_Domain a <> "" ->
  validOverride (PDA_MatchingAttributes a) = true ->
  exists db',
    UpdateProjectDomainAttributes protobuf a db = (db', None)
    /\ GetProjectDomainAttributes protobuf (PDA_Project a) (PDA_Domain a)
         (resourceOf (PDA_MatchingAttributes a)) db' = inl a.
Proof.
  intros Hp Hd Hv.
  destruct (protobuf_round_trip _ Hv) as [Hm Hu].
  set (identity := projectDomainIdentity (PDA_Project a) (PDA_Domain a)
                     (resourceOf (PDA_MatchingAttributes a))).
  exists (<[ keyOf (resourceID identity)
             := encodeMessage (PDA_MatchingAttributes a) ]> db). split.
  - exact (Upsert_run protobuf identity _ _ db Hp Hd Hm).
  - unfold GetProjectDomainAttributes. fold identity.
    rewrite (Get_written protobuf identity _ db Hp Hd).
    cbn [resourceType identity projectDomainIdentity]. rewrite Hu.
    destruct a; reflexivity.
Qed.

(** An upsert leaves every other key of the store alone. *)
Lemma Upsert_other_key (codec : Codec) (identity : ResourceIdentity)
    (v : MatchingAttributes) (db : gmap Key bytes) (k : Key) :
  keyOf (resourceID identity) <> k ->
  fst (Upsert codec identity v db) !! k = db !! k.
Proof.
  intros Hk. unfold Upsert, CreateOrUpdate.
  destruct (validateIdentity identity); [reflexivity |].
  destruct (Marshal codec v); [| reflexivity].
  simpl. apply lookup_insert_ne. exact Hk.
Qed.

Lemma Get_lookup (codec : Codec) (identity : ResourceIdentity)
    (db db' : gmap Key bytes) :
  db' !! keyOf (resourceID identity) = db !! keyOf (resourceID identity) ->
  Get codec identity db' = Get codec identity db.
Proof.
  intros H. unfold Get, RepoGet. rewrite H. reflexivity.
Qed.

(** C9.  Granularity independence.  A project-domain-level upsert writes
    under a key whose workflow field is empty, and a workflow-level upsert
    with the same project, domain and resource type under a key whose
    workflow field is the workflow; for a workflow that is not empty the two
    keys differ, and an upsert at either level leaves the record of the
    other level, and what [Get] returns for it, as they were. *)
Theorem C9_granularity_independence (codec : Codec) (p d w : string)
    (rt : MatchableResource) (v : MatchingAttributes) (payload : bytes)
    (db : gmap Key bytes) :
  w <> "" -> p <> "" -> d <> "" ->
  Marshal codec v = inl payload ->
  let pd := projectDomainIdentity p d rt in
  let wf := workflowIdentity p d w rt in
  Upsert codec pd v db
    = (<[ (p, d, "", "", MatchableResource_String rt) := payload ]> db, None)
  /\ Upsert codec wf v db
     = (<[ (p, d, w, "", MatchableResource_String rt) := payload ]> db, None)
  /\ keyOf (resourceID pd) <> keyOf (resourceID wf)
  /\ fst (Upsert codec wf v db) !! keyOf (resourceID pd)
     = db !! keyOf (resourceID pd)
  /\ fst (Upsert codec pd v db) !! keyOf (resourceID wf)
     = db !! keyOf (resourceID wf)
  /\ Get codec pd (fst (Upsert codec wf v db)) = Get codec pd db
  /\ Get codec wf (fst (Upsert codec pd v db)) = Get codec wf db.
Proof.
  intros Hw Hp Hd Hm pd wf.
  assert (Hk : keyOf (resourceID pd) <> keyOf (resourceID wf)).
  { unfold pd, wf, keyOf, resourceID; simpl. intros [= E]. congruence. }
  split; [exact (Upsert_run codec pd v payload db Hp Hd Hm) |].
  split; [exact (Upsert_run codec wf v payload db Hp Hd Hm) |].
  split; [exact Hk |].
  assert (H1 := Upsert_other_key codec wf v db (keyOf (resourceID pd))
                  (fun E => Hk (eq_sym E))).
  assert (H2 := Upsert_other_key codec pd v db (keyOf (resourceID wf)) Hk).
  split; [exact H1 |]. split; [exact H2 |].
  split; apply Get_lookup; assumption.
Qed.

(** The scenario of the spec: after an upsert at the workflow level into
    an empty store, the workflow-level get returns the override, and the
    project-domain-level get finds nothing. *)
Lemma C9_granularity_independence_witness :
  let db := fst (Upsert wire (workflowIdentity "p" "d" "w" EXECUTION_QUEUE)
                   (ExecutionQueueAttributes ["q1"]) ∅) in
  Get wire (workflowIdentity "p" "d" "w" EXECUTION_QUEUE) db
    = inl (ExecutionQueueAttributes ["q1"])
  /\ Get wire (projectDomainIdentity "p" "d" EXECUTION_QUEUE) db = inr notFound.
Proof.
  cbv zeta.
  destruct (C9_granularity_independence wire "p" "d" "w" EXECUTION_QUEUE
              (ExecutionQueueAttributes ["q1"])
              (tagOf EXECUTION_QUEUE
               :: default [] (putStrings ["q1"]))
              ∅ ltac:(discriminate) ltac:(discriminate) ltac:(discriminate)
              eq_refl)
    as (_ & Hwf & _ & _ & _ & Hpd & _).
  cbv zeta in Hwf, Hpd. split.
  - rewrite Hwf. simpl fst.
    rewrite Get_written by discriminate. reflexivity.
  - rewrite Hpd. reflexivity.
Defined.

End ResourceManager.

(* ===================================================================== *)
(** * Further properties                                                  *)
(* ===================================================================== *)

Ltac step_bind :=
  match goal with
  | |- context [@Go.bind ?S ?A ?B ?c ?k ?s] =>
      rewrite (@bind_run S A B c k s)
  end.

(** ** The HTTP mux *)

Section HttpMux.
Import Go Entrypoints Vocabulary Observations Examples.

Lemma existsb_pattern (pattern : string) (mux : ServeMux) :
  existsb (fun e => String.eqb (fst e) pattern) mux = false ->
  pattern ∉ patterns mux.
Proof.
  induction mux as [|e mux IH]; simpl; intros H Hin.
  - apply elem_of_nil in Hin. exact Hin.
  - apply orb_false_iff in H as [He Hm].
    apply elem_of_cons in Hin as [-> | Hin].
    + rewrite String.eqb_refl in He. discriminate.
    + exact (IH Hm Hin).
Qed.

Lemma HandleFunc_registers pattern h mux mux' u :
  HandleFunc pattern h mux tt = (Returned mux', u) ->
  mux' = (mux ++ [(pattern, h)])%list /\ pattern <> "" /\ pattern ∉ patterns mux.
Proof.
  unfold HandleFunc.
  destruct (String.eqb pattern "") eqn:He; [discriminate |].
  destruct (existsb _ mux) eqn:Hx; [discriminate |].
  intros [= <- _]. split; [reflexivity |]. split.
  - apply String.eqb_neq. exact He.
  - apply existsb_pattern. exact Hx.
Qed.

Lemma HandleFunc_never_exits pattern h mux n u :
  HandleFunc pattern h mux tt <> (Exited n, u).
Proof.
  unfold HandleFunc.
  destruct (String.eqb pattern ""); [discriminate |].
  destruct (existsb _ mux); discriminate.
Qed.

(** Without authentication [newHTTPServer] cannot panic: it returns the
    three-route mux, or the wrapped error of the registration. *)
Lemma newHTTPServer_plain P cfg a grpcAddress opts :
  UseAuth (Security cfg) = false ->
  newHTTPServer P cfg a grpcAddress opts tt
  = (Returned
       match RegisterAdminServiceHandlerFromEndpoint P grpcAddress opts with
       | Some err => inr (Wrap err "error registering admin service")
       | None => inl (plainMux grpcAddress opts)
       end, tt).
Proof.
  intros Hu. unfold newHTTPServer. rewrite Hu.
  destruct (RegisterAdminServiceHandlerFromEndpoint P grpcAddress opts);
    reflexivity.
Qed.

(** With authentication, a mux that [newHTTPServer] returns is [authMux],
    the registration has succeeded and no pattern is registered twice. *)
Lemma newHTTPServer_auth P cfg a grpcAddress opts mux u :
  UseAuth (Security cfg) = true ->
  newHTTPServer P cfg a grpcAddress opts tt = (Returned (inl mux), u) ->
  exists ac,
    a = Some ac
    /\ mux = authMux P ac grpcAddress opts
    /\ RegisterAdminServiceHandlerFromEndpoint P grpcAddress opts = None
    /\ NoDup (patterns mux).
Proof.
  intros Hu. unfold newHTTPServer. cbv zeta. rewrite Hu.
  step_bind.
  change (HandleFunc "/healthcheck" healthCheck [] tt)
    with (Returned [("/healthcheck", healthCheck)], tt).
  cbv beta iota. step_bind.
  change (HandleFunc "/api/v1/openapi" HandleOpenapiSpec
            [("/healthcheck", healthCheck)] tt)
    with (Returned [("/healthcheck", healthCheck);
                    ("/api/v1/openapi", HandleOpenapiSpec)], tt).
  cbv beta iota. step_bind.
  destruct a as [ac|]; [| discriminate].
  step_bind.
  destruct (HandleFunc "/login" _ _ tt) as [[m3|v|n] []] eqn:H3;
    try discriminate.
  apply HandleFunc_registers in H3 as (-> & _ & N3).
  step_bind.
  destruct (HandleFunc "/callback" _ _ tt) as [[m4|v|n] []] eqn:H4;
    try discriminate.
  apply HandleFunc_registers in H4 as (-> & _ & N4).
  step_bind.
  match goal with
  | |- context [match ?c tt with _ => _ end] =>
      destruct (c tt) as [[m5|v|n] []] eqn:H5; try discriminate
  end.
  step_bind.
  destruct (HandleFunc ("/" ++ MetadataEndpoint P) _ m5 tt)
    as [[m6|v|n] []] eqn:H6; try discriminate.
  apply HandleFunc_registers in H6 as (-> & _ & N6).
  unfold ret at 1. cbv beta iota.
  destruct (RegisterAdminServiceHandlerFromEndpoint P grpcAddress opts)
    eqn:Hr; [discriminate |].
  step_bind.
  destruct (HandleFunc "/" _ _ tt) as [[m7|v|n] []] eqn:H7;
    try discriminate.
  apply HandleFunc_registers in H7 as (-> & _ & N7).
  intros [= <- _]. exists ac. split; [reflexivity |].
  assert (Hm5 : m5 = ([ ("/healthcheck", healthCheck);
                        ("/api/v1/openapi", HandleOpenapiSpec);
                        ("/login", RefreshTokensIfExists ac (GetLoginHandler ac));
                        ("/callback", GetCallbackHandler ac) ]
                      ++ (if hasUserInfo ac
                          then [("/me", GetMeEndpointHandler ac)] else []))%list
                /\ NoDup (patterns m5)).
  { assert (N0 : NoDup (patterns
                          [ ("/healthcheck", healthCheck);
                            ("/api/v1/openapi", HandleOpenapiSpec);
                            ("/login", RefreshTokensIfExists ac (GetLoginHandler ac));
                            ("/callback", GetCallbackHandler ac) ])).
    { unfold patterns; simpl.
      apply (bool_decide_unpack _). vm_compute. exact I. }
    unfold hasUserInfo.
    destruct (GetUserInfoURL ac) as [url|].
    - destruct (negb (String.eqb url "")).
      + apply HandleFunc_registers in H5 as (-> & _ & N5). split; [reflexivity |].
        unfold patterns in *. rewrite map_app.
        apply (proj2 (list.NoDup_app _ _)). split; [exact N0 |]. split.
        * intros x Hx Hin. apply list_elem_of_singleton in Hin. subst x.
          exact (N5 Hx).
        * apply NoDup_singleton.
      + injection H5 as <-. rewrite app_nil_r. split; [reflexivity | exact N0].
    - injection H5 as <-. rewrite app_nil_r. split; [reflexivity | exact N0]. }
  destruct Hm5 as [-> N5].
  split; [| split; [reflexivity |]].
  - unfold authMux. simpl. rewrite <- !app_assoc. reflexivity.
  - unfold patterns in *. cbn [fst] in N7. rewrite map_app in N7.
    rewrite !map_app.
    apply (proj2 (list.NoDup_app _ _)).
    split; [| split; [| apply NoDup_singleton]].
    + apply (proj2 (list.NoDup_app _ _)).
      split; [exact N5 |]. split; [| apply NoDup_singleton].
      intros x Hx Hin. simpl in Hin.
      apply list_elem_of_singleton in Hin. subst x. exact (N6 Hx).
    + intros x Hx Hin. simpl in Hin.
      apply list_elem_of_singleton in Hin. subst x. exact (N7 Hx).
Qed.

End HttpMux.

Section MuxRoutes.
Import Go Entrypoints Vocabulary Observations Examples.

(** X1.  The mux of a server without authentication.  With
    authentication off, [newHTTPServer] does not panic, whatever the
    authentication context it is handed (the nil one included): when the
    registration of the gateway fails it returns that error wrapped as
    "error registering admin service"; otherwise it returns a mux with
    exactly three routes, in this order: the health check, the
    specification document, and the gateway under [/], whose only option is
    the marshaller for [application/octet-stream].  None of the login,
    callback, user-info and metadata endpoints is registered. *)
Theorem X1_plain_mux_routes (P : Platform) (cfg : ServerConfig)
    (a : option AuthenticationContext) (grpcAddress : string)
    (opts : list DialOption) :
  UseAuth (Security cfg) = false ->
  (forall err,
     RegisterAdminServiceHandlerFromEndpoint P grpcAddress opts = Some err ->
     newHTTPServer P cfg a grpcAddress opts tt
     = (Returned (inr (withMessage err "error registering admin service")), tt))
  /\ (RegisterAdminServiceHandlerFromEndpoint P grpcAddress opts = None ->
      newHTTPServer P cfg a grpcAddress opts tt
      = (Returned
           (inl [ ("/healthcheck", healthCheck);
                  ("/api/v1/openapi", HandleOpenapiSpec);
                  ("/", gwmux [WithMarshalerOption "application/octet-stream" tt]
                          grpcAddress opts) ]), tt))
  /\ (forall v u, newHTTPServer P cfg a grpcAddress opts tt <> (Panicked v, u)).
Proof.
  intros Hu.
  rewrite (newHTTPServer_plain P cfg a grpcAddress opts Hu).
  split; [| split].
  - intros err ->. reflexivity.
  - intros ->. reflexivity.
  - intros v u. discriminate.
Qed.

Lemma X1_plain_mux_routes_witness :
  newHTTPServer platform (config false false false) None ":8089" [WithInsecure] tt
  = (Returned
       (inl [ ("/healthcheck", healthCheck);
              ("/api/v1/openapi", HandleOpenapiSpec);
              ("/", gwmux [WithMarshalerOption "application/octet-stream" tt]
                      ":8089" [WithInsecure]) ]), tt)
  /\ newHTTPServer Scenarios.withoutGateway (config false false false) None
       ":8089" [WithInsecure] tt
     = (Returned (inr (withMessage (errorString "context deadline exceeded")
                         "error registering admin service")), tt).
Proof.
  split.
  - exact (proj1 (proj2 (X1_plain_mux_routes platform (config false false false)
                           None ":8089" [WithInsecure] eq_refl)) eq_refl).
  - exact (proj1 (X1_plain_mux_routes Scenarios.withoutGateway
                    (config false false false) None ":8089" [WithInsecure]
                    eq_refl) _ eq_refl).
Defined.

(** X2.  The mux of a server with authentication.  A mux that
    [newHTTPServer] returns was built from a non-nil authentication
    context; no pattern is registered twice; the login, callback and
    metadata endpoints are registered; the user-info endpoint [/me] is
    registered exactly when the context has a user-info URL that is not
    empty; and the last route is the gateway, with the marshaller option
    followed by the cookie and the tagging annotators. *)
Theorem X2_auth_mux_routes (P : Platform) (cfg : ServerConfig)
    (a : option AuthenticationContext) (grpcAddress : string)
    (opts : list DialOption) (mux : ServeMux) :
  UseAuth (Security cfg) = true ->
  newHTTPServer P cfg a grpcAddress opts tt = (Returned (inl mux), tt) ->
  exists ac,
    a = Some ac
    /\ NoDup (patterns mux)
    /\ ("/login", RefreshTokensIfExists ac (GetLoginHandler ac)) ∈ mux
    /\ ("/callback", GetCallbackHandler ac) ∈ mux
    /\ ("/" ++ MetadataEndpoint P, GetMetadataEndpointRedirectHandler ac) ∈ mux
    /\ (("/me", GetMeEndpointHandler ac) ∈ mux
        <-> exists url, GetUserInfoURL ac = Some url /\ url <> "")
    /\ list.last mux
       = Some ("/", gwmux [ WithMarshalerOption "application/octet-stream" tt;
                            WithMetadata_CookieToMetadata (Some ac);
                            WithMetadata_MetadataTagging (Some ac) ]
                      grpcAddress opts).
Proof.
  intros Hu Hn.
  destruct (newHTTPServer_auth P cfg a grpcAddress opts mux tt Hu Hn)
    as (ac & -> & -> & _ & Hnd).
  exists ac. split; [reflexivity |]. split; [exact Hnd |].
  unfold authMux.
  assert (Hme : hasUserInfo ac = true
                <-> exists url, GetUserInfoURL ac = Some url /\ url <> "").
  { unfold hasUserInfo. destruct (GetUserInfoURL ac) as [url|].
    - rewrite negb_true_iff, String.eqb_neq. split.
      + intros H. exists url. split; [reflexivity | exact H].
      + intros (u & [= ->] & H). exact H.
    - split; [discriminate | intros (u & H & _); discriminate]. }
  repeat split.
  - rewrite !elem_of_app, !elem_of_cons. tauto.
  - rewrite !elem_of_app, !elem_of_cons. tauto.
  - rewrite !elem_of_app, !elem_of_cons. tauto.
  - intros Hin. apply Hme.
    destruct (hasUserInfo ac); [reflexivity |].
    rewrite !elem_of_app, !elem_of_cons, !elem_of_nil in Hin.
    intuition discriminate.
  - intros H. apply Hme in H. rewrite H.
    rewrite !elem_of_app, !elem_of_cons. tauto.
  - destruct (hasUserInfo ac); reflexivity.
Qed.

Lemma X2_auth_mux_routes_witness :
  exists ac,
    Some {| GetUserInfoURL := Some "" |} = Some ac
    /\ NoDup (patterns (authMux platform {| GetUserInfoURL := Some "" |}
                          ":8089" [WithInsecure]))
    /\ ("/login", RefreshTokensIfExists ac (GetLoginHandler ac))
         ∈ authMux platform {| GetUserInfoURL := Some "" |} ":8089" [WithInsecure]
    /\ ("/callback", GetCallbackHandler ac)
         ∈ authMux platform {| GetUserInfoURL := Some "" |} ":8089" [WithInsecure]
    /\ ("/" ++ MetadataEndpoint platform, GetMetadataEndpointRedirectHandler ac)
         ∈ authMux platform {| GetUserInfoURL := Some "" |} ":8089" [WithInsecure]
    /\ (("/me", GetMeEndpointHandler ac)
          ∈ authMux platform {| GetUserInfoURL := Some "" |} ":8089" [WithInsecure]
        <-> exists url, GetUserInfoURL ac = Some url /\ url <> "")
    /\ list.last (authMux platform {| GetUserInfoURL := Some "" |} ":8089" [WithInsecure])
       = Some ("/", gwmux [ WithMarshalerOption "application/octet-stream" tt;
                            WithMetadata_CookieToMetadata (Some ac);
                            WithMetadata_MetadataTagging (Some ac) ]
                      ":8089" [WithInsecure]).
Proof.
  exact (X2_auth_mux_routes platform (config false true false)
           (Some {| GetUserInfoURL := Some "" |}) ":8089" [WithInsecure]
           (authMux platform {| GetUserInfoURL := Some "" |} ":8089" [WithInsecure])
           eq_refl eq_refl).
Defined.

End MuxRoutes.

(** ** Failures on the way to serving *)

Section StartupFailures.
Import Go Entrypoints Vocabulary Observations Examples.

(** An error that [newHTTPServer] returns is the wrapped error of the
    registration of the gateway. *)
Lemma newHTTPServer_error P cfg a grpcAddress opts e u :
  newHTTPServer P cfg a grpcAddress opts tt = (Returned (inr e), u) ->
  exists err,
    RegisterAdminServiceHandlerFromEndpoint P grpcAddress opts = Some err
    /\ e = Wrap err "error registering admin service".
Proof.
  destruct (UseAuth (Security cfg)) eqn:Hu.
  - unfold newHTTPServer. cbv zeta. rewrite Hu.
    step_bind.
    change (HandleFunc "/healthcheck" healthCheck [] tt)
      with (Returned [("/healthcheck", healthCheck)], tt).
    cbv beta iota. step_bind.
    change (HandleFunc "/api/v1/openapi" HandleOpenapiSpec
              [("/healthcheck", healthCheck)] tt)
      with (Returned [("/healthcheck", healthCheck);
                      ("/api/v1/openapi", HandleOpenapiSpec)], tt).
    cbv beta iota. step_bind.
    destruct a as [ac|]; [| discriminate].
    step_bind.
    destruct (HandleFunc "/login" _ _ tt) as [[m3|v|n] []]; try discriminate.
    step_bind.
    destruct (HandleFunc "/callback" _ _ tt) as [[m4|v|n] []]; try discriminate.
    step_bind.
    match goal with
    | |- context [match ?c tt with _ => _ end] =>
        destruct (c tt) as [[m5|v|n] []]; try discriminate
    end.
    step_bind.
    destruct (HandleFunc ("/" ++ MetadataEndpoint P) _ m5 tt)
      as [[m6|v|n] []]; try discriminate.
    unfold ret at 1. cbv beta iota.
    destruct (RegisterAdminServiceHandlerFromEndpoint P grpcAddress opts)
      as [err|].
    + intros [= <- _]. exists err. split; reflexivity.
    + step_bind.
      destruct (HandleFunc "/" _ _ tt) as [[m7|v|n] []]; discriminate.
  - rewrite (newHTTPServer_plain P cfg a grpcAddress opts Hu).
    destruct (RegisterAdminServiceHandlerFromEndpoint P grpcAddress opts)
      as [err|]; [| discriminate].
    intros [= <- _]. exists err. split; reflexivity.
Qed.

Lemma serveGatewayInsecure_mux_failure P cfg a lis e t :
  authContextFor P cfg a ->
  net_Listen P "tcp" (GetGrpcHostAddress cfg) = inl lis ->
  newHTTPServer P cfg a (GetGrpcHostAddress cfg) [WithInsecure] tt
    = (Returned (inr e), tt) ->
  serveGatewayInsecure P cfg t
  = (Returned (Some e),
     (t ++ [ Logged InfoLevel "Serving Flyte Admin Insecure";
             creating cfg;
             Logged InfoLevel ("Serving GRPC Traffic on: " ++ GetGrpcHostAddress cfg);
             GoServe (grpcServerOf cfg a []) lis;
             Logged InfoLevel
               ("Starting HTTP/1 Gateway server on " ++ GetHostAddress cfg) ])%list).
Proof.
  intros Ha Hl Hh. unfold serveGatewayInsecure.
  rewrite bind_run. unfold Infof at 1, emit at 1, modify at 1.
  rewrite bind_run, (authContextOf_run _ _ _ _ Ha).
  rewrite bind_run, newGRPCServer_run.
  rewrite bind_run. unfold Infof at 1, emit at 1, modify at 1.
  rewrite Hl.
  rewrite bind_run. unfold emit at 1, modify at 1.
  rewrite bind_run. unfold Infof at 1, emit at 1, modify at 1.
  rewrite bind_run, (quiet_run _ _ _ Hh).
  rewrite <- !app_assoc. reflexivity.
Qed.

Lemma serveGatewaySecure_mux_failure P cfg a certPool cert e t :
  GetSslCredentials P (CertificateFile (Ssl (Security cfg)))
                      (KeyFile (Ssl (Security cfg))) = inl (certPool, cert) ->
  authContextFor P cfg a ->
  newHTTPServer P cfg a (GetHostAddress cfg) [dialTLS cfg certPool] tt
    = (Returned (inr e), tt) ->
  serveGatewaySecure P cfg t = (Returned (Some e), (t ++ [creating cfg])%list).
Proof.
  intros Hs Ha Hh. unfold serveGatewaySecure. rewrite Hs.
  rewrite bind_run, (authContextOf_run _ _ _ _ Ha).
  rewrite bind_run, newGRPCServer_run.
  unfold dialTLS in Hh.
  rewrite bind_run, (quiet_run _ _ _ Hh). reflexivity.
Qed.

Lemma authContextOf_failure P cfg err t :
  UseAuth (Security cfg) = true ->
  NewAuthenticationContext P (Oauth (Security cfg)) = inr err ->
  authContextOf P cfg t
  = (Returned (inr err),
     (t ++ [Logged ErrorLevel ("Error creating auth context " ++ Error err)])%list).
Proof.
  intros Hu Hn. unfold authContextOf. rewrite Hu, Hn. reflexivity.
Qed.

(** X3.  A failure to create the authentication context.  With
    authentication on and [auth.NewAuthenticationContext] failing, the
    insecure gateway logs the failure and returns the error as it came,
    before any server exists: nothing was started.  The secure gateway does
    the same once the TLS material has loaded; when the TLS material does
    not load, its error is returned first and nothing is logged. *)
Theorem X3_auth_context_failure (P : Platform) (cfg : ServerConfig)
    (err : error) (t : Trace) :
  UseAuth (Security cfg) = true ->
  NewAuthenticationContext P (Oauth (Security cfg)) = inr err ->
  serveGatewayInsecure P cfg t
  = (Returned (Some err),
     (t ++ [ Logged InfoLevel "Serving Flyte Admin Insecure";
             Logged ErrorLevel ("Error creating auth context " ++ Error err) ])%list)
  /\ serveGatewaySecure P cfg t
     = match GetSslCredentials P (CertificateFile (Ssl (Security cfg)))
                                 (KeyFile (Ssl (Security cfg))) with
       | inl _ =>
           (Returned (Some err),
            (t ++ [Logged ErrorLevel
                     ("Error creating auth context " ++ Error err)])%list)
       | inr e => (Returned (Some e), t)
       end.
Proof.
  intros Hu Hn. split.
  - unfold serveGatewayInsecure.
    rewrite bind_run. unfold Infof at 1, emit at 1, modify at 1.
    rewrite bind_run, (authContextOf_failure P cfg err _ Hu Hn).
    rewrite <- !app_assoc. reflexivity.
  - unfold serveGatewaySecure.
    destruct (GetSslCredentials P _ _) as [[certPool cert]|e]; [| reflexivity].
    rewrite bind_run, (authContextOf_failure P cfg err _ Hu Hn). reflexivity.
Qed.

Lemma X3_auth_context_failure_witness :
  serveGatewayInsecure Scenarios.withoutIdentityProvider (config false true false) []
  = (Returned (Some (errorString "oidc: identity provider unreachable")),
     [ Logged InfoLevel "Serving Flyte Admin Insecure";
       Logged ErrorLevel
         "Error creating auth context oidc: identity provider unreachable" ])
  /\ serveGatewaySecure Scenarios.withoutCertificate (config true true false) []
     = (Returned (Some (errorString
                          "open /etc/ssl/server.pem: no such file or directory")),
        []).
Proof.
  split.
  - exact (proj1 (X3_auth_context_failure Scenarios.withoutIdentityProvider
                    (config false true false) _ [] eq_refl eq_refl)).
  - exact (proj2 (X3_auth_context_failure Scenarios.withoutCertificate
                    (config true true false) _ [] eq_refl eq_refl)).
Defined.

(** X4.  A failure to register the gateway.  The error that
    [newHTTPServer] returns is the registration's error wrapped as "error
    registering admin service", and both gateways return it as it is, not
    wrapped again.  In the insecure gateway the gRPC server has by then been
    handed its listener and set to serve in the background, and no HTTP
    server is started; in the secure gateway nothing has been started. *)
Theorem X4_gateway_registration_failure (P : Platform) (cfg : ServerConfig)
    (a : option AuthenticationContext) (e : error) (t : Trace) :
  authContextFor P cfg a ->
  (forall lis,
     net_Listen P "tcp" (GetGrpcHostAddress cfg) = inl lis ->
     newHTTPServer P cfg a (GetGrpcHostAddress cfg) [WithInsecure] tt
       = (Returned (inr e), tt) ->
     (exists err,
        RegisterAdminServiceHandlerFromEndpoint P (GetGrpcHostAddress cfg)
          [WithInsecure] = Some err
        /\ e = withMessage err "error registering admin service")
     /\ fst (serveGatewayInsecure P cfg t) = Returned (Some e)
     /\ List.filter starts (snd (serveGatewayInsecure P cfg t))
        = (List.filter starts t
           ++ [GoServe (grpcServerOf cfg a []) lis])%list)
  /\ (forall certPool cert,
        GetSslCredentials P (CertificateFile (Ssl (Security cfg)))
                            (KeyFile (Ssl (Security cfg))) = inl (certPool, cert) ->
        newHTTPServer P cfg a (GetHostAddress cfg) [dialTLS cfg certPool] tt
          = (Returned (inr e), tt) ->
        fst (serveGatewaySecure P cfg t) = Returned (Some e)
        /\ List.filter starts (snd (serveGatewaySecure P cfg t))
           = List.filter starts t).
Proof.
  intros Ha. split.
  - intros lis Hl Hh. split.
    + exact (newHTTPServer_error P cfg a _ _ e tt Hh).
    + rewrite (serveGatewayInsecure_mux_failure P cfg a lis e t Ha Hl Hh).
      split; [reflexivity |].
      cbn [snd]. rewrite List.filter_app. unfold creating. reflexivity.
  - intros certPool cert Hs Hh.
    rewrite (serveGatewaySecure_mux_failure P cfg a certPool cert e t Hs Ha Hh).
    split; [reflexivity |].
    cbn [snd]. rewrite List.filter_app. unfold creating. simpl.
    apply app_nil_r.
Qed.

Lemma X4_gateway_registration_failure_witness :
  fst (serveGatewayInsecure Scenarios.withoutGateway (config false false false) [])
  = Returned (Some (withMessage (errorString "context deadline exceeded")
                      "error registering admin service"))
  /\ List.filter starts
       (snd (serveGatewayInsecure Scenarios.withoutGateway
               (config false false false) []))
     = [GoServe (grpcServerOf (config false false false) None []) ":8089"].
Proof.
  destruct (proj1 (X4_gateway_registration_failure Scenarios.withoutGateway
                     (config false false false) None
                     (withMessage (errorString "context deadline exceeded")
                        "error registering admin service") [] eq_refl)
              ":8089" eq_refl eq_refl) as (_ & H1 & H2).
  split; [exact H1 | exact H2].
Defined.

End StartupFailures.

Section PanicFreedom.
Import Go Entrypoints Vocabulary Observations Examples.




End PanicFreedom.

(** ** Edge cases of the demultiplexer and of the document endpoint *)

Section HandlerEdges.
Import Go Entrypoints Vocabulary Observations Examples.

(** X6.  The content type the demultiplexer looks at.  A request without a
    [Content-Type] header, or with an empty list of values under it, goes
    to the other handler, whatever its protocol; of several values only the
    first one is examined, so a later value naming the gRPC media type
    changes nothing; and a request that is not HTTP/2 goes to the other
    handler whatever its header says. *)
Theorem X6_content_type_first_value (grpcServer : GrpcServer)
    (otherHandler : Handler) (r : Request) :
  (Hdr r !! "Content-Type" = None \/ Hdr r !! "Content-Type" = Some [] ->
   delegate (grpcHandlerFunc grpcServer otherHandler) r = otherHandler)
  /\ (forall v rest,
        Hdr r !! "Content-Type" = Some (v :: rest) ->
        delegate (grpcHandlerFunc grpcServer otherHandler) r
        = if (ProtoMajor r =? 2)%Z && Contains v "application/grpc"
          then GrpcServeHTTP grpcServer else otherHandler)
  /\ (ProtoMajor r <> 2 ->
      delegate (grpcHandlerFunc grpcServer otherHandler) r = otherHandler).
Proof.
  unfold grpcHandlerFunc, delegate, Header_Get. split; [| split].
  - intros [H | H]; rewrite H; simpl; rewrite andb_false_r; reflexivity.
  - intros v rest H. rewrite H. reflexivity.
  - intros H. apply Z.eqb_neq in H. rewrite H. reflexivity.
Qed.

Lemma X6_content_type_first_value_witness :
  delegate
    (grpcHandlerFunc (grpcServerOf (config true false false) None [])
       (MuxServeHTTP []))
    {| Method := "POST"; Path := "/flyteidl.service.AdminService/GetExecution";
       ProtoMajor := 2;
       Hdr := {[ "Content-Type" := ["text/plain"; "application/grpc"] ]} |}
  = MuxServeHTTP [].
Proof.
  rewrite (proj1 (proj2 (X6_content_type_first_value
                           (grpcServerOf (config true false false) None [])
                           (MuxServeHTTP [])
                           {| Method := "POST";
                              Path := "/flyteidl.service.AdminService/GetExecution";
                              ProtoMajor := 2;
                              Hdr := {[ "Content-Type" :=
                                          ["text/plain"; "application/grpc"] ]} |}))
             "text/plain" ["application/grpc"] (lookup_singleton_eq _ _)).
  reflexivity.
Defined.

(** X7.  The calls of the document endpoint on its response writer.  On a
    writer that lists its calls, the handler writes the header once, 200
    and then the document in one [Write] when the asset loads, 424 and no
    body when it does not.  A [Write] that fails is logged at error level
    and neither repeated nor followed by another status; a missing asset is
    logged at warning level; a successful answer logs nothing. *)
Theorem X7_openapi_calls (P : Platform) (r : Request)
    (writeFails : option error) (log : Trace) :
  GetHandleOpenapiSpec P r ({| calls := []; writeError := writeFails |}, log)
  = (Returned tt,
     ({| calls :=
           match Asset P "admin.swagger.json" with
           | inl doc => [CalledWriteHeader 200; CalledWrite doc]
           | inr _ => [CalledWriteHeader 424]
           end;
         writeError := writeFails |},
      (log ++ match Asset P "admin.swagger.json", writeFails with
              | inl _, Some err =>
                  [Logged ErrorLevel
                     ("failed to write openAPI information, error: " ++ Error err)]
              | inl _, None => []
              | inr err, _ => [Logged WarningLevel ("Err " ++ Error err)]
              end)%list)).
Proof.
  rewrite GetHandleOpenapiSpec_run.
  destruct (Asset P "admin.swagger.json") as [doc|err].
  - destruct writeFails as [err|]; simpl; [reflexivity |].
    rewrite app_nil_r. reflexivity.
  - reflexivity.
Qed.

End HandlerEdges.

(** ** Results and metrics of the execution endpoints *)

Section EndpointAccounting.
Import Go AdminService Observations Examples.

Lemma endpoint_exited {MS} (m : AdminService MS) (op : Operation)
    (ctx : Context) (request : Message) (s s1 : ServiceState MS) (n : Z) :
  business op m ctx request s = (Exited n, s1) ->
  endpoint op m ctx (Some request) s = (Exited n, s1).
Proof.
  intros Hb.
  destruct op; simpl in Hb |- *;
    unfold CreateExecution, RelaunchExecution, CreateWorkflowEvent,
      GetExecution, GetExecutionData, ListExecutions, TerminateExecution,
      defer, RequestMetrics_Time, RequestMetrics_Success,
      TransformAndRecordError, time_Now, gets, bind, modify, ret,
      interceptPanic;
    rewrite Hb; reflexivity.
Qed.

Lemma endpoint_nil {MS} (m : AdminService MS) (op : Operation)
    (ctx : Context) (s : ServiceState MS) :
  endpoint op m ctx None s = (Returned (None, Some nilRequest), s).
Proof. destruct op; reflexivity. Qed.

Lemma Metrics_updMetrics {MS} (f f' : field)
    (g : RequestMetrics -> RequestMetrics) (s : ServiceState MS) :
  Metrics (updMetrics f g s) f'
  = if decide (f = f') then g (Metrics s f) else Metrics s f'.
Proof.
  unfold updMetrics; simpl. destruct (decide (f = f')) as [<- | Hne].
  - apply fn_lookup_insert.
  - apply fn_lookup_insert_ne. exact Hne.
Qed.

(** X8.  Where the errors of an endpoint come from.  When an endpoint
    returns an error, the response beside it is nil, and the error is
    either the nil-request error, on a nil request and with the state
    untouched, or the transformed error of an error that the business layer
    returned for this request; a response that the business layer returned
    beside its error is dropped. *)
Theorem X8_error_results {MS} (m : AdminService MS) (op : Operation)
    (ctx : Context) (request : option Message) (s s' : ServiceState MS)
    (response : option Message) (e : error) :
  endpoint op m ctx request s = (Returned (response, Some e), s') ->
  response = None
  /\ ((request = None /\ e = nilRequest /\ s' = s)
      \/ exists r response0 err s1,
           request = Some r
           /\ business op m ctx r s = (Returned (response0, Some err), s1)
           /\ e = transformError m err).
Proof.
  destruct request as [r|].
  - destruct (business op m ctx r s) as [[[response0 err]|v|n] s1] eqn:Hb.
    + rewrite (endpoint_returned m op ctx r s s1 response0 err Hb).
      destruct err as [err|]; [| discriminate].
      intros [= <- <- _]. split; [reflexivity |].
      right. exists r, response0, err, s1. auto.
    + rewrite (endpoint_panicked m op ctx r s s1 v Hb).
      destruct (onPanic m ctx (Some r) v s1) as [[[]|v'|n] s2]; discriminate.
    + rewrite (endpoint_exited m op ctx r s s1 n Hb). discriminate.
  - rewrite endpoint_nil. intros [= <- <- <-].
    split; [reflexivity |]. left. auto.
Qed.

Lemma X8_error_results_witness :
  (None : option Message) = None
  /\ (((Some "request" : option Message) = None
       /\ statusError NotFound "missing entity" = nilRequest
       /\ snd (endpoint OpGetExecution (serviceOf (managerOf fail_) recoverAndLog)
                 "ctx" (Some "request") (fresh tt)) = fresh tt)
      \/ exists r response0 err s1,
           (Some "request" : option Message) = Some r
           /\ business OpGetExecution (serviceOf (managerOf fail_) recoverAndLog)
                "ctx" r (fresh tt) = (Returned (response0, Some err), s1)
           /\ statusError NotFound "missing entity"
              = transformError (serviceOf (managerOf fail_) recoverAndLog) err).
Proof.
  exact (X8_error_results (serviceOf (managerOf fail_) recoverAndLog)
           OpGetExecution "ctx" (Some "request") (fresh tt) _ None _ eq_refl).
Defined.

Lemma balanced_observed_succeeded (r : RequestMetrics) :
  balanced r -> balanced (succeeded (observed r)).
Proof. unfold balanced, succeeded, observed; simpl. lia. Qed.

Lemma balanced_observed_recorded (c : Code) (r : RequestMetrics) :
  balanced r -> balanced (recorded c (observed r)).
Proof.
  unfold balanced, recorded, observed; simpl. rewrite length_app; simpl. lia.
Qed.

Lemma timing_is_outcome (op : Operation) :
  op <> OpGetExecutionData -> outcomeMetric op = timingMetric op.
Proof. destruct op; try reflexivity. contradiction. Qed.

(** X10.  The accounting of the metrics objects, for a call that the
    business layer answers.  Call a metrics object balanced when it has
    observed as many durations as it has counted successes and recorded
    error codes.  Compared with the metrics as the business layer left
    them, an endpoint changes its timing object and its outcome object and
    no other.  Every endpoint other than [GetExecutionData] leaves every
    object balanced that was balanced.  [GetExecutionData] does not: after
    it [get] has one duration more than it has outcomes, and [getData] one
    outcome more than it has durations. *)
Theorem X10_metrics_balance {MS} (m : AdminService MS) (op : Operation)
    (ctx : Context) (request : Message) (s s1 : ServiceState MS)
    (response : option Message) (err : option error) :
  business op m ctx request s = (Returned (response, err), s1) ->
  (forall f, balanced (Metrics s1 f)) ->
  (forall f, f <> timingMetric op -> f <> outcomeMetric op ->
             Metrics (snd (endpoint op m ctx (Some request) s)) f = Metrics s1 f)
  /\ (op <> OpGetExecutionData ->
      forall f, balanced (Metrics (snd (endpoint op m ctx (Some request) s)) f))
  /\ (op = OpGetExecutionData ->
      requestDuration (Metrics (snd (endpoint op m ctx (Some request) s))
                         executionEndpointMetrics.get)
      = S (successCount (Metrics (snd (endpoint op m ctx (Some request) s))
                           executionEndpointMetrics.get)
           + length (errCodes (Metrics (snd (endpoint op m ctx (Some request) s))
                                 executionEndpointMetrics.get)))
      /\ S (requestDuration (Metrics (snd (endpoint op m ctx (Some request) s))
                               executionEndpointMetrics.getData))
         = (successCount (Metrics (snd (endpoint op m ctx (Some request) s))
                            executionEndpointMetrics.getData)
            + length (errCodes (Metrics (snd (endpoint op m ctx (Some request) s))
                                  executionEndpointMetrics.getData)))%nat).
Proof.
  intros Hb Hbal.
  rewrite (endpoint_returned m op ctx request s s1 response err Hb).
  split; [| split].
  - intros f Ht Ho.
    destruct err as [e|]; cbn [snd]; rewrite !Metrics_updMetrics;
      repeat match goal with
             | |- context [decide (?a = ?b)] =>
                 destruct (decide (a = b)); try congruence
             end.
  - intros Hop f. rewrite (timing_is_outcome op Hop).
    destruct err as [e|]; cbn [snd];
      rewrite Metrics_updMetrics;
      (destruct (decide (timingMetric op = f)) as [<- | Hne];
       [ rewrite Metrics_updMetrics;
         destruct (decide (timingMetric op = timingMetric op));
           [| contradiction];
         first [ apply balanced_observed_recorded
               | apply balanced_observed_succeeded ];
         apply Hbal
       | rewrite Metrics_updMetrics;
         destruct (decide (timingMetric op = f)); [contradiction |];
         apply Hbal ]).
  - intros ->.
    pose proof (Hbal executionEndpointMetrics.get) as Bg.
    pose proof (Hbal executionEndpointMetrics.getData) as Bd.
    unfold balanced in *.
    destruct err as [e|]; cbn [snd timingMetric outcomeMetric];
      rewrite !Metrics_updMetrics;
      repeat match goal with
             | |- context [decide (?a = ?b)] =>
                 destruct (decide (a = b)); try discriminate; try contradiction
             end;
      unfold recorded, succeeded, observed; simpl;
      rewrite ?length_app; simpl; split; lia.
Qed.

Lemma X10_metrics_balance_witness :
  (forall f, balanced (Metrics (snd (endpoint OpGetExecution
                                       (serviceOf (managerOf fail_) recoverAndLog)
                                       "ctx" (Some "request") (fresh tt))) f))
  /\ requestDuration (Metrics (snd (endpoint OpGetExecutionData
                                      (serviceOf (managerOf answer) recoverAndLog)
                                      "ctx" (Some "request") (fresh tt)))
                        executionEndpointMetrics.get)
     = S (successCount (Metrics (snd (endpoint OpGetExecutionData
                                        (serviceOf (managerOf answer) recoverAndLog)
                                        "ctx" (Some "request") (fresh tt)))
                          executionEndpointMetrics.get)
          + length (errCodes (Metrics (snd (endpoint OpGetExecutionData
                                              (serviceOf (managerOf answer)
                                                 recoverAndLog)
                                              "ctx" (Some "request") (fresh tt)))
                                executionEndpointMetrics.get))).
Proof.
  split.
  - exact (proj1 (proj2 (X10_metrics_balance
                           (serviceOf (managerOf fail_) recoverAndLog)
                           OpGetExecution "ctx" "request" (fresh tt) (fresh tt)
                           None (Some (statusError NotFound "missing entity"))
                           eq_refl (fun f => eq_refl)))
             ltac:(discriminate)).
  - exact (proj1 (proj2 (proj2 (X10_metrics_balance
                                  (serviceOf (managerOf answer) recoverAndLog)
                                  OpGetExecutionData "ctx" "request" (fresh tt)
                                  (fresh tt) (Some "response") None
                                  eq_refl (fun f => eq_refl))) eq_refl)).
Defined.

End EndpointAccounting.

(** ** The storage client of the tests *)

Section MockStorage.
Import Go Mocks.

Lemma length_append (a b : string) :
  String.length (a ++ b) = (String.length a + String.length b)%nat.
Proof.
  induction a as [|c a IH]; [reflexivity |].
  rewrite append_String. simpl. rewrite IH. reflexivity.
Qed.

Lemma append_inj_l (p a b : string) : p ++ a = p ++ b -> a = b.
Proof.
  induction p as [|c p IH]; [intros H; exact H |].
  rewrite !append_String. intros [= H]. exact (IH H).
Qed.

Lemma Join_cons (a b : string) (l : list string) (sep : string) :
  Join (a :: b :: l) sep = a ++ sep ++ Join (b :: l) sep.
Proof. reflexivity. Qed.

(** X12.  References of the mock storage.  [ConstructReference] never
    fails, and its result lies under the base container of the store and
    depends on the nested keys alone: the reference handed to it is
    ignored.  So references do not nest: constructing under a reference
    that was constructed for [a] with the key [b] gives the reference of
    [b] alone, which is not the reference of the keys [a], [b]. *)
Theorem X12_mock_references {S : Type} (t : TestDataStore S) (ctx : Context)
    (reference reference' : DataReference) (keys : list string) (a b : string) :
  snd (ConstructReference t ctx reference keys) = None
  /\ HasPrefix (fst (ConstructReference t ctx reference keys))
       (GetBaseContainerFQN t ctx ++ "/") = true
  /\ ConstructReference t ctx reference keys
     = ConstructReference t ctx reference' keys
  /\ fst (ConstructReference t ctx
            (fst (ConstructReference t ctx reference [a])) [b])
     = fst (ConstructReference t ctx reference [b])
  /\ fst (ConstructReference t ctx
            (fst (ConstructReference t ctx reference [a])) [b])
     <> fst (ConstructReference t ctx reference [a; b]).
Proof.
  unfold ConstructReference, GetBaseContainerFQN. cbn [fst snd].
  split; [reflexivity |]. split.
  - apply HasPrefix_iff. exists (Join keys "/").
    rewrite append_assoc. reflexivity.
  - split; [reflexivity |]. split; [reflexivity |].
    intros H. apply append_inj_l in H. apply append_inj_l in H.
    simpl in H. apply (f_equal String.length) in H.
    rewrite !length_append in H. simpl in H. lia.
Qed.

(** X13.  Keys of the mock storage collide.  [ConstructReference] joins
    the nested keys with a slash, and a key may hold a slash: two adjacent
    keys and the one key made of them with a slash between give the same
    reference, whatever keys follow. *)
Theorem X13_mock_reference_collisions {S : Type} (t : TestDataStore S)
    (ctx : Context) (reference : DataReference) (a b : string)
    (rest : list string) :
  ConstructReference t ctx reference (a :: b :: rest)
  = ConstructReference t ctx reference ((a ++ "/" ++ b) :: rest)
  /\ (a :: b :: rest) <> ((a ++ "/" ++ b) :: rest).
Proof.
  split.
  - unfold ConstructReference. f_equal. f_equal. f_equal.
    destruct rest as [|c rest].
    + reflexivity.
    + rewrite !Join_cons, !append_assoc. reflexivity.
  - intros [= Ha Hb]. apply (f_equal length) in Hb. simpl in Hb. lia.
Qed.

(** X14.  The client that [GetMockStorageClient] returns.  Its three
    protobuf methods have no callback yet, so a call of [Head],
    [ReadProtobuf] or [WriteProtobuf] panics and leaves the state of the
    test alone.  Its raw methods accept every call and keep nothing:
    [WriteRaw] and [CopyRaw] return nil, and [ReadRaw], also after a
    [WriteRaw] under the same reference, returns no error and a closer
    without a reader, whose [Close] returns nil and whose [Read] panics. *)
Theorem X14_fresh_mock_client {S : Type} (ctx : Context)
    (reference destination : DataReference) (msg : Message) (size : Z)
    (raw : list Byte.byte) (s : S) :
  let store := ComposedProtobufStore (@GetMockStorageClient S) in
  (exists v, Head store ctx reference s = (Panicked v, s))
  /\ (exists v, ReadProtobuf store ctx reference msg s = (Panicked v, s))
  /\ (exists v, WriteProtobuf store ctx reference msg s = (Panicked v, s))
  /\ WriteRaw store ctx reference size raw s = (Returned None, s)
  /\ CopyRaw store ctx reference destination s = (Returned None, s)
  /\ (exists closer,
        (_ <- WriteRaw store ctx reference size raw ;;
         ReadRaw store ctx reference) s = (Returned (closer, None), s)
        /\ Reader closer = None
        /\ NopCloser_Close closer = None
        /\ exists v, NopCloser_Read closer s = (Panicked v, s)).
Proof.
  cbv zeta. repeat split; try (eexists; reflexivity).
  eexists. split; [reflexivity |]. repeat split. eexists; reflexivity.
Qed.

End MockStorage.

(** ** What the gateways start *)

Section Serving.
Import Go Entrypoints Vocabulary Observations Examples.

(** The last route of a mux that [newHTTPServer] returns is the gateway,
    dialling the address and with the dial options it was handed. *)
Lemma newHTTPServer_gateway P cfg a grpcAddress opts mux :
  newHTTPServer P cfg a grpcAddress opts tt = (Returned (inl mux), tt) ->
  exists options,
    list.last mux = Some ("/", gwmux options grpcAddress opts).
Proof.
  intros Hn. destruct (UseAuth (Security cfg)) eqn:Hu.
  - destruct (newHTTPServer_auth P cfg a grpcAddress opts mux tt Hu Hn)
      as (ac & _ & -> & _ & _).
    eexists. unfold authMux. destruct (hasUserInfo ac); reflexivity.
  - rewrite (newHTTPServer_plain P cfg a grpcAddress opts Hu) in Hn.
    destruct (RegisterAdminServiceHandlerFromEndpoint P grpcAddress opts);
      [discriminate |].
    injection Hn as <-. eexists. reflexivity.
Qed.

(** X15.  What the insecure gateway starts.  Once the gRPC listener is
    bound and the mux is built, the goroutine of the gateway starts two
    servers, in this order: the gRPC server, handed to a second goroutine
    with the listener of the gRPC address and built without transport
    credentials, then the HTTP server on the host address; the gateway
    route of the mux dials the gRPC address without transport security. *)
Theorem X15_insecure_gateway_serves (P : Platform) (cfg : ServerConfig)
    (a : option AuthenticationContext) (lis : Listener) (httpServer : ServeMux)
    (t : Trace) :
  authContextFor P cfg a ->
  net_Listen P "tcp" (GetGrpcHostAddress cfg) = inl lis ->
  newHTTPServer P cfg a (GetGrpcHostAddress cfg) [WithInsecure] tt
    = (Returned (inl httpServer), tt) ->
  exists grpcServer,
    List.filter starts (snd (serveGatewayInsecure P cfg t))
    = (List.filter starts t
       ++ [ GoServe grpcServer lis;
            ListenAndServe (GetHostAddress cfg)
              (if AllowCors (Security cfg) then corsHandler cfg httpServer
               else MuxServeHTTP httpServer) ])%list
    /\ fst (newGRPCServer cfg a [] t) = Returned (inl grpcServer)
    /\ (forall cert, Creds cert ∉ serverOpts grpcServer)
    /\ (exists options,
          list.last httpServer
          = Some ("/", gwmux options (GetGrpcHostAddress cfg) [WithInsecure])).
Proof.
  intros Ha Hl Hh.
  rewrite (serveGatewayInsecure_serving P cfg a lis httpServer t Ha Hl Hh).
  exists (grpcServerOf cfg a []).
  cbn [fst snd]. split; [| split; [| split]].
  - rewrite List.filter_app. unfold creating. reflexivity.
  - rewrite newGRPCServer_run. reflexivity.
  - intros cert Hin. unfold grpcServerOf in Hin. cbn [serverOpts] in Hin.
    rewrite !elem_of_cons, elem_of_nil in Hin. intuition discriminate.
  - exact (newHTTPServer_gateway P cfg a _ _ httpServer Hh).
Qed.

Lemma X15_insecure_gateway_serves_witness :
  exists grpcServer,
    List.filter starts
      (snd (serveGatewayInsecure platform (config false false false) []))
    = [ GoServe grpcServer ":8089";
        ListenAndServe ":8088" (MuxServeHTTP (plainMux ":8089" [WithInsecure])) ]
    /\ forall cert, Creds cert ∉ serverOpts grpcServer.
Proof.
  destruct (X15_insecure_gateway_serves platform (config false false false) None
              ":8089" (plainMux ":8089" [WithInsecure]) [] eq_refl eq_refl eq_refl)
    as (g & H1 & _ & H2 & _).
  exists g. split; [exact H1 | exact H2].
Defined.

(** X16.  What the secure gateway starts.  Once the TLS material has
    loaded, the mux is built and the listener is bound, the gateway starts
    one server and no other: on the listener of the host address, with the
    host address as its address, the loaded certificate as its only
    certificate and [h2] as the protocol it offers; the gRPC server behind
    it carries the credentials of the same certificate, and the gateway
    route of the mux dials the host address with TLS credentials over the
    loaded certificate pool.  An error of the server is returned wrapped as
    "failed to Start HTTP/2 Server". *)
Theorem X16_secure_gateway_serves (P : Platform) (cfg : ServerConfig)
    (a : option AuthenticationContext) (certPool : CertPool) (cert : Certificate)
    (conn : Listener) (httpServer : ServeMux) (t : Trace) :
  GetSslCredentials P (CertificateFile (Ssl (Security cfg)))
                      (KeyFile (Ssl (Security cfg))) = inl (certPool, cert) ->
  authContextFor P cfg a ->
  newHTTPServer P cfg a (GetHostAddress cfg) [dialTLS cfg certPool] tt
    = (Returned (inl httpServer), tt) ->
  net_Listen P "tcp" (GetHostAddress cfg) = inl conn ->
  exists srv grpcServer,
    List.filter starts (snd (serveGatewaySecure P cfg t))
    = (List.filter starts t ++ [Serve conn srv])%list
    /\ Addr srv = GetHostAddress cfg
    /\ Certificates (TLSConfig_ srv) = [cert]
    /\ NextProtos (TLSConfig_ srv) = ["h2"]
    /\ Handler_ srv = grpcHandlerFunc grpcServer (MuxServeHTTP httpServer)
    /\ list.last (serverOpts grpcServer) = Some (Creds cert)
    /\ (exists options,
          list.last httpServer
          = Some ("/", gwmux options (GetHostAddress cfg)
                         [WithTransportCredentials
                            {| ServerName := GetHostAddress cfg;
                               RootCAs := Some certPool;
                               Certificates := []; NextProtos := [] |}]))
    /\ fst (serveGatewaySecure P cfg t)
       = Returned
           match Server_Serve P conn with
           | Some err => Some (withMessage err "failed to Start HTTP/2 Server")
           | None => None
           end.
Proof.
  intros Hs Ha Hh Hl.
  rewrite (serveGatewaySecure_serving P cfg a certPool cert conn httpServer t
             Hs Ha Hh Hl).
  eexists _, _. cbn [fst snd].
  split; [rewrite List.filter_app; unfold creating; reflexivity |].
  repeat (split; [reflexivity |]).
  split; [exact (newHTTPServer_gateway P cfg a _ _ httpServer Hh) |].
  destruct (Server_Serve P conn); reflexivity.
Qed.

Lemma X16_secure_gateway_serves_witness :
  exists srv grpcServer,
    List.filter starts (snd (serveGatewaySecure platform (config true false true) []))
    = [Serve ":8088" srv]
    /\ Addr srv = ":8088"
    /\ Certificates (TLSConfig_ srv) = ["cert"]
    /\ NextProtos (TLSConfig_ srv) = ["h2"]
    /\ Handler_ srv
       = grpcHandlerFunc grpcServer
           (MuxServeHTTP (plainMux ":8088" [dialTLS (config true false true) "pool"]))
    /\ list.last (serverOpts grpcServer) = Some (Creds "cert").
Proof.
  destruct (X16_secure_gateway_serves platform (config true false true) None
              "pool" "cert" ":8088"
              (plainMux ":8088" [dialTLS (config true false true) "pool"]) []
              eq_refl eq_refl eq_refl eq_refl)
    as (srv & g & H1 & H2 & H3 & H4 & H5 & H6 & _).
  exists srv, g. repeat split; assumption.
Defined.

End Serving.
